(** * Clinical-supply orchestrator: rule engine, reasoning client, depot
      allocation and the hybrid dispatch run, embedded from the Python
      sources under CLINICAL-SUPPLY/app.

    Python values are embedded as they are at run time: integers as [Z],
    floats as IEEE binary64 ([PrimFloat.float]), strings as [string],
    decoded JSON as a small value type.  Dictionaries whose iteration
    order is observable are association lists in insertion order;
    dictionaries that are only looked up are [gmap]s. *)

From Stdlib Require Import ZArith List String Ascii Bool Lia.
From Stdlib Require Import Floats DecimalString.
From Stdlib Require Uint63.
From stdpp Require Import base option list strings gmap.

Local Open Scope Z_scope.
Set Warnings "-inexact-float,-register-all".

(** ** Python numbers *)
Module Py.

(** [float(n)] for a Python int: the nearest binary64.  (CPython raises
    OverflowError once that would be 2^1024 or more; the conversion here
    saturates to an infinity there.  Features are int64 columns, far
    below.) *)
Definition float_of_int (z : Z) : float :=
  SF2Prim (binary_normalize prec emax z 0 false).

(** The floats [int(x)] accepts: CPython raises on the infinities and on
    NaN. *)
Definition int_defined (f : float) : bool :=
  match Prim2SF f with
  | S754_zero _ | S754_finite _ _ _ => true
  | S754_infinity _ | S754_nan => false
  end.

(** [int(x)] for a float: truncation toward zero.  Where [int_defined]
    fails there is no integer value, and 0 stands in. *)
Definition int_of_float (f : float) : Z :=
  match Prim2SF f with
  | S754_finite s m e =>
      let v := if 0 <=? e then Z.pos m * 2 ^ e else Z.pos m / 2 ^ (- e) in
      if s then - v else v
  | _ => 0
  end.

(** [a / b] on two Python ints, [b] nonzero: the correctly rounded
    quotient (CPython's long_true_divide), computed on the integer
    mantissas themselves.  (A quotient beyond the double range, where
    CPython raises OverflowError, comes out as an infinity.) *)
Definition int_as_SF (z : Z) : spec_float :=
  match z with
  | Z0 => S754_zero false
  | Zpos p => S754_finite false p 0
  | Zneg p => S754_finite true p 0
  end.

Definition int_truediv (a b : Z) : float :=
  SF2Prim (SFdiv prec emax (int_as_SF a) (int_as_SF b)).

(** A number that is either an int or a float, as a sort key can be. *)
Inductive num :=
| NInt (z : Z)
| NFloat (f : float).

(** Exact value of a finite float as [m * 2^e], for mixed comparisons. *)
Definition int_lt_float (z : Z) (f : float) : bool :=
  match Prim2SF f with
  | S754_nan => false
  | S754_infinity s => negb s
  | S754_zero _ => z <? 0
  | S754_finite s m e =>
      let v := if s then Z.neg m else Z.pos m in
      if 0 <=? e then z <? v * 2 ^ e else z * 2 ^ (- e) <? v
  end.

Definition float_lt_int (f : float) (z : Z) : bool :=
  match Prim2SF f with
  | S754_nan => false
  | S754_infinity s => s
  | S754_zero _ => 0 <? z
  | S754_finite s m e =>
      let v := if s then Z.neg m else Z.pos m in
      if 0 <=? e then v * 2 ^ e <? z else v <? z * 2 ^ (- e)
  end.

(** [a < b]; Python compares an int with a float by exact value. *)
Definition num_lt (a b : num) : bool :=
  match a, b with
  | NInt x, NInt y => x <? y
  | NInt x, NFloat g => int_lt_float x g
  | NFloat f, NInt y => float_lt_int f y
  | NFloat f, NFloat g => PrimFloat.ltb f g
  end.

(** [a + x] where [x] is a float: the int operand is converted first. *)
Definition num_add_float (a : num) (x : float) : num :=
  match a with
  | NInt z => NFloat (float_of_int z + x)%float
  | NFloat f => NFloat (f + x)%float
  end.

(** [a + b] *)
Definition num_add (a b : num) : num :=
  match a, b with
  | NInt x, NInt y => NInt (x + y)
  | NInt x, NFloat g => NFloat (float_of_int x + g)%float
  | NFloat f, NInt y => NFloat (f + float_of_int y)%float
  | NFloat f, NFloat g => NFloat (f + g)%float
  end.

(** [str(n)] for an int, as an f-string prints it. *)
Definition str_of_int (z : Z) : string :=
  NilZero.string_of_int (Z.to_int z).

(** [list.sort(key=...)] / [sorted]: a stable sort that only asks [<] of
    the keys.  Given as insertion from the right, which yields the one
    stable arrangement whenever [<] orders the keys totally (no NaN key). *)
Section StableSort.
Context {A K : Type} (key : A -> K) (lt : K -> K -> bool).

Fixpoint insert_sorted (x : A) (l : list A) : list A :=
  match l with
  | [] => [x]
  | y :: r => if lt (key y) (key x) then y :: insert_sorted x r else x :: l
  end.

Definition stable_sort (l : list A) : list A :=
  foldr insert_sorted [] l.
End StableSort.

(** A [dict] whose iteration order is observed: the items in insertion
    order. *)
Section Dict.
Context {V : Type}.

Fixpoint dict_get (k : string) (d : list (string * V)) : option V :=
  match d with
  | [] => None
  | (k', v) :: r => if String.eqb k k' then Some v else dict_get k r
  end.

(** [d[k] = v]: an existing key keeps its place, a new one goes last. *)
Fixpoint dict_set (k : string) (v : V) (d : list (string * V)) : list (string * V) :=
  match d with
  | [] => [(k, v)]
  | (k', v') :: r =>
      if String.eqb k k' then (k, v) :: r else (k', v') :: dict_set k v r
  end.

(** [d[k] = f(d[k])] for a key taken from [d] itself. *)
Fixpoint dict_alter (f : V -> V) (k : string) (d : list (string * V)) : list (string * V) :=
  match d with
  | [] => []
  | (k', v') :: r =>
      if String.eqb k k' then (k', f v') :: r else (k', v') :: dict_alter f k r
  end.
End Dict.

End Py.

(** ** app/config.py *)
Module Config.

Record t := {
  GEMINI_API_KEY : string;
  GEMINI_API_KEY_1 : string;
  GEMINI_API_KEY_2 : string;
  GEMINI_API_KEY_3 : string;
  MIN_ORDER_QUANTITY : Z;
  SAFETY_STOCK_MULTIPLIER : float;
  EXPIRY_THRESHOLD_DAYS : Z;
  BATCH_API_SIZE : Z;
  USE_BATCH_API : bool;
  MAX_CONCURRENT_REQUESTS : Z;
  USE_PARALLEL : bool;
  LLM_PRIORITY_THRESHOLD : float;
  LLM_EXPIRY_THRESHOLD : Z;
  USE_SELECTIVE_LLM : bool
}.

(** The class body with no environment variable set. *)
Definition defaults : t := {|
  GEMINI_API_KEY := EmptyString;
  GEMINI_API_KEY_1 := EmptyString;
  GEMINI_API_KEY_2 := EmptyString;
  GEMINI_API_KEY_3 := EmptyString;
  MIN_ORDER_QUANTITY := 10;
  SAFETY_STOCK_MULTIPLIER := 1.2;
  EXPIRY_THRESHOLD_DAYS := 30;
  BATCH_API_SIZE := 5;
  USE_BATCH_API := true;
  MAX_CONCURRENT_REQUESTS := 3;
  USE_PARALLEL := true;
  LLM_PRIORITY_THRESHOLD := 1.5;
  LLM_EXPIRY_THRESHOLD := 60;
  USE_SELECTIVE_LLM := true
|}.

(** [if s:] on a string. *)
Definition nonempty (s : string) : bool :=
  match s with EmptyString => false | _ => true end.

Definition get_gemini_api_keys (c : t) : list string :=
  let keys := [] in
  let keys := if nonempty (GEMINI_API_KEY c) then keys ++ [GEMINI_API_KEY c] else keys in
  let keys := if nonempty (GEMINI_API_KEY_1 c) then keys ++ [GEMINI_API_KEY_1 c] else keys in
  let keys := if nonempty (GEMINI_API_KEY_2 c) then keys ++ [GEMINI_API_KEY_2 c] else keys in
  let keys := if nonempty (GEMINI_API_KEY_3 c) then keys ++ [GEMINI_API_KEY_3 c] else keys in
  keys.

End Config.

(** ** One row of the site-feature frame (app/features.py) *)
Module Features.

(** [days_to_expiry] holds whole days ([.dt.days], or the literal 999), so
    it is an integer even when pandas stores the column as float64.
    [site_id] is a string: the frame is taken with an id on every row.  (An
    empty id cell of the sites file would reach the orchestrator as NaN,
    which equals nothing, itself included; such a frame is not a value of
    this type.) *)
Record row := {
  site_id : string;
  site_name : string;
  region : string;
  weekly_dispense_kits : float;
  projected_30d_demand : Z;
  current_inventory : Z;
  days_to_expiry : Z;
  urgency_score : float
}.

End Features.

(** ** app/rules_engine.py *)
Module RulesEngine.

Record result := {
  action : string;
  quantity : Z;
  reason : string
}.

Definition safety_stock_of (cfg : Config.t) (projected_demand : Z) : Z :=
  Py.int_of_float
    (Py.float_of_int projected_demand
     * (Config.SAFETY_STOCK_MULTIPLIER cfg - Py.float_of_int 1))%float.

Definition recommend_resupply (cfg : Config.t) (site_features : Features.row) : result :=
  let projected_demand := Features.projected_30d_demand site_features in
  let current_inventory := Features.current_inventory site_features in
  let days_to_expiry := Features.days_to_expiry site_features in
  let safety_stock := safety_stock_of cfg projected_demand in
  if days_to_expiry <? Config.EXPIRY_THRESHOLD_DAYS cfg then
    let recommended_quantity :=
      Z.max (Config.MIN_ORDER_QUANTITY cfg)
            (projected_demand + safety_stock - current_inventory) in
    {| action := "resupply";
       quantity := recommended_quantity;
       reason := "Inventory expiring in " ++ Py.str_of_int days_to_expiry ++ " days. "
                 ++ "Projected demand: " ++ Py.str_of_int projected_demand ++ ", "
                 ++ "Current inventory: " ++ Py.str_of_int current_inventory ++ ". "
                 ++ "Resupply needed to maintain stock levels." |}
  else if current_inventory + safety_stock <? projected_demand then
    let recommended_quantity :=
      Z.max (Config.MIN_ORDER_QUANTITY cfg)
            (projected_demand + safety_stock - current_inventory) in
    {| action := "resupply";
       quantity := recommended_quantity;
       reason := "Projected 30-day demand (" ++ Py.str_of_int projected_demand ++ ") exceeds "
                 ++ "current inventory (" ++ Py.str_of_int current_inventory ++ ") plus safety stock. "
                 ++ "Resupply " ++ Py.str_of_int recommended_quantity ++ " kits recommended." |}
  else
    {| action := "no_resupply";
       quantity := 0;
       reason := "Current inventory (" ++ Py.str_of_int current_inventory ++ ") sufficient for "
                 ++ "projected 30-day demand (" ++ Py.str_of_int projected_demand ++ "). "
                 ++ "No resupply needed at this time." |}.

End RulesEngine.

(** ** A raised exception.  Its class and message are not carried: around
      the calls embedded here every handler retries, falls back or raises
      anew in the same way whatever was raised. *)
Inductive outcome (A : Type) :=
| Returns (a : A)
| Raises.
Arguments Returns {A} a.
Arguments Raises {A}.

Definition obind {A B} (x : outcome A) (f : A -> outcome B) : outcome B :=
  match x with
  | Returns a => f a
  | Raises => Raises
  end.

Notation "'do' x <- e ; k" := (obind e (fun x => k))
  (at level 10, x name, e at level 100, k at level 200).

(** A loop that builds a list and is left by the first exception. *)
Fixpoint collect {A} (l : list (outcome A)) : outcome (list A) :=
  match l with
  | [] => Returns []
  | x :: r => do a <- x; do rest <- collect r; Returns (a :: rest)
  end.

(** ** Decoded JSON, as [json.loads] and [response.json()] hand it over *)
Module Json.

Inductive value :=
| Null
| Bool (b : bool)
| Int (z : Z)
| Float (f : float)
| Str (s : string)
| Arr (l : list value)
| Obj (d : list (string * value)).

Abbreviation dict := (list (string * value)).

Definition dict_get (k : string) (d : dict) : option value := Py.dict_get k d.
Definition dict_set (k : string) (v : value) (d : dict) : dict := Py.dict_set k v d.

(** [bool(v)] *)
Definition truthy (v : value) : bool :=
  match v with
  | Null => false
  | Bool b => b
  | Int z => negb (z =? 0)
  | Float f => negb (PrimFloat.eqb f 0)
  | Str s => Config.nonempty s
  | Arr l => match l with [] => false | _ => true end
  | Obj d => match d with [] => false | _ => true end
  end.

(** [len(v)]; TypeError on None, bool and numbers. *)
Definition py_len (v : value) : outcome nat :=
  match v with
  | Arr l => Returns (length l)
  | Str s => Returns (String.length s)
  | Obj d => Returns (length d)
  | _ => Raises
  end.

(** [v[0]]: IndexError on an empty sequence, KeyError on a dict (its keys
    are strings), TypeError otherwise. *)
Definition py_first (v : value) : outcome value :=
  match v with
  | Arr (x :: _) => Returns x
  | Str (String c _) => Returns (Str (String c EmptyString))
  | _ => Raises
  end.

(** [v.get(k, default)]: only a dict has [get]. *)
Definition py_get (v : value) (k : string) (dflt : value) : outcome value :=
  match v with
  | Obj d => Returns (default dflt (dict_get k d))
  | _ => Raises
  end.

(** [k in v] for a string [k]: a key of a dict, an element of a list, a
    substring of a string; TypeError otherwise. *)
Definition is_str (k : string) (v : value) : bool :=
  match v with Str s => String.eqb k s | _ => false end.

Definition py_contains (k : string) (v : value) : outcome bool :=
  match v with
  | Obj d => Returns (bool_decide (is_Some (dict_get k d)))
  | Arr l => Returns (existsb (is_str k) l)
  | Str s => Returns (bool_decide (is_Some (String.index 0 k s)))
  | _ => Raises
  end.

(** [v[k]] for a string [k]: KeyError, or TypeError on a non-dict. *)
Definition py_getitem (v : value) (k : string) : outcome value :=
  match v with
  | Obj d => match dict_get k d with Some x => Returns x | None => Raises end
  | _ => Raises
  end.

(** [v[k] = x]: only a dict takes a string key. *)
Definition py_setitem (v : value) (k : string) (x : value) : outcome value :=
  match v with
  | Obj d => Returns (Obj (dict_set k x d))
  | _ => Raises
  end.

Fixpoint chars (s : string) : list value :=
  match s with
  | EmptyString => []
  | String c r => Str (String c EmptyString) :: chars r
  end.

(** [for x in v]: list elements, characters, dict keys; TypeError
    otherwise. *)
Definition py_iter (v : value) : outcome (list value) :=
  match v with
  | Arr l => Returns l
  | Str s => Returns (chars s)
  | Obj d => Returns (map (fun kv => Str (fst kv)) d)
  | _ => Raises
  end.

End Json.

(** ** app/gemini_client.py *)
Module GeminiClient.

Import Json.

(** The client's key-rotation state.  Model names and the fallback-model
    list only feed [_call_gemini_api], which is the network boundary. *)
Record t := {
  api_keys : list string;
  current_key_index : nat;
  key_failures : gmap string Z;
  key_cooldown : gmap string float;
  max_retries : nat
}.

(** [{key: 0 for key in self.api_keys}] *)
Definition zeroed {V} (zero : V) (keys : list string) : gmap string V :=
  foldl (fun m key => <[key := zero]> m) ∅ keys.

(** [__init__]: raises ValueError when no key is configured. *)
Definition init (cfg : Config.t) : outcome t :=
  let api_keys := Config.get_gemini_api_keys cfg in
  match api_keys with
  | [] => Raises
  | _ => Returns {| api_keys := api_keys;
                    current_key_index := 0;
                    key_failures := zeroed 0 api_keys;
                    key_cooldown := zeroed 0%float api_keys;
                    max_retries := 2 |}
  end.

(** [self.key_cooldown[key] <= current_time]; KeyError on an unknown key.
    A cooldown is the int 0 or a float time stamp; 0 compares as 0.0. *)
Definition cooldown_elapsed (c : t) (current_time : float) (key : string) : outcome bool :=
  match key_cooldown c !! key with
  | Some until => Returns (PrimFloat.leb until current_time)
  | None => Raises
  end.

Fixpoint filter_elapsed (c : t) (current_time : float) (keys : list string)
  : outcome (list string) :=
  match keys with
  | [] => Returns []
  | key :: rest =>
      do ok <- cooldown_elapsed c current_time key;
      do more <- filter_elapsed c current_time rest;
      Returns (if ok then key :: more else more)
  end.

(** [_get_next_available_key]; [current_time] is what [time.time()] read. *)
Definition _get_next_available_key (c : t) (current_time : float)
  : outcome (t * option string) :=
  do available_keys <- filter_elapsed c current_time (api_keys c);
  let '(c, available_keys) :=
    match available_keys with
    | [] =>
        ({| api_keys := api_keys c;
            current_key_index := current_key_index c;
            key_failures := key_failures c;
            key_cooldown := foldl (fun m key => <[key := 0%float]> m)
                                  (key_cooldown c) (api_keys c);
            max_retries := max_retries c |},
         api_keys c)
    | _ => (c, available_keys)
    end in
  match available_keys with
  | [] => Returns (c, None)
  | _ =>
      let n := length available_keys in
      match available_keys !! (current_key_index c mod n)%nat with
      | Some key =>
          Returns ({| api_keys := api_keys c;
                      current_key_index := ((current_key_index c + 1) mod n)%nat;
                      key_failures := key_failures c;
                      key_cooldown := key_cooldown c;
                      max_retries := max_retries c |},
                   Some key)
      | None => Raises
      end
  end.

(** [_mark_key_failure] *)
Definition _mark_key_failure (c : t) (key : string) (status_code : option Z)
    (current_time : float) : outcome t :=
  match key_failures c !! key with
  | None => Raises
  | Some failures =>
      let cooldown_seconds :=
        match status_code with
        | Some 429 => 60
        | Some 503 => 30
        | _ => 10
        end in
      Returns {| api_keys := api_keys c;
                 current_key_index := current_key_index c;
                 key_failures := <[key := failures + 1]> (key_failures c);
                 key_cooldown :=
                   <[key := (current_time + Py.float_of_int cooldown_seconds)%float]>
                     (key_cooldown c);
                 max_retries := max_retries c |}
  end.

(** States a client goes through: built by [init], then any sequence of
    key selections and failure marks at any clock readings. *)
Inductive reachable (cfg : Config.t) : t -> Prop :=
| reach_init c :
    init cfg = Returns c -> reachable cfg c
| reach_next c current_time c' key :
    reachable cfg c ->
    _get_next_available_key c current_time = Returns (c', key) ->
    reachable cfg c'
| reach_mark c key status_code current_time c' :
    reachable cfg c ->
    _mark_key_failure c key status_code current_time = Returns c' ->
    reachable cfg c'.

(** *** Response parsing *)

Definition default_structured_result : value :=
  Obj [("action", Str "no_resupply"); ("quantity", Int 0);
       ("confidence", Float 0.5);
       ("reasons", Arr [Str "Unable to parse structured result"])].

Definition default_draft_message : value :=
  Str "Unable to generate justification message.".

Definition fallback_result (site_id : string) : value :=
  Obj [("structured_result",
        Obj [("action", Str "no_resupply"); ("quantity", Int 0);
             ("confidence", Float 0.3);
             ("reasons", Arr [Str ("Site " ++ site_id ++ " not found in batch response")])]);
       ("draft_message", Str ("Unable to generate LLM analysis for site " ++ site_id ++ "."))].

(** [for attempt in range(max_retries)]: every handler retries while an
    attempt is left and raises on the last one. *)
Fixpoint retry_from {A} (attempt remaining : nat) (body : nat -> outcome A) : outcome A :=
  match remaining with
  | O => Raises
  | S remaining =>
      match body attempt with
      | Returns a => Returns a
      | Raises => retry_from (S attempt) remaining body
      end
  end.

Section Parsing.
(** [json.loads] on the text of a response part. *)
Variable json_loads : string -> outcome value.

(** The text of the first part of the first candidate; the two parsers
    open with the same lines.  Falling out of the [if]s reaches the final
    [raise ValueError]. *)
Definition response_text (response : dict) : outcome value :=
  match dict_get "candidates" response with
  | None => Raises
  | Some candidates =>
      do n <- py_len candidates;
      if (0 <? n)%nat then
        do first <- py_first candidates;
        do content <- py_get first "content" (Obj []);
        do parts <- py_get content "parts" (Arr []);
        if truthy parts then
          do part <- py_first parts;
          do has_text <- py_contains "text" part;
          if has_text then py_getitem part "text" else Raises
        else Raises
      else Raises
  end.

(** [json.loads(text)]: TypeError unless [text] is a string. *)
Definition loads (text : value) : outcome value :=
  match text with
  | Str s => json_loads s
  | _ => Raises
  end.

Definition ensure_key (k : string) (dflt : value) (v : value) : outcome value :=
  do present <- py_contains k v;
  if present then Returns v else py_setitem v k dflt.

(** The loop that fills [results_map].  A dict key must be hashable;
    a hashable key that is not a string is stored by Python under a key
    no site id (a string) ever equals, so it is not kept here. *)
Fixpoint fill_results_map (sites : list value) (results_map : gmap string value)
  : outcome (gmap string value) :=
  match sites with
  | [] => Returns results_map
  | site_result :: rest =>
      do site_id <- py_get site_result "site_id" Null;
      if negb (truthy site_id) then fill_results_map rest results_map
      else
        do site_result <- ensure_key "structured_result" default_structured_result site_result;
        do site_result <- ensure_key "draft_message" default_draft_message site_result;
        do structured_result <- py_getitem site_result "structured_result";
        do draft_message <- py_getitem site_result "draft_message";
        let entry := Obj [("structured_result", structured_result);
                          ("draft_message", draft_message)] in
        match site_id with
        | Str s => fill_results_map rest (<[s := entry]> results_map)
        | Arr _ | Obj _ => Raises
        | _ => fill_results_map rest results_map
        end
  end.

(** The decoded ["sites"] array, item by item. *)
Definition response_sites (response : dict) : outcome (list value) :=
  do text <- response_text response;
  do parsed <- loads text;
  do has_sites <- py_contains "sites" parsed;
  if negb has_sites then Raises
  else
    do sites <- py_getitem parsed "sites";
    py_iter sites.

Definition _parse_batch_response (response : dict) (site_ids : list string)
  : outcome (list value) :=
  do items <- response_sites response;
  do results_map <- fill_results_map items ∅;
  Returns (map (fun site_id =>
                  match results_map !! site_id with
                  | Some r => r
                  | None => fallback_result site_id
                  end) site_ids).

Definition _parse_response (response : dict) : outcome value :=
  do text <- response_text response;
  do parsed <- loads text;
  do parsed <- ensure_key "structured_result" default_structured_result parsed;
  ensure_key "draft_message" default_draft_message parsed.

(** [get_batch_recommendations]; [api attempt] is what
    [_call_gemini_api] did on that attempt. *)
Definition get_batch_recommendations (c : t) (api : nat -> outcome dict)
    (site_ids : list string) : outcome (list value) :=
  match site_ids with
  | [] => Returns []
  | _ =>
      retry_from 0 (max_retries c)
        (fun attempt =>
           do response <- api attempt;
           _parse_batch_response response site_ids)
  end.

Definition get_recommendation_justification (c : t) (api : nat -> outcome dict)
  : outcome value :=
  retry_from 0 (max_retries c)
    (fun attempt =>
       do response <- api attempt;
       _parse_response response).
End Parsing.

End GeminiClient.

(** ** app/depot_optimizer.py *)
Module DepotOptimizer.

Record allocation := {
  depot_id : string;
  site_id : string;
  quantity : Z;
  lead_time_days : Z
}.

Record plan := {
  allocations : list allocation;
  total_allocated : Z;
  unmet_demand : list (string * Z);
  excess_inventory : list (string * Z);
  optimization_score : float
}.

(** [m[a][b]] when both keys are present. *)
Definition lookup2 {V} (m : gmap string (gmap string V)) (a b : string) : option V :=
  match m !! a with
  | Some inner => inner !! b
  | None => None
  end.

Section Allocation.
Variable lead_times : gmap string (gmap string Z).
Variable shipping_costs : option (gmap string (gmap string float)).

(** One pass of the candidate loop of [_find_best_depot]. *)
Definition candidate (site_id : string) (demand : Z) (depot : string * Z)
  : option (string * Z * Py.num) :=
  let '(depot_id, available) := depot in
  if available <=? 0 then None
  else
    match lookup2 lead_times depot_id site_id with
    | None => None
    | Some lead_time =>
        let allocatable := Z.min demand available in
        let score := Py.NInt lead_time in
        let score :=
          match shipping_costs with
          | Some costs =>
              match lookup2 costs depot_id site_id with
              | Some cost => Py.num_add_float score (cost * 0.1)%float
              | None => score
              end
          | None => score
          end in
        Some (depot_id, allocatable, score)
    end.

Definition _find_best_depot (site_id : string) (demand : Z)
    (depot_inventory : list (string * Z)) : option (string * Z) :=
  let candidates := omap (candidate site_id demand) depot_inventory in
  match Py.stable_sort snd Py.num_lt candidates with
  | [] => None
  | (best_depot_id, best_qty, _) :: _ => Some (best_depot_id, best_qty)
  end.

(** What the allocation loop carries from site to site. *)
Record state := {
  st_allocations : list allocation;
  st_total_allocated : Z;
  st_unmet_demand : list (string * Z);
  remaining_depot_inv : list (string * Z)
}.

Definition lead_time_or_7 (depot_id site_id : string) : Z :=
  default 7 (lookup2 lead_times depot_id site_id).

(** The body of [for site_id, net_demand in sorted_sites]. *)
Definition allocate_site (st : state) (site : string * Z) : state :=
  let '(site_id, net_demand) := site in
  if net_demand <=? 0 then st
  else
    match _find_best_depot site_id net_demand (remaining_depot_inv st) with
    | Some (depot_id, allocated_qty) =>
        {| st_allocations :=
             st_allocations st ++
             [ {| depot_id := depot_id; site_id := site_id;
                  quantity := allocated_qty;
                  lead_time_days := lead_time_or_7 depot_id site_id |} ];
           st_total_allocated := st_total_allocated st + allocated_qty;
           st_unmet_demand :=
             if allocated_qty <? net_demand
             then Py.dict_set site_id (net_demand - allocated_qty) (st_unmet_demand st)
             else st_unmet_demand st;
           remaining_depot_inv :=
             Py.dict_alter (fun inv => inv - allocated_qty) depot_id
                           (remaining_depot_inv st) |}
    | None =>
        {| st_allocations := st_allocations st;
           st_total_allocated := st_total_allocated st;
           st_unmet_demand := Py.dict_set site_id net_demand (st_unmet_demand st);
           remaining_depot_inv := remaining_depot_inv st |}
    end.
End Allocation.

(** [net_demands]: filled key by key from [site_demands.items()]. *)
Definition net_demand_of (site_inventory : gmap string Z) (site_id : string) (demand : Z) : Z :=
  let current_inv := default 0 (site_inventory !! site_id) in
  Z.max 0 (demand - current_inv).

Definition net_demands_of (site_demands : list (string * Z))
    (site_inventory : gmap string Z) : list (string * Z) :=
  foldl (fun net_demands '(site_id, demand) =>
           Py.dict_set site_id (net_demand_of site_inventory site_id demand) net_demands)
        [] site_demands.

Definition sum_values (d : list (string * Z)) : Z :=
  foldr Z.add 0 (map snd d).

Definition optimize_depot_allocation
    (site_demands : list (string * Z))
    (depot_inventory : list (string * Z))
    (site_inventory : gmap string Z)
    (lead_times : gmap string (gmap string Z))
    (shipping_costs : option (gmap string (gmap string float))) : plan :=
  let net_demands := net_demands_of site_demands site_inventory in
  let sorted_sites := Py.stable_sort snd (fun a b => b <? a) net_demands in
  let final :=
    foldl (allocate_site lead_times shipping_costs)
          {| st_allocations := []; st_total_allocated := 0;
             st_unmet_demand := []; remaining_depot_inv := depot_inventory |}
          sorted_sites in
  let excess_inventory :=
    foldl (fun excess '(depot_id, remaining) =>
             if 0 <? remaining then Py.dict_set depot_id remaining excess else excess)
          [] (remaining_depot_inv final) in
  let total_demand := sum_values net_demands in
  {| allocations := st_allocations final;
     total_allocated := st_total_allocated final;
     unmet_demand := st_unmet_demand final;
     excess_inventory := excess_inventory;
     optimization_score :=
       if 0 <? total_demand
       then (Py.int_truediv (st_total_allocated final) total_demand
             * Py.float_of_int 100)%float
       else 0%float |}.

End DepotOptimizer.

(** ** app/orchestrator.py *)
Module Orchestrator.

Import Json.

(** The attributes [run] reads or writes.  [max_concurrent] sizes the
    semaphore and the executors: it enters no result, but building them
    raises for a size that is not positive.  The delays ([chunk_delay])
    pace the calls only. *)
Record t := {
  gemini_client : option GeminiClient.t;
  llm_available : bool;
  llm_failure_count : Z;
  max_llm_failures : Z;
  use_batch_api : bool;
  use_parallel : bool;
  use_selective_llm : bool;
  batch_api_size : Z;
  max_concurrent : Z
}.

Definition set_failure_count (o : t) (n : Z) : t :=
  {| gemini_client := gemini_client o;
     llm_available := llm_available o;
     llm_failure_count := n;
     max_llm_failures := max_llm_failures o;
     use_batch_api := use_batch_api o;
     use_parallel := use_parallel o;
     use_selective_llm := use_selective_llm o;
     batch_api_size := batch_api_size o;
     max_concurrent := max_concurrent o |}.

(** One entry of [results]; [enrichment] is the feature row whose fields
    the enrichment step copies into the entry ([None] before that step).
    Waste and excursion data come from collaborators outside this model. *)
Record decision := {
  site_id : string;
  action : value;
  quantity : value;
  confidence : value;
  reason : value;
  llm_used : bool;
  latency_ms : float;
  gemini_result : value;
  enrichment : option Features.row
}.

Definition set_latency (d : decision) (ms : float) : decision :=
  {| site_id := site_id d; action := action d; quantity := quantity d;
     confidence := confidence d; reason := reason d; llm_used := llm_used d;
     latency_ms := ms; gemini_result := gemini_result d;
     enrichment := enrichment d |}.

Definition set_enrichment (d : decision) (row : Features.row) : decision :=
  {| site_id := site_id d; action := action d; quantity := quantity d;
     confidence := confidence d; reason := reason d; llm_used := llm_used d;
     latency_ms := latency_ms d; gemini_result := gemini_result d;
     enrichment := Some row |}.

(** What the world outside supplies during one run: the JSON decoder, what
    [_call_gemini_api] did for each logical call and attempt, the latencies
    the wall clock gave, and the order in which pool futures completed
    (each pick selects one of the futures still pending). *)
Record env := {
  json_loads : string -> outcome value;
  batch_api : nat -> nat -> outcome dict;
  site_api : nat -> nat -> outcome dict;
  batch_latency_share : nat -> float;
  site_latency : nat -> float;
  llm_completion : list nat;
  rules_completion : list nat
}.

(** [as_completed]: the futures in the order they finish. *)
Fixpoint complete_in {A} (fuel : nat) (picks : list nat) (pending : list A) : list A :=
  match fuel with
  | O => []
  | S fuel =>
      match pending with
      | [] => []
      | _ =>
          let i := (hd 0 picks mod length pending)%nat in
          match pending !! i with
          | Some x => x :: complete_in fuel (tl picks) (delete i pending)
          | None => []
          end
      end
  end.

Definition as_completed {A} (picks : list nat) (futures : list A) : list A :=
  complete_in (length futures) picks futures.

(** [l[0:n], l[n:2n], ...] for [range(0, len(l), n)]. *)
Fixpoint chunks_in {A} (fuel : nat) (n : nat) (l : list A) : list (list A) :=
  match fuel with
  | O => []
  | S fuel =>
      match l with
      | [] => []
      | _ => take n l :: chunks_in fuel n (drop n l)
      end
  end.

Definition chunks {A} (n : nat) (l : list A) : list (list A) :=
  chunks_in (length l) n l.

Section Run.
Variable cfg : Config.t.
Variable e : env.

(** The attributes [__init__] sets. *)
Definition attributes : t :=
  let '(client, available) :=
    match GeminiClient.init cfg with
    | Returns c => (Some c, true)
    | Raises => (None, false)
    end in
  {| gemini_client := client;
     llm_available := available;
     llm_failure_count := 0;
     max_llm_failures := 3;
     use_batch_api := Config.USE_BATCH_API cfg && available;
     use_parallel := Config.USE_PARALLEL cfg;
     use_selective_llm := Config.USE_SELECTIVE_LLM cfg;
     batch_api_size := Config.BATCH_API_SIZE cfg;
     max_concurrent := Config.MAX_CONCURRENT_REQUESTS cfg |}.

(** [__init__]: a failing client construction is caught, the orchestrator
    then has no client.  The last line builds the rate limiter when
    [use_parallel] is set, and [Semaphore(n)] raises ValueError for a
    negative [n]. *)
Definition init : outcome t :=
  if Config.USE_PARALLEL cfg && (Config.MAX_CONCURRENT_REQUESTS cfg <? 0) then Raises
  else Returns attributes.

(** [ThreadPoolExecutor(max_workers=n)]: ValueError unless [n] is positive. *)
Definition executor (max_workers : Z) : outcome unit :=
  if 0 <? max_workers then Returns tt else Raises.

Definition _should_use_llm (o : t) (site_row : Features.row) : bool :=
  if negb (use_selective_llm o) || negb (llm_available o) then
    llm_available o && (llm_failure_count o <? max_llm_failures o)
  else
    let urgency_score := Features.urgency_score site_row in
    let days_to_expiry := Features.days_to_expiry site_row in
    let current_inventory := Features.current_inventory site_row in
    let projected_demand := Features.projected_30d_demand site_row in
    if PrimFloat.leb (Config.LLM_PRIORITY_THRESHOLD cfg) urgency_score then true
    else if days_to_expiry <=? Config.LLM_EXPIRY_THRESHOLD cfg then true
    else if current_inventory <? projected_demand then true
    else false.

Definition _process_site_with_rules (row : Features.row) (site_id : string) : decision :=
  let rules_result := RulesEngine.recommend_resupply cfg row in
  {| site_id := site_id;
     action := Str (RulesEngine.action rules_result);
     quantity := Int (RulesEngine.quantity rules_result);
     confidence := Float 0.5;
     reason := Str (RulesEngine.reason rules_result ++ " (Rules engine)");
     llm_used := false;
     latency_ms := 0;
     gemini_result :=
       Obj [("structured_result",
             Obj [("action", Str (RulesEngine.action rules_result));
                  ("quantity", Int (RulesEngine.quantity rules_result));
                  ("confidence", Float 0.5);
                  ("reasons", Arr [Str "Using rules engine"])]);
            ("draft_message", Str (RulesEngine.reason rules_result))];
     enrichment := None |}.

(** The entry built from a client result; a missing key or a value that
    cannot be subscripted raises. *)
Definition llm_decision (site_id : string) (gemini_result : value) (latency_ms : float)
  : outcome decision :=
  do structured_result <- py_getitem gemini_result "structured_result";
  do action <- py_getitem structured_result "action";
  do quantity <- py_getitem structured_result "quantity";
  do confidence <- py_getitem structured_result "confidence";
  do reason <- py_getitem gemini_result "draft_message";
  Returns {| site_id := site_id; action := action; quantity := quantity;
             confidence := confidence; reason := reason; llm_used := true;
             latency_ms := latency_ms; gemini_result := gemini_result;
             enrichment := None |}.

(** The [try] block of [_process_sites_batch_llm]: the client call, then
    one entry per site from the result at the same position (the rule
    entry when the result list is too short). *)
Definition batch_try (client : GeminiClient.t) (api : nat -> outcome dict)
    (sites_batch : list Features.row) : outcome (list decision) :=
  do batch_results <-
    GeminiClient.get_batch_recommendations (json_loads e) client api
      (map Features.site_id sites_batch);
  collect
    (imap (fun idx row =>
             let site_id := Features.site_id row in
             match batch_results !! idx with
             | Some gemini_result => llm_decision site_id gemini_result 0
             | None => Returns (_process_site_with_rules row site_id)
             end) sites_batch).

Definition _process_sites_batch_llm (o : t) (api : nat -> outcome dict)
    (sites_batch : list Features.row) : t * list decision :=
  match gemini_client o, sites_batch with
  | None, _ | _, [] => (o, [])
  | Some client, _ =>
      match batch_try client api sites_batch with
      | Returns processed_sites => (set_failure_count o 0, processed_sites)
      | Raises =>
          (set_failure_count o (llm_failure_count o + 1),
           map (fun row => _process_site_with_rules row (Features.site_id row))
               sites_batch)
      end
  end.

(** The counter is reset as soon as the client returns, before the entry
    is built. *)
Definition _process_site_individual_llm (o : t) (api : nat -> outcome dict)
    (latency_ms : float) (row : Features.row) (site_id : string) : t * decision :=
  match gemini_client o with
  | None => (o, _process_site_with_rules row site_id)
  | Some client =>
      match GeminiClient.get_recommendation_justification (json_loads e) client api with
      | Returns gemini_result =>
          match llm_decision site_id gemini_result latency_ms with
          | Returns d => (set_failure_count o 0, d)
          | Raises => (set_failure_count o (0 + 1), _process_site_with_rules row site_id)
          end
      | Raises =>
          (set_failure_count o (llm_failure_count o + 1),
           _process_site_with_rules row site_id)
      end
  end.

(** [(-urgency_score, days_to_expiry)] compared as tuples. *)
Definition priority_key (row : Features.row) : float * Z :=
  (PrimFloat.opp (Features.urgency_score row), Features.days_to_expiry row).

Definition priority_lt (a b : float * Z) : bool :=
  if PrimFloat.eqb (fst a) (fst b) then snd a <? snd b
  else PrimFloat.ltb (fst a) (fst b).

(** The batch loop, from batch number [batch_num] on: one client call per
    batch, then the batch's share of the latency is written into each of
    its entries before they are appended. *)
Fixpoint run_batches_from (batch_num : nat) (o : t) (batches : list (list Features.row))
  : t * list decision :=
  match batches with
  | [] => (o, [])
  | batch :: rest =>
      let '(o, batch_results) :=
        _process_sites_batch_llm o (batch_api e batch_num) batch in
      let '(o, more) := run_batches_from (S batch_num) o rest in
      (o, map (fun d => set_latency d (batch_latency_share e batch_num)) batch_results
          ++ more)
  end.

Definition run_batches (o : t) (llm_sites : list Features.row) : t * list decision :=
  run_batches_from 0 o (chunks (Z.to_nat (batch_api_size o)) llm_sites).

(** One client call per site, in the given order of (position, row). *)
Fixpoint run_individual (o : t) (tasks : list (nat * Features.row)) : t * list decision :=
  match tasks with
  | [] => (o, [])
  | (i, row) :: rest =>
      let '(o, result) :=
        _process_site_individual_llm o (site_api e i) (site_latency e i)
                                     row (Features.site_id row) in
      let '(o, more) := run_individual o rest in
      (o, result :: more)
  end.

(** One pass of the enrichment loop: the first row of [sites_list] whose
    id equals the entry's is copied into the entry; an entry for which
    there is none is passed over ([continue]) and stays without the
    row's fields. *)
Definition enrich (sites_list : list Features.row) (result : decision) : decision :=
  match find (fun r => String.eqb (Features.site_id r) (site_id result)) sites_list with
  | Some row => set_enrichment result row
  | None => result
  end.

(** Steps 3 to 5 of [run] and the enrichment loop: the list [results] as
    the lanes build it.  The executors the pooled lanes need are built in
    [run] ([llm_executor], [rules_executor]), which raises where one
    cannot be; this is the list of a run in which they could.
    Under the pool, calls act on the failure counter in the order in
    which they complete.  No future fails: the individual call handles
    its own exceptions, and the rule engine raises on no row of an int64
    feature frame (its one fallible step is [int] of the safety-stock
    product), so the handlers around [future.result()] are never
    entered. *)
Definition sort_by_priority (site_features : list Features.row) : list Features.row :=
  Py.stable_sort priority_key priority_lt site_features.

Definition llm_sites_of (o : t) (sites_list : list Features.row) : list Features.row :=
  filter (fun row => _should_use_llm o row = true) sites_list.

Definition rules_sites_of (o : t) (sites_list : list Features.row) : list Features.row :=
  filter (fun row => _should_use_llm o row = false) sites_list.

Definition run_sites (o : t) (site_features : list Features.row) : t * list decision :=
  let sites_list := sort_by_priority site_features in
  let llm_sites := llm_sites_of o sites_list in
  let rules_sites := rules_sites_of o sites_list in
  let '(o, results) :=
    match llm_sites with
    | [] => (o, [])
    | _ =>
        if use_batch_api o && (1 <? batch_api_size o) then run_batches o llm_sites
        else
          let tasks := imap (fun i row => (i, row)) llm_sites in
          if use_parallel o then run_individual o (as_completed (llm_completion e) tasks)
          else run_individual o tasks
    end in
  let rules_results :=
    map (fun row => _process_site_with_rules row (Features.site_id row))
        (if use_parallel o then as_completed (rules_completion e) rules_sites
         else rules_sites) in
  (o, map (enrich sites_list) (results ++ rules_results)).

(** *** Step 7 and the summary *)

(** A quantity as [sum] and the optimizer's arithmetic take it: an int
    (a bool counts as one), a float, or not a number at all. *)
Definition int_of (v : value) : option Z :=
  match v with
  | Int z => Some z
  | Bool b => Some (if b then 1 else 0)
  | _ => None
  end.

Definition num_of (v : value) : option Py.num :=
  match v with
  | Float f => Some (Py.NFloat f)
  | _ => Py.NInt <$> int_of v
  end.

(** [sum(values)]: TypeError at the first value that is not a number. *)
Definition py_sum (values : list value) : outcome Py.num :=
  foldl (fun acc v =>
           do total <- acc;
           match num_of v with
           | Some n => Returns (Py.num_add total n)
           | None => Raises
           end)
        (Returns (Py.NInt 0)) values.

(** [{r["site_id"]: r.get("quantity", 0) for r in results
      if r.get("action") == "resupply"}] *)
Definition site_demands_of (results : list decision) : list (string * value) :=
  foldl (fun site_demands r =>
           if is_str "resupply" (action r)
           then Py.dict_set (site_id r) (quantity r) site_demands
           else site_demands)
        [] results.

(** [{r["site_id"]: r.get("current_inventory", 0) for r in results}] *)
Definition site_inventory_of (results : list decision) : gmap string Z :=
  foldl (fun site_inventory r =>
           <[site_id r :=
               match enrichment r with
               | Some row => Features.current_inventory row
               | None => 0
               end]> site_inventory)
        ∅ results.

Definition int_items (d : list (string * value)) : option (list (string * Z)) :=
  mapM (fun kv => (fun z => (fst kv, z)) <$> int_of (snd kv)) d.

(** The optimizer is embedded over ints, the type it declares.  When a
    resupply quantity is a float its arithmetic is float arithmetic,
    which that embedding does not follow: [DepotInFloats]. *)
Inductive depot_result :=
| DepotPlan (p : DepotOptimizer.plan)
| DepotInFloats.

Definition depot_step (results : list decision) : outcome (option depot_result) :=
  match results with
  | [] => Returns None
  | _ =>
      let site_demands := site_demands_of results in
      let site_inventory := site_inventory_of results in
      do total <- py_sum (map snd site_demands);
      match int_items site_demands with
      | Some demands =>
          let depot_inventory := [("DEPOT_001", DepotOptimizer.sum_values demands * 2)] in
          let lead_times : gmap string (gmap string Z) :=
            {[ "DEPOT_001" := foldl (fun m site_id => <[site_id := 7]> m) ∅
                                    (map fst demands) ]} in
          Returns (Some (DepotPlan
                           (DepotOptimizer.optimize_depot_allocation
                              demands depot_inventory site_inventory lead_times None)))
      | None => Returns (Some DepotInFloats)
      end
  end.

(** The counts and the total of [_compute_summary].  Its averages are
    rounded float statistics that are not kept here; of their computation
    the step that can fail is: reading [projected_30d_demand] off every
    entry. *)
Record summary := {
  total_sites : nat;
  sites_needing_resupply : nat;
  total_quantity : Py.num;
  llm_sites : nat;
  rules_sites : nat
}.

(** [r["projected_30d_demand"]]: the key is one of those the enrichment
    loop copies into the entry; KeyError on an entry the loop passed over. *)
Definition projected_demand_of (r : decision) : outcome Z :=
  match enrichment r with
  | Some row => Returns (Features.projected_30d_demand row)
  | None => Raises
  end.

Definition _compute_summary (results : list decision) : outcome summary :=
  match results with
  | [] => Returns {| total_sites := 0; sites_needing_resupply := 0;
                     total_quantity := Py.NInt 0; llm_sites := 0; rules_sites := 0 |}
  | _ =>
      let total_sites := length results in
      let sites_needing_resupply :=
        length (filter (fun r => is_str "resupply" (action r) = true) results) in
      do total_quantity <- py_sum (map quantity results);
      do projected_demands <- collect (map projected_demand_of results);
      let llm_sites_count := length (filter (fun r => llm_used r = true) results) in
      Returns {| total_sites := total_sites;
                 sites_needing_resupply := sites_needing_resupply;
                 total_quantity := total_quantity;
                 llm_sites := llm_sites_count;
                 rules_sites := total_sites - llm_sites_count |}
  end.

Record run_result := {
  results : list decision;
  run_summary : summary;
  depot_optimization : option depot_result
}.

(** The executor the reasoning lane builds before its first call: only
    for individual calls under [use_parallel]. *)
Definition llm_executor (o : t) (llm_sites : list Features.row) : outcome unit :=
  match llm_sites with
  | [] => Returns tt
  | _ =>
      if use_batch_api o && (1 <? batch_api_size o) then Returns tt
      else if use_parallel o then executor (max_concurrent o)
      else Returns tt
  end.

(** The executor of the rule lane:
    [max_workers=min(self.max_concurrent * 2, len(rules_sites))]. *)
Definition rules_executor (o : t) (rules_sites : list Features.row) : outcome unit :=
  match rules_sites with
  | [] => Returns tt
  | _ =>
      if use_parallel o
      then executor (Z.min (max_concurrent o * 2) (Z.of_nat (length rules_sites)))
      else Returns tt
  end.

(** [run], from the computed site features on.  Loading the data and the
    waste and excursion analyses belong to collaborators outside.  An
    executor that cannot be built ends the run: the reasoning lane's
    before any call is made, the rule lane's after the reasoning lane has
    run (and has left the failure counter where its calls put it). *)
Definition run (o : t) (site_features : list Features.row) : t * outcome run_result :=
  let sites_list := sort_by_priority site_features in
  let llm_sites := llm_sites_of o sites_list in
  let rules_sites := rules_sites_of o sites_list in
  match llm_executor o llm_sites with
  | Raises => (o, Raises)
  | Returns _ =>
      let '(o, results) := run_sites o site_features in
      (o,
       do _ <- rules_executor o rules_sites;
       do depot_optimization <- depot_step results;
       do summary <- _compute_summary results;
       Returns {| results := results;
                  run_summary := summary;
                  depot_optimization := depot_optimization |})
  end.
End Run.

End Orchestrator.

(** * Vocabulary of the specification and example inputs *)

(** The floats that are a zero or a finite number. *)
Definition SF_is_finite (x : spec_float) : bool :=
  match x with
  | S754_zero _ | S754_finite _ _ _ => true
  | S754_infinity _ | S754_nan => false
  end.

Definition has_elapsed (c : GeminiClient.t) (current_time : float) (key : string) : bool :=
  match GeminiClient.key_cooldown c !! key with
  | Some until => PrimFloat.leb until current_time
  | None => false
  end.

Definition elapsed_keys (c : GeminiClient.t) (current_time : float) : list string :=
  filter (fun key => has_elapsed c current_time key = true) (GeminiClient.api_keys c).

(** [n] key selections in a row at one clock reading, and the keys they
    return. *)
Fixpoint select_keys (n : nat) (c : GeminiClient.t) (current_time : float)
  : outcome (GeminiClient.t * list string) :=
  match n with
  | O => Returns (c, [])
  | S n =>
      do first <- GeminiClient._get_next_available_key c current_time;
      match snd first with
      | Some key =>
          do rest <- select_keys n (fst first) current_time;
          Returns (fst rest, key :: snd rest)
      | None => Raises
      end
  end.

Definition keys_tracked (c : GeminiClient.t) : Prop :=
  GeminiClient.api_keys c <> [] /\
  Forall (fun key => key <> EmptyString /\
                     is_Some (GeminiClient.key_cooldown c !! key) /\
                     is_Some (GeminiClient.key_failures c !! key))
         (GeminiClient.api_keys c).

Definition one_key_config : Config.t := {|
  Config.GEMINI_API_KEY := "key-A";
  Config.GEMINI_API_KEY_1 := EmptyString;
  Config.GEMINI_API_KEY_2 := EmptyString;
  Config.GEMINI_API_KEY_3 := EmptyString;
  Config.MIN_ORDER_QUANTITY := 10;
  Config.SAFETY_STOCK_MULTIPLIER := 1.2;
  Config.EXPIRY_THRESHOLD_DAYS := 30;
  Config.BATCH_API_SIZE := 5;
  Config.USE_BATCH_API := true;
  Config.MAX_CONCURRENT_REQUESTS := 3;
  Config.USE_PARALLEL := true;
  Config.LLM_PRIORITY_THRESHOLD := 1.5;
  Config.LLM_EXPIRY_THRESHOLD := 60;
  Config.USE_SELECTIVE_LLM := true
|}.

Definition one_key_client : GeminiClient.t := {|
  GeminiClient.api_keys := ["key-A"%string];
  GeminiClient.current_key_index := 0;
  GeminiClient.key_failures := GeminiClient.zeroed 0 ["key-A"%string];
  GeminiClient.key_cooldown := GeminiClient.zeroed 0%float ["key-A"%string];
  GeminiClient.max_retries := 2
|}.




Definition text_response (text : string) : Json.dict :=
  [("candidates",
    Json.Arr [Json.Obj [("content",
       Json.Obj [("parts", Json.Arr [Json.Obj [("text", Json.Str text)]])])]])].

Definition structured (action : string) (quantity : Z) : Json.value :=
  Json.Obj [("action", Json.Str action); ("quantity", Json.Int quantity);
            ("confidence", Json.Float 0.9); ("reasons", Json.Arr [])].

Definition site_item (site_id action : string) (quantity : Z) : Json.value :=
  Json.Obj [("site_id", Json.Str site_id);
            ("structured_result", structured action quantity);
            ("draft_message", Json.Str "Analysis.")].

Definition loads_sites (items : list Json.value) (text : string) : outcome Json.value :=
  Returns (Json.Obj [("sites", Json.Arr items)]).


(** What a site is allocated in total over the edges of a plan. *)
Definition allocated_to (site : string) (allocations : list DepotOptimizer.allocation) : Z :=
  foldr Z.add 0
    (map DepotOptimizer.quantity
         (filter (fun a => DepotOptimizer.site_id a = site) allocations)).

Definition net_demand (site_inventory : gmap string Z) (site : string * Z) : Z :=
  Z.max 0 (snd site - default 0 (site_inventory !! fst site)).

Definition total_net_demand (site_demands : list (string * Z))
    (site_inventory : gmap string Z) : Z :=
  foldr Z.add 0 (map (net_demand site_inventory) site_demands).

Definition example_demands : list (string * Z) := [("A"%string, 100); ("B"%string, 20)].
Definition example_depots : list (string * Z) := [("D1"%string, 60)].
Definition example_inventory : gmap string Z :=
  <["B"%string := 30]> (<["A"%string := 50]> ∅).
Definition example_lead_times : gmap string (gmap string Z) :=
  {[ "D1"%string := <["B"%string := 5]> (<["A"%string := 5]> ∅) ]}.

(** A state an orchestrator has at the start of a run: built by
    [__init__], with whatever the failure counter was left at. *)
Definition orchestrator_at (cfg : Config.t) (failures : Z) : Orchestrator.t :=
  Orchestrator.set_failure_count (Orchestrator.attributes cfg) failures.

(** The entry the rule lane gives for a row, as it stands in [results]. *)
Definition rule_entry (cfg : Config.t) (sites_list : list Features.row)
    (latency_ms : float) (row : Features.row) : Orchestrator.decision :=
  Orchestrator.enrich sites_list
    (Orchestrator.set_latency
       (Orchestrator._process_site_with_rules cfg row (Features.site_id row))
       latency_ms).

(** An entry built from a client result: marked as such, with the action
    and quantity the result's structured part holds, as they are. *)
Definition from_client (d : Orchestrator.decision) : Prop :=
  Orchestrator.llm_used d = true /\
  exists structured_result,
    Json.py_getitem (Orchestrator.gemini_result d) "structured_result"
    = Returns structured_result /\
    Json.py_getitem structured_result "action" = Returns (Orchestrator.action d) /\
    Json.py_getitem structured_result "quantity" = Returns (Orchestrator.quantity d).

(** The quantity rule of the spec on one entry. *)
Definition quantity_invariant (cfg : Config.t) (d : Orchestrator.decision) : Prop :=
  (Orchestrator.action d = Json.Str "no_resupply" ->
   Orchestrator.quantity d = Json.Int 0) /\
  (Orchestrator.action d = Json.Str "resupply" ->
   exists q, Orchestrator.quantity d = Json.Int q /\ Config.MIN_ORDER_QUANTITY cfg <= q).

Definition site (site_id : string) (demand inventory days : Z) (urgency : float)
  : Features.row :=
  {| Features.site_id := site_id;
     Features.site_name := site_id;
     Features.region := "EU";
     Features.weekly_dispense_kits := 23.5;
     Features.projected_30d_demand := demand;
     Features.current_inventory := inventory;
     Features.days_to_expiry := days;
     Features.urgency_score := urgency |}.

(** The example of the spec: demand 100, inventory 50, 60 days to expiry. *)
Definition example_site : Features.row := site "SITE_001" 100 50 60 1.9607843137254901.

(** A world in which every batch call is answered by the given items. *)
Definition answering (items : list Json.value) : Orchestrator.env :=
  {| Orchestrator.json_loads := loads_sites items;
     Orchestrator.batch_api := fun _ _ => Returns (text_response "{}");
     Orchestrator.site_api := fun _ _ => Raises;
     Orchestrator.batch_latency_share := fun _ => 412.5%float;
     Orchestrator.site_latency := fun _ => 0%float;
     Orchestrator.llm_completion := [];
     Orchestrator.rules_completion := [] |}.

(** A world in which every client call fails. *)
Definition unreachable_service : Orchestrator.env :=
  {| Orchestrator.json_loads := fun _ => Raises;
     Orchestrator.batch_api := fun _ _ => Raises;
     Orchestrator.site_api := fun _ _ => Raises;
     Orchestrator.batch_latency_share := fun _ => 412.5%float;
     Orchestrator.site_latency := fun _ => 0%float;
     Orchestrator.llm_completion := [];
     Orchestrator.rules_completion := [] |}.

(** Individual calls, one after the other, no selective routing. *)
Definition individual_config : Config.t := {|
  Config.GEMINI_API_KEY := "key-A";
  Config.GEMINI_API_KEY_1 := EmptyString;
  Config.GEMINI_API_KEY_2 := EmptyString;
  Config.GEMINI_API_KEY_3 := EmptyString;
  Config.MIN_ORDER_QUANTITY := 10;
  Config.SAFETY_STOCK_MULTIPLIER := 1.2;
  Config.EXPIRY_THRESHOLD_DAYS := 30;
  Config.BATCH_API_SIZE := 5;
  Config.USE_BATCH_API := false;
  Config.MAX_CONCURRENT_REQUESTS := 3;
  Config.USE_PARALLEL := false;
  Config.LLM_PRIORITY_THRESHOLD := 1.5;
  Config.LLM_EXPIRY_THRESHOLD := 60;
  Config.USE_SELECTIVE_LLM := false
|}.

Definition five_sites : list Features.row :=
  [site "S1" 100 50 60 1.9607843137254901; site "S2" 100 50 60 1.9607843137254901;
   site "S3" 100 50 60 1.9607843137254901; site "S4" 100 50 60 1.9607843137254901;
   site "S5" 100 50 60 1.9607843137254901].

(** The service fails on the first four calls and answers the fifth. *)
Definition recovering_service : Orchestrator.env :=
  {| Orchestrator.json_loads := fun _ =>
       Returns (Json.Obj [("structured_result", structured "resupply" 70);
                          ("draft_message", Json.Str "Analysis.")]);
     Orchestrator.batch_api := fun _ _ => Raises;
     Orchestrator.site_api := fun i _ =>
       if (i <? 4)%nat then Raises else Returns (text_response "{}");
     Orchestrator.batch_latency_share := fun _ => 0%float;
     Orchestrator.site_latency := fun _ => 250%float;
     Orchestrator.llm_completion := [];
     Orchestrator.rules_completion := [] |}.

(** A site with a backorder: 20 kits owed, 30 kits of demand. *)
Definition backorder_site : Features.row :=
  site "SITE_009" 30 (-20) 45 (-1.5789473684210527).

(** The example row with another stock level. *)
Definition example_site_stocked (inventory : Z) : Features.row :=
  site "SITE_001" 100 inventory 60 1.9607843137254901.

(** Two keys configured: the primary and the first numbered one. *)
Definition two_key_config : Config.t := {|
  Config.GEMINI_API_KEY := "key-A";
  Config.GEMINI_API_KEY_1 := "key-B";
  Config.GEMINI_API_KEY_2 := EmptyString;
  Config.GEMINI_API_KEY_3 := EmptyString;
  Config.MIN_ORDER_QUANTITY := 10;
  Config.SAFETY_STOCK_MULTIPLIER := 1.2;
  Config.EXPIRY_THRESHOLD_DAYS := 30;
  Config.BATCH_API_SIZE := 5;
  Config.USE_BATCH_API := true;
  Config.MAX_CONCURRENT_REQUESTS := 3;
  Config.USE_PARALLEL := true;
  Config.LLM_PRIORITY_THRESHOLD := 1.5;
  Config.LLM_EXPIRY_THRESHOLD := 60;
  Config.USE_SELECTIVE_LLM := true
|}.

Definition two_key_client : GeminiClient.t := {|
  GeminiClient.api_keys := ["key-A"%string; "key-B"%string];
  GeminiClient.current_key_index := 0;
  GeminiClient.key_failures := GeminiClient.zeroed 0 ["key-A"%string; "key-B"%string];
  GeminiClient.key_cooldown := GeminiClient.zeroed 0%float ["key-A"%string; "key-B"%string];
  GeminiClient.max_retries := 2
|}.

(** The cooldown [_mark_key_failure] sets for a status code, in seconds. *)
Definition cooldown_for (status_code : option Z) : Z :=
  match status_code with
  | Some 429 => 60
  | Some 503 => 30
  | _ => 10
  end.

(** What a depot ships in total over the edges of a plan. *)
Definition drawn_from (depot : string) (allocations : list DepotOptimizer.allocation) : Z :=
  foldr Z.add 0
    (map DepotOptimizer.quantity
         (filter (fun a => DepotOptimizer.depot_id a = depot) allocations)).

(** The net demand the optimizer holds for the site of an edge. *)
Definition net_demand_at (net_demands : list (string * Z))
    (a : DepotOptimizer.allocation) : Z :=
  default 0 (Py.dict_get (DepotOptimizer.site_id a) net_demands).

(** Two depots: the nearer one holds less than site A's net demand. *)
Definition example_two_depots : list (string * Z) :=
  [("D1"%string, 30); ("D2"%string, 60)].
Definition example_two_lead_times : gmap string (gmap string Z) :=
  <["D2"%string := <["B"%string := 7]> (<["A"%string := 7]> ∅)]>
    {[ "D1"%string := <["B"%string := 5]> (<["A"%string := 5]> ∅) ]}.

(** A routine site: stock above the demand, expiry far off. *)
Definition routine_site : Features.row := site "SITE_042" 40 120 200 0.3305785123966942.

(** An edge made for the entry [s] of the sorted net demands: for its
    site, within its net demand, from one of the depots, with the lead
    time of the table. *)
Definition edge_of (lead_times : gmap string (gmap string Z)) (depots : list string)
    (a : DepotOptimizer.allocation) (s : string * Z) : Prop :=
  DepotOptimizer.site_id a = s.1 /\ 0 < DepotOptimizer.quantity a <= s.2 /\
  DepotOptimizer.lookup2 lead_times (DepotOptimizer.depot_id a) (DepotOptimizer.site_id a)
  = Some (DepotOptimizer.lead_time_days a) /\
  DepotOptimizer.depot_id a ∈ depots.

(** What a site is allocated so far plus what is recorded as unmet for it. *)
Definition settled (st : DepotOptimizer.state) (s : string) : Z :=
  allocated_to s (DepotOptimizer.st_allocations st)
  + default 0 (Py.dict_get s (DepotOptimizer.st_unmet_demand st)).

(** The default configuration (no key) with another bound on the requests
    in flight. *)
Definition worker_config (max_concurrent_requests : Z) : Config.t := {|
  Config.GEMINI_API_KEY := EmptyString;
  Config.GEMINI_API_KEY_1 := EmptyString;
  Config.GEMINI_API_KEY_2 := EmptyString;
  Config.GEMINI_API_KEY_3 := EmptyString;
  Config.MIN_ORDER_QUANTITY := 10;
  Config.SAFETY_STOCK_MULTIPLIER := 1.2;
  Config.EXPIRY_THRESHOLD_DAYS := 30;
  Config.BATCH_API_SIZE := 5;
  Config.USE_BATCH_API := true;
  Config.MAX_CONCURRENT_REQUESTS := max_concurrent_requests;
  Config.USE_PARALLEL := true;
  Config.LLM_PRIORITY_THRESHOLD := 1.5;
  Config.LLM_EXPIRY_THRESHOLD := 60;
  Config.USE_SELECTIVE_LLM := true
|}.

(** * Facts *)

(** ** Rounding to binary64 stays finite below 2^1023 *)

Lemma digits2_pos_size p : digits2_pos p = Pos.size p.
Proof. induction p; simpl; congruence. Qed.

Lemma Zdigits2_pos_bounds p :
  2 ^ (Zdigits2 (Z.pos p) - 1) <= Z.pos p < 2 ^ Zdigits2 (Z.pos p).
Proof.
  cbn [Zdigits2]. rewrite digits2_pos_size.
  pose proof (Pos.size_gt p) as Hgt. pose proof (Pos.size_le p) as Hle.
  apply Pos2Z.pos_lt_pos in Hgt. apply Pos2Z.pos_le_pos in Hle.
  rewrite Pos2Z.inj_pow in Hgt, Hle.
  change (Z.pos p~0) with (2 * Z.pos p) in Hle.
  replace (Z.pos (Pos.size p)) with (Z.succ (Z.pos (Pos.size p) - 1)) in Hle by lia.
  rewrite Z.pow_succ_r in Hle by lia.
  split; [lia | exact Hgt].
Qed.

Lemma Zdigits2_le (m k : Z) : 0 <= k -> 0 <= m < 2 ^ k -> 0 <= Zdigits2 m <= k.
Proof.
  intros Hk [Hm Hlt]. destruct m as [|p|p]; [cbn; lia | | lia].
  pose proof (Zdigits2_pos_bounds p) as [Hlo _].
  assert (Hd : 0 < Zdigits2 (Z.pos p)) by (cbn; lia).
  split; [lia|].
  assert (Zdigits2 (Z.pos p) - 1 < k); [|lia].
  apply (Z.pow_lt_mono_r_iff 2); lia.
Qed.

(** One shift to the right halves the mantissa. *)
Lemma shr_1_m mrs : 0 <= shr_m mrs -> shr_m (shr_1 mrs) = shr_m mrs / 2.
Proof.
  destruct mrs as [m r s]. cbn [shr_m]. intros Hm.
  destruct m as [|[p|p|]|p]; cbn [shr_1 shr_m]; try lia; try reflexivity.
  - apply Z.div_unique with 1; lia.
  - apply Z.div_unique with 0; lia.
Qed.

Lemma iter_shr_1_m p : forall mrs, 0 <= shr_m mrs ->
  shr_m (SpecFloat.iter_pos shr_1 p mrs) = shr_m mrs / 2 ^ Z.pos p.
Proof.
  induction p as [p IH|p IH|]; intros mrs Hm; cbn [SpecFloat.iter_pos].
  - assert (H1 : 0 <= shr_m (shr_1 mrs)).
    { rewrite shr_1_m by assumption. apply Z.div_pos; lia. }
    assert (H2 : 0 <= shr_m (SpecFloat.iter_pos shr_1 p (shr_1 mrs))).
    { rewrite IH by assumption. apply Z.div_pos; lia. }
    rewrite IH, IH, shr_1_m by assumption.
    rewrite !Z.div_div by lia. f_equal.
    replace (Z.pos p~1) with (1 + Z.pos p + Z.pos p) by lia.
    rewrite !Z.pow_add_r by lia. lia.
  - assert (H2 : 0 <= shr_m (SpecFloat.iter_pos shr_1 p mrs)).
    { rewrite IH by assumption. apply Z.div_pos; lia. }
    rewrite IH, IH by assumption.
    rewrite !Z.div_div by lia. f_equal.
    replace (Z.pos p~0) with (Z.pos p + Z.pos p) by lia.
    rewrite !Z.pow_add_r by lia. lia.
  - rewrite shr_1_m by assumption. reflexivity.
Qed.

Lemma shr_record_of_loc_m m l : shr_m (shr_record_of_loc m l) = m.
Proof. destruct l as [|[]]; reflexivity. Qed.

(** The exponent and the mantissa that [shr_fexp] leaves. *)
Lemma shr_fexp_shape m e l : 0 <= m ->
  snd (shr_fexp prec emax m e l)
  = e + Z.max 0 (fexp prec emax (Zdigits2 m + e) - e) /\
  shr_m (fst (shr_fexp prec emax m e l))
  = m / 2 ^ Z.max 0 (fexp prec emax (Zdigits2 m + e) - e).
Proof.
  intros Hm. unfold shr_fexp, shr.
  destruct (fexp prec emax (Zdigits2 m + e) - e) as [|p|p] eqn:Hn; cbn [fst snd].
  - rewrite shr_record_of_loc_m. change (Z.max 0 0) with 0.
    rewrite Z.pow_0_r, Z.div_1_r. split; lia.
  - rewrite iter_shr_1_m by (rewrite shr_record_of_loc_m; assumption).
    rewrite shr_record_of_loc_m. rewrite Z.max_r by lia. split; reflexivity.
  - rewrite shr_record_of_loc_m. rewrite Z.max_l by lia.
    rewrite Z.pow_0_r, Z.div_1_r. split; lia.
Qed.

Lemma round_nearest_even_bounds m l :
  m <= round_nearest_even m l <= m + 1.
Proof. destruct l as [|[]]; cbn; try destruct (Z.even m); lia. Qed.

Lemma div_pow2_lt m d k : 0 <= m < 2 ^ d -> 0 <= d -> 0 <= k ->
  m / 2 ^ k < 2 ^ Z.max (d - k) 0.
Proof.
  intros [Hm Hlt] Hd Hk.
  apply Z.div_lt_upper_bound; [lia|].
  destruct (Z.le_gt_cases k d).
  - rewrite Z.max_l by lia. rewrite <- Z.pow_add_r by lia.
    replace (k + (d - k)) with d by lia. exact Hlt.
  - rewrite Z.max_r by lia. rewrite Z.pow_0_r, Z.mul_1_r.
    eapply Z.lt_le_trans; [exact Hlt|]. apply Z.pow_le_mono_r; lia.
Qed.

(** Rounding a mantissa whose value lies below 2^1023 never overflows. *)
Lemma binary_round_aux_finite s m e l :
  0 < m -> e <= 971 -> Zdigits2 m + e <= 1023 ->
  SF_is_finite (binary_round_aux prec emax s m e l) = true.
Proof.
  intros Hm He Hde. unfold binary_round_aux.
  assert (Hm0 : 0 <= m) by lia.
  pose proof (shr_fexp_shape m e l Hm0) as [He1 Hm1].
  destruct (shr_fexp prec emax m e l) as [mrs1 e1]. cbn [fst snd] in He1, Hm1.
  assert (Hd0 : 0 <= Zdigits2 m) by (destruct m; cbn [Zdigits2]; lia).
  set (k := Z.max 0 (fexp prec emax (Zdigits2 m + e) - e)) in *.
  set (d := Zdigits2 m) in *.
  assert (Hdm : 0 <= m < 2 ^ d).
  { destruct m as [|p|p]; try lia. pose proof (Zdigits2_pos_bounds p). subst d. lia. }
  assert (Hk0 : 0 <= k) by lia.
  pose proof (round_nearest_even_bounds (shr_m mrs1) (loc_of_shr_record mrs1)) as Hr.
  set (mr := round_nearest_even (shr_m mrs1) (loc_of_shr_record mrs1)) in *.
  assert (Hm1' : 0 <= shr_m mrs1 < 2 ^ Z.max (d - k) 0).
  { rewrite Hm1. split; [apply Z.div_pos; lia | apply div_pow2_lt; lia]. }
  assert (Hmr : 0 <= mr < 2 ^ (Z.max (d - k) 0 + 1)).
  { rewrite Z.pow_add_r, Z.pow_1_r by lia.
    assert (0 < 2 ^ Z.max (d - k) 0) by (apply Z.pow_pos_nonneg; lia). lia. }
  assert (Hmr0 : 0 <= mr) by lia.
  assert (Hw : 0 <= Z.max (d - k) 0 + 1) by lia.
  pose proof (Zdigits2_le mr _ Hw Hmr) as Hdr.
  pose proof (shr_fexp_shape mr e1 loc_Exact Hmr0) as [He2 Hm2].
  destruct (shr_fexp prec emax mr e1 loc_Exact) as [mrs2 e2]. cbn [fst snd] in He2, Hm2.
  assert (Hk : k = Z.max 0 (Z.max (d + e - 53) (-1074) - e)) by reflexivity.
  assert (He2' : e2 <= 971).
  { rewrite He2. unfold fexp, emin. change prec with 53. change emax with 1024. lia. }
  assert (Hm2' : 0 <= shr_m mrs2).
  { rewrite Hm2. apply Z.div_pos; [lia|]. apply Z.pow_pos_nonneg; lia. }
  destruct (shr_m mrs2) as [|p|p]; [reflexivity| |lia].
  change (emax - prec) with 971.
  rewrite (proj2 (Z.leb_le _ _) He2'). reflexivity.
Qed.

Lemma iter_xO_pow p k : Z.pos (Pos.iter xO p k) = Z.pos p * 2 ^ Z.pos k.
Proof.
  induction k as [|k IH] using Pos.peano_ind.
  - cbn [Pos.iter]. lia.
  - rewrite Pos.iter_succ, Pos2Z.inj_xO, IH, Pos2Z.inj_succ, Z.pow_succ_r by lia. lia.
Qed.

Lemma binary_round_finite s p e :
  e <= 971 -> Zdigits2 (Z.pos p) + e <= 1023 ->
  SF_is_finite (binary_round prec emax s p e) = true.
Proof.
  intros He Hde. unfold binary_round, shl_align.
  pose proof (Zdigits2_pos_bounds p) as [_ Hp].
  change (Z.pos (digits2_pos p)) with (Zdigits2 (Z.pos p)).
  assert (Hd : 0 < Zdigits2 (Z.pos p)) by (cbn; lia).
  destruct (fexp prec emax (Zdigits2 (Z.pos p) + e) - e) as [|k|k] eqn:Hk;
    try (apply binary_round_aux_finite; lia).
  apply binary_round_aux_finite; [lia| |].
  - unfold fexp, emin in *. change prec with 53 in *. change emax with 1024 in *. lia.
  - assert (Hb : 0 <= Z.pos (Pos.iter xO p k) < 2 ^ (Zdigits2 (Z.pos p) + Z.pos k)).
    { rewrite iter_xO_pow, Z.pow_add_r by lia. split; [lia|].
      apply Z.mul_lt_mono_pos_r; [apply Z.pow_pos_nonneg; lia | exact Hp]. }
    apply Zdigits2_le in Hb; lia.
Qed.

(** The sign rides along unchanged through the rounding. *)
Lemma binary_round_sign p e :
  binary_round prec emax true p e = SFopp (binary_round prec emax false p e).
Proof.
  unfold binary_round. destruct (shl_align _ _ _) as [mz ez].
  unfold binary_round_aux.
  destruct (shr_fexp prec emax (Z.pos mz) ez loc_Exact) as [mrs1 e1].
  destruct (shr_fexp prec emax _ e1 loc_Exact) as [mrs2 e2].
  destruct (shr_m mrs2); [reflexivity| |reflexivity].
  destruct (e2 <=? emax - prec); reflexivity.
Qed.

Lemma valid_binary_SFopp x : valid_binary (SFopp x) = valid_binary x.
Proof. destruct x; reflexivity. Qed.

(** [float(n)] of a 64-bit integer is the rounding of [n] itself ... *)
Lemma Prim2SF_float_of_int64 (z : Z) : - 2 ^ 63 <= z < 2 ^ 63 ->
  Prim2SF (Py.float_of_int z) = binary_normalize prec emax z 0 false.
Proof.
  intros Hz. apply Prim2SF_SF2Prim.
  assert (Hpos : forall p, Z.pos p < 2 ^ 63 ->
            valid_binary (binary_round prec emax false p 0) = true).
  { intros p Hp.
    change (binary_round prec emax false p 0)
      with (binary_normalize prec emax (Z.pos p) 0 false).
    rewrite <- (Z.mod_small (Z.pos p) Uint63.wB)
      by (change Uint63.wB with (2 ^ 63); lia).
    rewrite <- Uint63.of_Z_spec, <- of_uint63_spec. apply Prim2SF_valid. }
  destruct z as [|p|p]; cbn [binary_normalize].
  - reflexivity.
  - apply Hpos. lia.
  - rewrite binary_round_sign, valid_binary_SFopp.
    destruct (Z.eq_dec (Z.pos p) (2 ^ 63)) as [Heq|Hne].
    + injection Heq as ->. vm_compute. reflexivity.
    + apply Hpos. lia.
Qed.

(** ... and a finite number: no OverflowError. *)
Lemma float_of_int64_finite (z : Z) : - 2 ^ 63 <= z < 2 ^ 63 ->
  SF_is_finite (Prim2SF (Py.float_of_int z)) = true.
Proof.
  intros Hz. rewrite Prim2SF_float_of_int64 by assumption.
  assert (Hd : forall p, Z.pos p <= 2 ^ 63 -> Zdigits2 (Z.pos p) + 0 <= 1023).
  { intros p Hp.
    assert (Hb : 0 <= Z.pos p < 2 ^ 64) by lia.
    apply Zdigits2_le in Hb; lia. }
  destruct z as [|p|p]; cbn [binary_normalize]; [reflexivity| |];
    apply binary_round_finite; try lia; apply Hd; lia.
Qed.

(** A finite float times a factor below one half stays finite. *)
Lemma SFmul_small_finite x sy my ey :
  valid_binary x = true -> SF_is_finite x = true ->
  ey <= 0 -> Zdigits2 (Z.pos my) + ey <= -1 ->
  SF_is_finite (SFmul prec emax x (S754_finite sy my ey)) = true.
Proof.
  intros Hv Hx Hey Hdy. destruct x as [sx|sx| |sx mx ex]; try discriminate; [reflexivity|].
  cbn [SFmul]. cbn [valid_binary] in Hv. unfold bounded, canonical_mantissa in Hv.
  apply andb_prop in Hv as [Hc Hex]. apply Z.eqb_eq in Hc. apply Z.leb_le in Hex.
  change (Z.pos (digits2_pos mx)) with (Zdigits2 (Z.pos mx)) in Hc.
  unfold fexp, emin in Hc. change prec with 53 in *. change emax with 1024 in *.
  pose proof (Zdigits2_pos_bounds mx) as [_ Hmx].
  pose proof (Zdigits2_pos_bounds my) as [_ Hmy].
  assert (Hdx : 0 < Zdigits2 (Z.pos mx)) by (cbn; lia).
  assert (Hdy0 : 0 < Zdigits2 (Z.pos my)) by (cbn; lia).
  assert (Hb : 0 <= Z.pos (mx * my)
               < 2 ^ (Zdigits2 (Z.pos mx) + Zdigits2 (Z.pos my))).
  { rewrite Pos2Z.inj_mul, Z.pow_add_r by lia. split; [lia|].
    apply Z.mul_lt_mono_nonneg; lia. }
  apply Zdigits2_le in Hb; [|lia].
  apply (binary_round_aux_finite _ (Z.pos (mx * my))); lia.
Qed.

(** The rule engine's [int(projected_demand * (1.2 - 1))] has a value for
    every 64-bit demand: under the shipped multiplier the rule engine
    raises on no row of an int64 feature frame. *)
Lemma safety_stock_int_defined (cfg : Config.t) (projected_demand : Z) :
  Config.SAFETY_STOCK_MULTIPLIER cfg = Config.SAFETY_STOCK_MULTIPLIER Config.defaults ->
  - 2 ^ 63 <= projected_demand < 2 ^ 63 ->
  Py.int_defined
    (Py.float_of_int projected_demand
     * (Config.SAFETY_STOCK_MULTIPLIER cfg - Py.float_of_int 1))%float = true.
Proof.
  intros -> Hd. unfold Py.int_defined.
  change (SF_is_finite
            (Prim2SF (Py.float_of_int projected_demand
                      * (Config.SAFETY_STOCK_MULTIPLIER Config.defaults
                         - Py.float_of_int 1))%float) = true).
  rewrite mul_spec. unfold SF64mul.
  replace (Prim2SF (Config.SAFETY_STOCK_MULTIPLIER Config.defaults - Py.float_of_int 1)%float)
    with (S754_finite false 7205759403792792 (-55)) by (vm_compute; reflexivity).
  apply SFmul_small_finite.
  - apply Prim2SF_valid.
  - apply float_of_int64_finite, Hd.
  - lia.
  - vm_compute. discriminate.
Qed.

Section PyFacts.
Context {A K : Type} (key : A -> K) (lt : K -> K -> bool).

Lemma insert_sorted_perm (x : A) (l : list A) :
  Py.insert_sorted key lt x l ≡ₚ x :: l.
Proof.
  induction l as [|y r IH]; simpl; [done|].
  destruct (lt (key y) (key x)); [|done].
  rewrite IH. apply Permutation_swap.
Qed.

Lemma stable_sort_perm (l : list A) : Py.stable_sort key lt l ≡ₚ l.
Proof.
  unfold Py.stable_sort.
  induction l as [|x r IH]; simpl; [done|].
  by rewrite insert_sorted_perm, IH.
Qed.
End PyFacts.

Section DictFacts.
Context {V : Type}.
Implicit Types d : list (string * V).

Lemma dict_get_None k d : Py.dict_get k d = None <-> k ∉ d.*1.
Proof.
  induction d as [|[k' v] r IH]; simpl.
  - split; [intros _; apply not_elem_of_nil | done].
  - destruct (String.eqb_spec k k') as [->|Hne].
    + split; [done | intros H; exfalso; apply H, elem_of_cons; by left].
    + rewrite IH, not_elem_of_cons. tauto.
Qed.

Lemma dict_get_set_eq k v d : Py.dict_get k (Py.dict_set k v d) = Some v.
Proof.
  induction d as [|[k' v'] r IH]; simpl.
  - by rewrite String.eqb_refl.
  - destruct (String.eqb_spec k k') as [->|Hne]; simpl.
    + by rewrite String.eqb_refl.
    + by destruct (String.eqb_spec k k').
Qed.

Lemma dict_set_fresh k v d : k ∉ d.*1 -> Py.dict_set k v d = d ++ [(k, v)].
Proof.
  induction d as [|[k' v'] r IH]; simpl; [done|].
  rewrite not_elem_of_cons. intros [Hne Hr].
  destruct (String.eqb_spec k k'); [done|]. by rewrite IH.
Qed.

Lemma dict_set_keys k v d :
  (Py.dict_set k v d).*1 = if bool_decide (k ∈ d.*1) then d.*1 else d.*1 ++ [k].
Proof.
  induction d as [|[k' v'] r IH]; cbn [Py.dict_set fmap list_fmap fst].
  - by rewrite bool_decide_eq_false_2 by apply not_elem_of_nil.
  - destruct (String.eqb_spec k k') as [->|Hne]; cbn [fmap list_fmap fst].
    + clear IH. by rewrite bool_decide_eq_true_2 by (apply elem_of_cons; by left).
    + rewrite IH. destruct (decide (k ∈ r.*1)) as [Hin|Hnin].
      * rewrite (bool_decide_eq_true_2 (k ∈ r.*1)) by done.
        by rewrite bool_decide_eq_true_2 by (apply elem_of_cons; by right).
      * rewrite (bool_decide_eq_false_2 (k ∈ r.*1)) by done.
        rewrite bool_decide_eq_false_2; [done|].
        rewrite not_elem_of_cons. done.
Qed.
End DictFacts.

Section DictFacts2.
Context {V : Type}.
Implicit Types d : list (string * V).
Lemma dict_set_NoDup k (v : V) d : NoDup d.*1 -> NoDup (Py.dict_set k v d).*1.
Proof.
  intros Hd. rewrite dict_set_keys. case_bool_decide; [done|].
  apply NoDup_app. split_and!; [done | | apply NoDup_singleton].
  intros x Hx Hx'. apply list_elem_of_singleton in Hx'. by subst.
Qed.
End DictFacts2.

Lemma int_truediv_self (n : Z) : 0 < n -> Py.int_truediv n n = 1%float.
Proof.
  intros Hn. destruct n as [|p|p]; try lia.
  unfold Py.int_truediv, Py.int_as_SF, SFdiv, SFdiv_core_binary.
  replace (Zdigits2 (Z.pos p) + 0 - (Zdigits2 (Z.pos p) + 0)) with 0 by lia.
  change (Z.min (fexp prec emax 0) (0 - 0)) with (-53).
  change (0 - 0 - -53) with 53.
  cbv iota beta.
  assert (Hdiv : Z.div_eucl (Z.shiftl (Z.pos p) 53) (Z.pos p) = (2 ^ 53, 0)).
  { rewrite Z.shiftl_mul_pow2 by lia.
    pose proof (Z.div_eucl_eq (Z.pos p * 2 ^ 53) (Z.pos p) ltac:(lia)) as Heq.
    pose proof (Z.mod_pos_bound (Z.pos p * 2 ^ 53) (Z.pos p) ltac:(lia)) as Hb.
    unfold Z.modulo in Hb.
    destruct (Z.div_eucl (Z.pos p * 2 ^ 53) (Z.pos p)) as [q r].
    assert (r = 0 /\ q = 2 ^ 53) as [-> ->]; [|done].
    assert (Z.pos p * (2 ^ 53 - q) = r) by lia.
    assert (2 ^ 53 - q = 0) by nia. split; lia. }
  rewrite Hdiv.
  assert (Hloc : new_location (Z.pos p) 0 = loc_Exact).
  { unfold new_location. by destruct (Z.even (Z.pos p)). }
  rewrite Hloc. reflexivity.
Qed.

Section KeyRotation.
Import GeminiClient.

Lemma foldl_insert_lookup {V} (z : V) (keys : list string) (m : gmap string V) k :
  foldl (fun m key => <[key := z]> m) m keys !! k =
  if bool_decide (k ∈ keys) then Some z else m !! k.
Proof.
  revert m. induction keys as [|key r IH]; intros m; cbn [foldl].
  - by rewrite bool_decide_eq_false_2 by apply not_elem_of_nil.
  - rewrite IH. destruct (decide (k ∈ r)) as [Hin|Hnin].
    + rewrite bool_decide_eq_true_2 by done.
      by rewrite bool_decide_eq_true_2 by (apply elem_of_cons; by right).
    + rewrite (bool_decide_eq_false_2 (k ∈ r)) by done.
      destruct (decide (k = key)) as [->|Hne].
      * rewrite lookup_insert_eq.
        by rewrite bool_decide_eq_true_2 by (apply elem_of_cons; by left).
      * rewrite lookup_insert_ne by done.
        rewrite bool_decide_eq_false_2; [done|].
        rewrite not_elem_of_cons. done.
Qed.

Lemma api_keys_nonempty cfg :
  Forall (fun key => key <> EmptyString) (Config.get_gemini_api_keys cfg).
Proof.
  unfold Config.get_gemini_api_keys.
  destruct (Config.GEMINI_API_KEY cfg) eqn:E0, (Config.GEMINI_API_KEY_1 cfg) eqn:E1,
    (Config.GEMINI_API_KEY_2 cfg) eqn:E2, (Config.GEMINI_API_KEY_3 cfg) eqn:E3;
    simpl; repeat constructor; done.
Qed.

Lemma init_tracked cfg c : init cfg = Returns c -> keys_tracked c.
Proof.
  unfold init. pose proof (api_keys_nonempty cfg) as Hne.
  destruct (Config.get_gemini_api_keys cfg) as [|k r] eqn:Hk; [done|].
  intros [= <-]. split; [done|]. simpl.
  apply Forall_forall. intros key Hin. split_and!.
  - rewrite Forall_forall in Hne. by apply Hne.
  - unfold zeroed. rewrite foldl_insert_lookup.
    by rewrite bool_decide_eq_true_2.
  - unfold zeroed. rewrite foldl_insert_lookup.
    by rewrite bool_decide_eq_true_2.
Qed.

(** On tracked keys the filter never raises and keeps exactly the keys
    whose cooldown has elapsed. *)
Lemma filter_elapsed_spec c now keys :
  Forall (fun key => is_Some (key_cooldown c !! key)) keys ->
  filter_elapsed c now keys
  = Returns (filter (fun key => has_elapsed c now key = true) keys).
Proof.
  induction 1 as [|key r [until Hu] _ IH]; cbn [filter_elapsed]; [done|].
  assert (Hh : has_elapsed c now key = PrimFloat.leb until now).
  { unfold has_elapsed. by rewrite Hu. }
  unfold cooldown_elapsed. rewrite Hu, IH. cbn [obind].
  rewrite filter_cons, Hh.
  destruct (PrimFloat.leb until now); [by rewrite decide_True | by rewrite decide_False].
Qed.
End KeyRotation.

Section KeyRotation2.
Import GeminiClient.

Lemma get_next_spec c now :
  keys_tracked c ->
  let available := elapsed_keys c now in
  let pool := match available with [] => api_keys c | _ => available end in
  exists key,
    pool !! (current_key_index c mod length pool)%nat = Some key /\
    _get_next_available_key c now =
    Returns ({| api_keys := api_keys c;
                current_key_index := ((current_key_index c + 1) mod length pool)%nat;
                key_failures := key_failures c;
                key_cooldown :=
                  match available with
                  | [] => foldl (fun m key => <[key := 0%float]> m)
                                (key_cooldown c) (api_keys c)
                  | _ => key_cooldown c
                  end;
                max_retries := max_retries c |},
             Some key).
Proof.
  intros [Hne Hall] available pool.
  assert (Hpool : pool <> []).
  { subst pool. destruct available; done. }
  assert (Hlt : (current_key_index c mod length pool < length pool)%nat).
  { apply Nat.mod_upper_bound. destruct pool; simpl; [done | lia]. }
  destruct (lookup_lt_is_Some_2 _ _ Hlt) as [key Hkey].
  exists key. split; [done|].
  unfold _get_next_available_key.
  rewrite filter_elapsed_spec.
  2:{ eapply Forall_impl; [exact Hall|]. by intros ? (?&?&?). }
  cbn [obind]. fold (elapsed_keys c now). fold available.
  subst pool. destruct available as [|a r] eqn:Ha.
  - cbn [api_keys current_key_index key_failures key_cooldown max_retries].
    destruct (api_keys c) as [|k0 r0] eqn:Hk; [done|].
    rewrite <- Hk in *. rewrite Hkey.
    destruct (api_keys c); done.
  - by rewrite Hkey.
Qed.
End KeyRotation2.

Section KeyRotation3.
Import GeminiClient.

Lemma get_next_tracked c now c' key :
  keys_tracked c -> _get_next_available_key c now = Returns (c', key) ->
  keys_tracked c'.
Proof.
  intros Ht Hnext. destruct (get_next_spec c now Ht) as (k & _ & Heq).
  rewrite Heq in Hnext. injection Hnext as <- _.
  destruct Ht as [Hne Hall]. split; [done|]. cbn.
  eapply Forall_impl; [exact Hall|]. intros k' (Hk & Hc & Hf).
  split_and!; [done | | done].
  destruct (elapsed_keys c now); [|done].
  rewrite foldl_insert_lookup. by case_bool_decide.
Qed.

Lemma mark_tracked c key status now c' :
  keys_tracked c -> _mark_key_failure c key status now = Returns c' ->
  keys_tracked c'.
Proof.
  intros [Hne Hall]. unfold _mark_key_failure.
  destruct (key_failures c !! key) as [n|] eqn:Hn; [|done].
  intros [= <-]. split; [done|]. cbn.
  eapply Forall_impl; [exact Hall|]. intros k' (Hk & Hc & Hf).
  split_and!; [done | |].
  - destruct (decide (key = k')) as [->|Hd].
    + by rewrite lookup_insert_eq.
    + by rewrite lookup_insert_ne.
  - destruct (decide (key = k')) as [->|Hd].
    + by rewrite lookup_insert_eq.
    + by rewrite lookup_insert_ne.
Qed.

Lemma reachable_tracked cfg c : reachable cfg c -> keys_tracked c.
Proof.
  induction 1 as [c Hinit | c now c' key _ IH Hnext | c key status now c' _ IH Hmark].
  - by eapply init_tracked.
  - by eapply get_next_tracked.
  - by eapply mark_tracked.
Qed.

Lemma reachable_keys cfg c : reachable cfg c -> api_keys c = Config.get_gemini_api_keys cfg.
Proof.
  induction 1 as [c Hinit | c now c' key Hr IH Hnext | c key status now c' _ IH Hmark].
  - unfold init in Hinit. destruct (Config.get_gemini_api_keys cfg); [done|].
    by injection Hinit as <-.
  - destruct (get_next_spec c now (reachable_tracked _ _ Hr)) as (k & _ & Heq).
    rewrite Heq in Hnext. by injection Hnext as <- _.
  - unfold _mark_key_failure in Hmark.
    destruct (key_failures c !! key); [|done]. by injection Hmark as <-.
Qed.
End KeyRotation3.

Section RoundRobin.
Import GeminiClient.

(** While some cooldown has elapsed, successive selections walk through
    the elapsed keys in order, wrapping around. *)
Lemma get_next_among_elapsed c now :
  keys_tracked c -> elapsed_keys c now <> [] ->
  exists key,
    elapsed_keys c now !! (current_key_index c mod length (elapsed_keys c now))%nat
    = Some key /\
    _get_next_available_key c now =
    Returns ({| api_keys := api_keys c;
                current_key_index :=
                  ((current_key_index c + 1) mod length (elapsed_keys c now))%nat;
                key_failures := key_failures c;
                key_cooldown := key_cooldown c;
                max_retries := max_retries c |},
             Some key).
Proof.
  intros Ht Hav. destruct (get_next_spec c now Ht) as (key & Hkey & Heq).
  cbn zeta in Hkey, Heq. exists key.
  destruct (elapsed_keys c now) as [|a r]; [done|]. by split.
Qed.

Lemma select_keys_cycle n now : forall c,
  keys_tracked c -> elapsed_keys c now <> [] ->
  exists c' keys,
    select_keys n c now = Returns (c', keys) /\
    length keys = n /\
    forall j, (j < n)%nat ->
      keys !! j
      = elapsed_keys c now
          !! ((current_key_index c + j) mod length (elapsed_keys c now))%nat.
Proof.
  induction n as [|n IH]; intros c Ht Hav.
  - exists c, []. split; [done|]. split; [done|]. intros j Hj. lia.
  - destruct (get_next_among_elapsed c now Ht Hav) as (key & Hkey & Heq).
    set (m := length (elapsed_keys c now)) in *.
    set (c1 := {| api_keys := api_keys c;
                  current_key_index := ((current_key_index c + 1) mod m)%nat;
                  key_failures := key_failures c;
                  key_cooldown := key_cooldown c;
                  max_retries := max_retries c |}) in *.
    assert (Hel1 : elapsed_keys c1 now = elapsed_keys c now) by done.
    assert (Ht1 : keys_tracked c1) by (by eapply get_next_tracked).
    destruct (IH c1 Ht1) as (c' & keys & Hsel & Hlen & Hkeys).
    { by rewrite Hel1. }
    exists c', (key :: keys). cbn [select_keys]. rewrite Heq. cbn [obind fst snd].
    rewrite Hsel. cbn [obind fst snd]. split; [done|]. split; [cbn; lia|].
    intros [|j] Hj.
    + cbn [lookup list_lookup]. by rewrite Nat.add_0_r.
    + cbn [lookup list_lookup]. rewrite Hkeys by lia. rewrite Hel1. fold m.
      f_equal. subst c1. cbn [current_key_index].
      rewrite Nat.Div0.add_mod_idemp_l. f_equal. lia.
Qed.
End RoundRobin.

(** C8: on every client state that construction and use can produce, key
    selection returns a configured, non-empty key: the key at position
    [current_key_index mod n] among the keys whose cooldown has elapsed,
    with the index advanced cyclically, so that successive selections walk
    through the elapsed keys in turn; when no cooldown has elapsed, every
    cooldown is reset to 0 and the choice is made among all keys.  It never
    answers [None], so the no-available-key error cannot be raised. *)
Theorem C8_key_selection_never_fails cfg c now :
  GeminiClient.reachable cfg c ->
  exists c' key,
    GeminiClient._get_next_available_key c now = Returns (c', Some key) /\
    key ∈ Config.get_gemini_api_keys cfg /\ key <> EmptyString /\
    match elapsed_keys c now with
    | [] =>
        (forall k, k ∈ GeminiClient.api_keys c ->
                   GeminiClient.key_cooldown c' !! k = Some 0%float) /\
        GeminiClient.api_keys c
          !! (GeminiClient.current_key_index c mod length (GeminiClient.api_keys c))%nat
        = Some key /\
        GeminiClient.current_key_index c'
        = ((GeminiClient.current_key_index c + 1) mod length (GeminiClient.api_keys c))%nat
    | available =>
        available !! (GeminiClient.current_key_index c mod length available)%nat
        = Some key /\
        GeminiClient.current_key_index c'
        = ((GeminiClient.current_key_index c + 1) mod length available)%nat /\
        GeminiClient.key_cooldown c' = GeminiClient.key_cooldown c /\
        forall n, exists c_n keys,
          select_keys n c now = Returns (c_n, keys) /\
          forall j, (j < n)%nat ->
            keys !! j
            = available !! ((GeminiClient.current_key_index c + j) mod length available)%nat
    end.
Proof.
  intros Hr. pose proof (reachable_tracked _ _ Hr) as Ht.
  pose proof (reachable_keys _ _ Hr) as Hkeys.
  destruct (get_next_spec c now Ht) as (key & Hkey & Heq).
  eexists _, key. split; [exact Heq|].
  assert (Hin : key ∈ GeminiClient.api_keys c).
  { apply list_elem_of_lookup_2 in Hkey.
    destruct (elapsed_keys c now) eqn:He; [done|].
    rewrite <- He in Hkey. unfold elapsed_keys in Hkey.
    by apply list_elem_of_filter in Hkey as [_ ?]. }
  split; [by rewrite <- Hkeys|]. split.
  { destruct Ht as [_ Hall]. rewrite Forall_forall in Hall.
    by destruct (Hall key Hin). }
  destruct (elapsed_keys c now) as [|a r] eqn:He; cbn.
  - split_and!; [|done|done]. intros k Hk.
    rewrite foldl_insert_lookup. by rewrite bool_decide_eq_true_2.
  - split_and!; [done..|]. intros n.
    destruct (select_keys_cycle n now c Ht) as (c_n & keys & Hsel & _ & Hcycle).
    { by rewrite He. }
    exists c_n, keys. split; [done|]. by rewrite He in Hcycle.
Qed.

Lemma C8_key_selection_witness :
  GeminiClient.reachable one_key_config one_key_client /\
  exists c' key,
    GeminiClient._get_next_available_key one_key_client 1700000000 = Returns (c', Some key) /\
    key ∈ Config.get_gemini_api_keys one_key_config /\ key <> EmptyString.
Proof.
  assert (H : GeminiClient.reachable one_key_config one_key_client).
  { apply GeminiClient.reach_init. reflexivity. }
  split; [exact H|].
  destruct (C8_key_selection_never_fails one_key_config one_key_client 1700000000 H)
    as (c' & key & Hnext & Hin & Hne & _).
  by exists c', key.
Defined.

Section BatchParse.
Import Json GeminiClient.
Variable json_loads : string -> outcome value.

Lemma dict_get_set_ne {V} k k' (v : V) d :
  k <> k' -> Py.dict_get k (Py.dict_set k' v d) = Py.dict_get k d.
Proof.
  intros Hne. induction d as [|[k0 v0] r IH]; simpl.
  - destruct (String.eqb_spec k k'); done.
  - destruct (String.eqb_spec k' k0) as [->|Hne']; simpl.
    + destruct (String.eqb_spec k k0); done.
    + destruct (String.eqb_spec k k0); done.
Qed.

Lemma ensure_key_obj k dflt d :
  exists d', ensure_key k dflt (Obj d) = Returns (Obj d') /\
    dict_get k d' = Some (default dflt (dict_get k d)) /\
    forall k', k' <> k -> dict_get k' d' = dict_get k' d.
Proof.
  unfold ensure_key. cbn [py_contains obind].
  destruct (dict_get k d) as [v|] eqn:Hk.
  - rewrite bool_decide_eq_true_2 by done. exists d. by rewrite Hk.
  - rewrite bool_decide_eq_false_2 by (by intros [? ?]).
    eexists. split; [reflexivity|]. unfold dict_get, dict_set. split.
    + apply dict_get_set_eq.
    + intros k' Hne. by apply dict_get_set_ne.
Qed.


End BatchParse.




Section DepotFacts.
Import DepotOptimizer.

Lemma sum_values_app (d1 d2 : list (string * Z)) :
  sum_values (d1 ++ d2) = sum_values d1 + sum_values d2.
Proof.
  unfold sum_values. induction d1 as [|[k v] r IH]; simpl; [done|]. lia.
Qed.

Lemma sum_values_perm (d1 d2 : list (string * Z)) :
  d1 ≡ₚ d2 -> sum_values d1 = sum_values d2.
Proof.
  unfold sum_values. induction 1 as [|x l l' _ IH|x y l|l l' l'' _ IH1 _ IH2];
    simpl; lia.
Qed.

Lemma sum_values_set_fresh k v (d : list (string * Z)) :
  k ∉ d.*1 -> sum_values (Py.dict_set k v d) = sum_values d + v.
Proof.
  intros Hk. rewrite dict_set_fresh by done. rewrite sum_values_app.
  unfold sum_values. simpl. lia.
Qed.

Lemma dict_get_Some_elem {V} k (v : V) (d : list (string * V)) :
  NoDup d.*1 -> Py.dict_get k d = Some v <-> (k, v) ∈ d.
Proof.
  induction d as [|[k' v'] r IH]; simpl; intros Hnd.
  - split; [done | by intros ?%elem_of_nil].
  - apply NoDup_cons in Hnd as [Hk' Hr].
    rewrite elem_of_cons. destruct (String.eqb_spec k k') as [->|Hne].
    + split; [intros [= ->]; by left|].
      intros [[= ->]|Hin]; [done|].
      exfalso. apply Hk'. apply list_elem_of_fmap. by exists (k', v).
    + rewrite IH by done. split; [by right|]. by intros [[= -> ->]|?].
Qed.

Lemma dict_get_perm {V} k (d1 d2 : list (string * V)) :
  NoDup d1.*1 -> d1 ≡ₚ d2 -> Py.dict_get k d1 = Py.dict_get k d2.
Proof.
  intros Hnd Hp.
  assert (Hnd2 : NoDup d2.*1) by (by rewrite <- Hp).
  destruct (Py.dict_get k d1) as [v|] eqn:H1.
  - symmetry. apply dict_get_Some_elem; [done|]. rewrite <- Hp.
    by apply dict_get_Some_elem.
  - symmetry. apply dict_get_None. rewrite <- Hp. by apply dict_get_None.
Qed.

(** With distinct keys, filling [net_demands] key by key lists the sites
    in input order, each with its net demand. *)
Lemma net_demands_fold inv (sd acc : list (string * Z)) :
  NoDup sd.*1 -> (forall k, k ∈ sd.*1 -> k ∉ acc.*1) ->
  foldl (fun nd '(site_id, demand) =>
           Py.dict_set site_id (net_demand_of inv site_id demand) nd) acc sd
  = acc ++ map (fun s => (fst s, net_demand inv s)) sd.
Proof.
  revert acc. induction sd as [|[s d] r IH]; intros acc Hnd Hdisj; simpl.
  - by rewrite app_nil_r.
  - apply NoDup_cons in Hnd as [Hs Hr].
    rewrite dict_set_fresh by (apply Hdisj, elem_of_cons; by left).
    rewrite IH; [by rewrite <- app_assoc | done |].
    intros k Hk. rewrite fmap_app, elem_of_app. intros [Hin|Hin].
    + apply (Hdisj k); [apply elem_of_cons; by right | done].
    + simpl in Hin. apply list_elem_of_singleton in Hin. by subst.
Qed.

Lemma net_demands_of_map sd inv :
  NoDup sd.*1 ->
  net_demands_of sd inv = map (fun s => (fst s, net_demand inv s)) sd.
Proof.
  intros Hnd. unfold net_demands_of. rewrite net_demands_fold; [done..|].
  intros k _. apply not_elem_of_nil.
Qed.
End DepotFacts.

Section AllocationLoop.
Import DepotOptimizer.
Variable lead_times : gmap string (gmap string Z).
Variable shipping_costs : option (gmap string (gmap string float)).

(** What [_find_best_depot] hands back is cut from a depot with stock
    left: it is the smaller of the demand and that stock. *)
Lemma find_best_depot_Some site demand inv depot qty :
  _find_best_depot lead_times shipping_costs site demand inv = Some (depot, qty) ->
  exists available,
    (depot, available) ∈ inv /\ 0 < available /\ qty = Z.min demand available /\
    is_Some (lookup2 lead_times depot site).
Proof.
  unfold _find_best_depot.
  set (cands := omap (candidate lead_times shipping_costs site demand) inv).
  destruct (Py.stable_sort snd Py.num_lt cands) as [|[[d q] sc] rest] eqn:Hsort; [done|].
  intros [= -> ->].
  assert (Hin : (depot, qty, sc) ∈ cands).
  { rewrite <- (stable_sort_perm snd Py.num_lt cands), Hsort.
    apply elem_of_cons. by left. }
  apply list_elem_of_omap in Hin as ([d a] & Hda & Hc).
  unfold candidate in Hc.
  destruct (Z.leb_spec a 0); [done|].
  destruct (lookup2 lead_times d site) as [lt|] eqn:Hlt; [|done].
  injection Hc as -> <- _. exists a. by rewrite Hlt.
Qed.

Lemma allocated_to_app s a1 a2 :
  allocated_to s (a1 ++ a2) = allocated_to s a1 + allocated_to s a2.
Proof.
  unfold allocated_to. rewrite filter_app, map_app.
  induction (map quantity (filter _ a1)) as [|x r IH]; simpl; lia.
Qed.

(** One site: what is added to the allocations, the total and the unmet
    demand. *)
Lemma allocate_site_effect st site n :
  0 <= n ->
  let st' := allocate_site lead_times shipping_costs st (site, n) in
  exists q,
    0 <= q <= n /\
    st_total_allocated st' = st_total_allocated st + q /\
    (forall s, allocated_to s (st_allocations st')
               = allocated_to s (st_allocations st) + (if decide (site = s) then q else 0)) /\
    (site ∉ (st_unmet_demand st).*1 ->
     sum_values (st_unmet_demand st') = sum_values (st_unmet_demand st) + (n - q)) /\
    (forall k, k ∈ (st_unmet_demand st').*1 -> k ∈ (st_unmet_demand st).*1 \/ k = site).
Proof.
  intros Hn. cbn zeta. unfold allocate_site.
  destruct (Z.leb_spec n 0).
  { exists 0. split; [lia|]. split; [lia|]. split; [|split; [lia | by left]].
    intros s. destruct (decide (site = s)); lia. }
  destruct (_find_best_depot _ _ site n _) as [[depot q]|] eqn:Hbest.
  - apply find_best_depot_Some in Hbest as (a & _ & Ha & -> & _).
    exists (Z.min n a). cbn [st_allocations st_total_allocated st_unmet_demand].
    split; [lia|]. split; [done|]. split; [|split].
    + intros s. rewrite allocated_to_app. f_equal.
      unfold allocated_to. rewrite filter_cons, filter_nil. cbn.
      destruct (decide (site = s)); simpl; lia.
    + intros Hfresh. destruct (Z.ltb_spec (Z.min n a) n).
      * by rewrite sum_values_set_fresh.
      * lia.
    + intros k. destruct (Z.ltb_spec (Z.min n a) n); [|by left].
      rewrite dict_set_keys. case_bool_decide; [by left|].
      rewrite elem_of_app, list_elem_of_singleton. tauto.
  - exists 0. cbn [st_allocations st_total_allocated st_unmet_demand].
    split; [lia|]. split; [lia|]. split; [|split].
    + intros s. destruct (decide (site = s)); lia.
    + intros Hfresh. rewrite sum_values_set_fresh by done. lia.
    + intros k. rewrite dict_set_keys. case_bool_decide; [by left|].
      rewrite elem_of_app, list_elem_of_singleton. tauto.
Qed.

Lemma loop_conservation (l : list (string * Z)) : forall st,
  NoDup l.*1 -> Forall (fun kv => 0 <= snd kv) l ->
  (forall k, k ∈ l.*1 -> k ∉ (st_unmet_demand st).*1) ->
  let st' := foldl (allocate_site lead_times shipping_costs) st l in
  st_total_allocated st' + sum_values (st_unmet_demand st')
  = st_total_allocated st + sum_values (st_unmet_demand st) + sum_values l.
Proof.
  induction l as [|[s n] r IH]; intros st Hnd Hpos Hdisj; cbn zeta.
  - unfold sum_values. simpl. lia.
  - apply NoDup_cons in Hnd as [Hs Hr].
    apply Forall_cons in Hpos as [Hn Hpos]. cbn in Hn.
    destruct (allocate_site_effect st s n Hn) as (q & Hq & Htot & _ & Hunmet & Hkeys).
    cbn [foldl]. cbn zeta in IH. rewrite IH; [|done|done|].
    + rewrite Htot, Hunmet; [|apply Hdisj, elem_of_cons; by left].
      change (sum_values ((s, n) :: r)) with (n + sum_values r). lia.
    + intros k Hk Hin. apply Hkeys in Hin as [Hin| ->]; [|done].
      apply (Hdisj k); [apply elem_of_cons; by right | done].
Qed.

Lemma loop_site_bound (l : list (string * Z)) s : forall st,
  NoDup l.*1 -> Forall (fun kv => 0 <= snd kv) l ->
  allocated_to s (st_allocations (foldl (allocate_site lead_times shipping_costs) st l))
  <= allocated_to s (st_allocations st) + default 0 (Py.dict_get s l).
Proof.
  induction l as [|[s' n] r IH]; intros st Hnd Hpos.
  - simpl. lia.
  - apply NoDup_cons in Hnd as [Hs Hr].
    apply Forall_cons in Hpos as [Hn Hpos]. cbn in Hn.
    destruct (allocate_site_effect st s' n Hn) as (q & Hq & _ & Halloc & _).
    cbn [foldl]. etransitivity; [apply IH; done|].
    rewrite Halloc. cbn [Py.dict_get].
    destruct (String.eqb_spec s s') as [->|Hne].
    + rewrite decide_True by done.
      assert (Py.dict_get s' r = None) as -> by (by apply dict_get_None).
      simpl. lia.
    + rewrite decide_False by done. lia.
Qed.

Lemma loop_total (l : list (string * Z)) : forall st,
  Forall (fun kv => 0 <= snd kv) l ->
  st_total_allocated st = foldr Z.add 0 (map quantity (st_allocations st)) ->
  let st' := foldl (allocate_site lead_times shipping_costs) st l in
  st_total_allocated st' = foldr Z.add 0 (map quantity (st_allocations st')).
Proof.
  induction l as [|[s n] r IH]; intros st Hpos Hst; cbn zeta; [done|].
  apply Forall_cons in Hpos as [Hn Hpos]. cbn [foldl]. apply IH; [done|].
  unfold allocate_site. destruct (n <=? 0); [done|].
  destruct (_find_best_depot _ _ s n _) as [[depot q]|]; [|done].
  cbn. rewrite map_app, foldr_app. cbn.
  rewrite Hst. generalize (map quantity (st_allocations st)).
  intros qs. induction qs as [|x qs IHq]; simpl; lia.
Qed.
End AllocationLoop.

(** C5: for all inputs of the optimizer (the demands being a dict, so with
    distinct site ids), every site is allocated at most its net demand
    max(0, demand - inventory), and what is allocated plus what is recorded
    as unmet adds up to the total net demand; [total_allocated] is the sum
    of the edges. *)
Theorem C5_allocation_bounded_and_conserved
    (site_demands depot_inventory : list (string * Z))
    (site_inventory : gmap string Z)
    (lead_times : gmap string (gmap string Z))
    (shipping_costs : option (gmap string (gmap string float))) :
  NoDup site_demands.*1 ->
  let p := DepotOptimizer.optimize_depot_allocation
             site_demands depot_inventory site_inventory lead_times shipping_costs in
  Forall (fun site => allocated_to (fst site) (DepotOptimizer.allocations p)
                      <= net_demand site_inventory site) site_demands /\
  DepotOptimizer.total_allocated p + DepotOptimizer.sum_values (DepotOptimizer.unmet_demand p)
  = total_net_demand site_demands site_inventory /\
  DepotOptimizer.total_allocated p
  = foldr Z.add 0 (map DepotOptimizer.quantity (DepotOptimizer.allocations p)).
Proof.
  intros Hnd p. subst p. unfold DepotOptimizer.optimize_depot_allocation.
  cbn [DepotOptimizer.allocations DepotOptimizer.total_allocated
       DepotOptimizer.unmet_demand].
  rewrite net_demands_of_map by done.
  set (nets := map (fun s => (fst s, net_demand site_inventory s)) site_demands).
  set (sorted := Py.stable_sort snd (fun a b => b <? a) nets).
  assert (Hperm : sorted ≡ₚ nets) by apply stable_sort_perm.
  assert (Hkeys : nets.*1 = site_demands.*1).
  { subst nets. clear. induction site_demands as [|[s d] r IH]; [done|].
    cbn. f_equal. exact IH. }
  assert (Hnd_nets : NoDup nets.*1) by (by rewrite Hkeys).
  assert (Hnd_sorted : NoDup sorted.*1) by (by rewrite Hperm).
  assert (Hpos : Forall (fun kv => 0 <= snd kv) sorted).
  { rewrite Hperm. subst nets. apply Forall_forall. intros kv Hin.
    apply list_elem_of_In, in_map_iff in Hin as (s & <- & _).
    unfold net_demand. cbn. lia. }
  split_and!.
  - apply Forall_forall. intros [s d] Hin. cbn [fst].
    etransitivity; [by apply loop_site_bound|]. cbn.
    rewrite (dict_get_perm s sorted nets) by done.
    assert (Py.dict_get s nets = Some (net_demand site_inventory (s, d))) as ->.
    { apply dict_get_Some_elem; [done|]. subst nets.
      apply list_elem_of_In, in_map_iff. exists (s, d). split; [done|].
      by apply list_elem_of_In. }
    simpl. lia.
  - rewrite loop_conservation; [|done|done|].
    + cbn. rewrite (sum_values_perm _ _ Hperm). unfold DepotOptimizer.sum_values.
      subst nets. rewrite map_map. cbn. unfold total_net_demand. rewrite !Z.add_0_l. reflexivity.
    + intros k _. apply not_elem_of_nil.
  - by apply loop_total.
Qed.

Lemma C5_allocation_witness :
  NoDup example_demands.*1 /\
  let p := DepotOptimizer.optimize_depot_allocation
             example_demands example_depots example_inventory example_lead_times None in
  Forall (fun site => allocated_to (fst site) (DepotOptimizer.allocations p)
                      <= net_demand example_inventory site) example_demands /\
  DepotOptimizer.total_allocated p + DepotOptimizer.sum_values (DepotOptimizer.unmet_demand p)
  = total_net_demand example_demands example_inventory /\
  DepotOptimizer.total_allocated p
  = foldr Z.add 0 (map DepotOptimizer.quantity (DepotOptimizer.allocations p)).
Proof.
  assert (H : NoDup example_demands.*1).
  { cbn. apply NoDup_cons. split; [|apply NoDup_singleton].
    rewrite list_elem_of_singleton. discriminate. }
  split; [exact H|].
  exact (C5_allocation_bounded_and_conserved
           example_demands example_depots example_inventory example_lead_times None H).
Defined.

Section Scheduling.
Context {A : Type}.

Lemma complete_in_perm fuel : forall picks (pending : list A),
  (length pending <= fuel)%nat ->
  Orchestrator.complete_in fuel picks pending ≡ₚ pending.
Proof.
  induction fuel as [|fuel IH]; intros picks pending Hlen; simpl.
  - destruct pending; [done | simpl in Hlen; lia].
  - destruct pending as [|x r] eqn:Hp; [done|]. rewrite <- Hp in *.
    assert (Hlt : (hd 0 picks mod length pending < length pending)%nat).
    { apply Nat.mod_upper_bound. rewrite Hp. simpl. lia. }
    destruct (lookup_lt_is_Some_2 _ _ Hlt) as [y Hy]. rewrite Hy.
    etransitivity; [|symmetry; exact (delete_Permutation pending _ y Hy)].
    apply Permutation_skip, IH.
    rewrite length_delete by eauto. lia.
Qed.

Lemma as_completed_perm picks (futures : list A) :
  Orchestrator.as_completed picks futures ≡ₚ futures.
Proof. apply complete_in_perm. lia. Qed.

Lemma chunks_in_concat n fuel : forall (l : list A),
  (0 < n)%nat -> (length l <= fuel)%nat ->
  concat (Orchestrator.chunks_in fuel n l) = l.
Proof.
  induction fuel as [|fuel IH]; intros l Hn Hlen; simpl.
  - destruct l; [done | simpl in Hlen; lia].
  - destruct l as [|x r] eqn:Hl; [done|]. rewrite <- Hl in *.
    cbn [concat]. rewrite IH; [apply take_drop | done |].
    rewrite length_drop. rewrite Hl in *. simpl in *. lia.
Qed.

Lemma chunks_concat n (l : list A) :
  (0 < n)%nat -> concat (Orchestrator.chunks n l) = l.
Proof. intros Hn. by apply chunks_in_concat. Qed.

Lemma chunks_in_nonempty n fuel : forall (l : list A),
  (0 < n)%nat -> Forall (fun b => b <> []) (Orchestrator.chunks_in fuel n l).
Proof.
  induction fuel as [|fuel IH]; intros l Hn; simpl; [done|].
  destruct l as [|x r] eqn:Hl; [done|]. rewrite <- Hl.
  constructor; [|by apply IH].
  rewrite Hl. destruct n; [lia | done].
Qed.
End Scheduling.

Section Dispatch.
Import Orchestrator.
Variable cfg : Config.t.
Variable e : env.

Lemma set_failure_count_same o : set_failure_count o (llm_failure_count o) = o.
Proof. by destruct o. Qed.

Lemma llm_decision_fields sid g lat d :
  llm_decision sid g lat = Returns d ->
  site_id d = sid /\ from_client d /\ enrichment d = None.
Proof.
  unfold llm_decision. intros H.
  repeat match type of H with
         | obind ?x _ = _ => destruct x eqn:?; cbn [obind] in H; [|done]
         end.
  injection H as <-. split_and!; [done | | done].
  split; [done|]. cbn. eauto.
Qed.

Lemma collect_cons_inv {A} (x : outcome A) l ds :
  collect (x :: l) = Returns ds ->
  exists a rest, x = Returns a /\ collect l = Returns rest /\ ds = a :: rest.
Proof.
  cbn [collect]. destruct x as [a|]; [|done]. cbn [obind].
  destruct (collect l) as [rest|]; [|done]. cbn [obind].
  intros [= <-]. by exists a, rest.
Qed.

(** What holds of every entry the batch [try] block builds. *)
Lemma batch_try_Forall2 (R : Features.row -> decision -> Prop)
    (batch_results : list Json.value) (sites_batch : list Features.row) :
  forall (f : nat -> Features.row -> outcome decision) ds,
  (forall idx row d, f idx row = Returns d -> R row d) ->
  collect (imap f sites_batch) = Returns ds ->
  Forall2 R sites_batch ds.
Proof.
  induction sites_batch as [|row rest IH]; intros f ds Hf Hc.
  - injection Hc as <-. constructor.
  - cbn [imap] in Hc. apply collect_cons_inv in Hc as (d & ds' & Hd & Hrest & ->).
    constructor; [by eapply Hf|].
    eapply IH; [|exact Hrest]. intros idx row' d' Hd'. by eapply Hf.
Qed.

(** Every entry of a processed batch stands for the row at the same
    position and is either built from a client result or the rule entry. *)
Lemma process_batch_Forall2 o client api sites_batch :
  gemini_client o = Some client ->
  Forall2 (fun row d =>
             site_id d = Features.site_id row /\ enrichment d = None /\
             (from_client d \/
              d = _process_site_with_rules cfg row (Features.site_id row)))
          sites_batch (_process_sites_batch_llm cfg e o api sites_batch).2.
Proof.
  intros Hc. unfold _process_sites_batch_llm. rewrite Hc.
  destruct sites_batch as [|row0 rest0] eqn:Hb; [constructor|]. rewrite <- Hb.
  destruct (batch_try cfg e client api sites_batch) as [ds|] eqn:Hatt; cbn [snd].
  - unfold batch_try in Hatt.
    destruct (GeminiClient.get_batch_recommendations _ _ _ _) as [batch_results|];
      [|done]. cbn [obind] in Hatt.
    eapply batch_try_Forall2; [exact batch_results| |exact Hatt].
    intros idx row d Hd. cbn beta in Hd.
    destruct (batch_results !! idx).
    + apply llm_decision_fields in Hd as (? & ? & ?). auto.
    + injection Hd as <-. auto.
  - clear. induction sites_batch as [|row r IH]; cbn [map]; constructor; auto.
Qed.

Lemma process_batch_client o api sites_batch :
  gemini_client (_process_sites_batch_llm cfg e o api sites_batch).1 = gemini_client o.
Proof.
  unfold _process_sites_batch_llm.
  destruct (gemini_client o) eqn:Hc, sites_batch; try done.
  by destruct (batch_try _ _ _ _ _).
Qed.

(** The [except] branch of the batch call: the counter goes up by one and
    the whole batch gets its rule entries. *)
Lemma process_batch_raises o client api sites_batch :
  gemini_client o = Some client -> sites_batch <> [] ->
  batch_try cfg e client api sites_batch = Raises ->
  _process_sites_batch_llm cfg e o api sites_batch
  = (set_failure_count o (llm_failure_count o + 1),
     map (fun row => _process_site_with_rules cfg row (Features.site_id row)) sites_batch).
Proof.
  intros Hc Hne Hraise. unfold _process_sites_batch_llm. rewrite Hc, Hraise.
  by destruct sites_batch.
Qed.

(** A client call that raises makes the [try] block raise. *)
Lemma client_raise_is_batch_raise client api sites_batch :
  GeminiClient.get_batch_recommendations (json_loads e) client api
    (map Features.site_id sites_batch) = Raises ->
  batch_try cfg e client api sites_batch = Raises.
Proof. intros H. unfold batch_try. by rewrite H. Qed.

Lemma process_individual_fields o api lat row :
  let d := (_process_site_individual_llm cfg e o api lat row (Features.site_id row)).2 in
  site_id d = Features.site_id row /\ enrichment d = None /\
  (from_client d \/ d = _process_site_with_rules cfg row (Features.site_id row)).
Proof.
  cbn zeta. unfold _process_site_individual_llm.
  destruct (gemini_client o); [|auto].
  destruct (GeminiClient.get_recommendation_justification _ _ _) as [g|]; [|auto].
  destruct (llm_decision _ g lat) as [d|] eqn:Hd; [|auto].
  apply llm_decision_fields in Hd as (? & ? & ?). auto.
Qed.

Lemma run_batches_from_Forall2 batches : forall k o client,
  gemini_client o = Some client ->
  Forall2 (fun row d =>
             site_id d = Features.site_id row /\ enrichment d = None /\
             (from_client d \/
              exists lat, d = set_latency
                                (_process_site_with_rules cfg row (Features.site_id row)) lat))
          (concat batches) (run_batches_from cfg e k o batches).2.
Proof.
  induction batches as [|batch rest IH]; intros k o client Hc; cbn [run_batches_from concat].
  - constructor.
  - pose proof (process_batch_Forall2 o client (batch_api e k) batch Hc) as Hb.
    pose proof (process_batch_client o (batch_api e k) batch) as Hc'.
    destruct (_process_sites_batch_llm cfg e o (batch_api e k) batch) as [o1 ds].
    cbn [fst snd] in *. rewrite Hc in Hc'.
    specialize (IH (S k) o1 client Hc').
    destruct (run_batches_from cfg e (S k) o1 rest) as [o2 more]. cbn [snd] in *.
    apply Forall2_app; [|done].
    apply Forall2_fmap_r. eapply Forall2_impl; [exact Hb|].
    intros row d (Hid & Hen & Hd). cbn. split_and!; [done..|].
    destruct Hd as [?| ->]; [by left | right; eauto].
Qed.

Lemma run_individual_Forall2 tasks : forall o,
  Forall2 (fun task d =>
             site_id d = Features.site_id task.2 /\ enrichment d = None /\
             (from_client d \/
              d = _process_site_with_rules cfg task.2 (Features.site_id task.2)))
          tasks (run_individual cfg e o tasks).2.
Proof.
  induction tasks as [|[i row] rest IH]; intros o; cbn [run_individual].
  - constructor.
  - pose proof (process_individual_fields o (site_api e i) (site_latency e i) row) as Hd.
    destruct (_process_site_individual_llm _ _ o _ _ row _) as [o1 d].
    specialize (IH o1). destruct (run_individual cfg e o1 rest) as [o2 more].
    cbn [snd] in *. by constructor.
Qed.
End Dispatch.

Section RunShape.
Import Orchestrator.
Variable cfg : Config.t.
Variable e : env.

Lemma should_use_llm_available o row :
  _should_use_llm cfg o row = true -> llm_available o = true.
Proof.
  unfold _should_use_llm.
  destruct (use_selective_llm o), (llm_available o); cbn; done.
Qed.

Lemma orchestrator_at_client failures :
  llm_available (orchestrator_at cfg failures) = true ->
  is_Some (gemini_client (orchestrator_at cfg failures)).
Proof.
  unfold orchestrator_at, attributes. destruct (GeminiClient.init cfg); cbn; [eauto | done].
Qed.

Lemma classified_perm o (sites_list : list Features.row) :
  llm_sites_of cfg o sites_list ++ rules_sites_of cfg o sites_list ≡ₚ sites_list.
Proof.
  unfold llm_sites_of, rules_sites_of.
  induction sites_list as [|row r IH]; [done|].
  rewrite !filter_cons. destruct (_should_use_llm cfg o row) eqn:Hu.
  - rewrite decide_True, decide_False by done. cbn. by rewrite IH.
  - rewrite decide_False, decide_True by done.
    rewrite <- Permutation_middle. by rewrite IH.
Qed.

Lemma imap_pair_snd {A} (l : list A) : forall (f : nat -> nat),
  (imap (fun i x => (f i, x)) l).*2 = l.
Proof.
  induction l as [|x r IH]; intros f; [done|].
  cbn [imap fmap list_fmap snd]. f_equal. apply (IH (f ∘ S)).
Qed.

Lemma imap_index_snd {A} (l : list A) : (imap (fun i x => (i, x)) l).*2 = l.
Proof. exact (imap_pair_snd l (fun i => i)). Qed.

Lemma enrich_fields sites_list d :
  site_id (enrich sites_list d) = site_id d /\
  action (enrich sites_list d) = action d /\
  quantity (enrich sites_list d) = quantity d /\
  llm_used (enrich sites_list d) = llm_used d.
Proof. unfold enrich. by destruct (find _ sites_list). Qed.

Lemma enrich_from_client sites_list d :
  from_client d -> from_client (enrich sites_list d).
Proof. unfold enrich. by destruct (find _ sites_list). Qed.

(** The shape of [results]: some arrangement of the input rows, entry by
    entry; each entry carries its row's site id and is either built from
    a client result or is the rule entry of its row. *)
Lemma run_sites_shape failures (site_features : list Features.row) :
  let o := orchestrator_at cfg failures in
  let sites_list := sort_by_priority site_features in
  exists order,
    order ≡ₚ site_features /\
    Forall2 (fun row d =>
               site_id d = Features.site_id row /\
               (from_client d \/ exists lat, d = rule_entry cfg sites_list lat row))
            order (run_sites cfg e o site_features).2.
Proof.
  intros o sites_list. unfold run_sites. fold sites_list.
  set (llm := llm_sites_of cfg o sites_list).
  set (rules := rules_sites_of cfg o sites_list).
  assert (Hsplit : llm ++ rules ≡ₚ site_features).
  { subst llm rules. rewrite classified_perm. apply stable_sort_perm. }
  (* the reasoning lane *)
  assert (Hllm : exists order_llm,
    order_llm ≡ₚ llm /\
    Forall2 (fun row d =>
               site_id d = Features.site_id row /\ enrichment d = None /\
               (from_client d \/
                exists lat, d = set_latency
                  (_process_site_with_rules cfg row (Features.site_id row)) lat))
            order_llm
            (match llm with
             | [] => (o, [])
             | _ =>
                 if use_batch_api o && (1 <? batch_api_size o)
                 then run_batches cfg e o llm
                 else
                   let tasks := imap (fun i row => (i, row)) llm in
                   if use_parallel o
                   then run_individual cfg e o (as_completed (llm_completion e) tasks)
                   else run_individual cfg e o tasks
             end).2).
  { destruct llm as [|row0 rest0] eqn:Hl; [exists []; split; [done | constructor]|].
    rewrite <- Hl.
    assert (Hclient : is_Some (gemini_client o)).
    { apply orchestrator_at_client, (should_use_llm_available _ row0).
      assert (Hin : row0 ∈ llm) by (rewrite Hl; apply elem_of_cons; by left).
      subst llm. unfold llm_sites_of in Hin.
      by apply list_elem_of_filter in Hin as [? _]. }
    destruct Hclient as [client Hclient].
    destruct (use_batch_api o && (1 <? batch_api_size o)) eqn:Hmode.
    - exists llm. split; [done|]. unfold run_batches.
      apply andb_true_iff in Hmode as [_ Hsize%Z.ltb_lt].
      rewrite <- (chunks_concat (Z.to_nat (batch_api_size o)) llm) at 1 by lia.
      by eapply run_batches_from_Forall2.
    - assert (Hind : forall tasks : list (nat * Features.row),
                Forall2 (fun row d =>
                  site_id d = Features.site_id row /\ enrichment d = None /\
                  (from_client d \/
                   exists lat, d = set_latency
                     (_process_site_with_rules cfg row (Features.site_id row)) lat))
                  tasks.*2 (run_individual cfg e o tasks).2).
      { intros tasks. apply Forall2_fmap_l.
        eapply Forall2_impl; [apply run_individual_Forall2|].
        intros task d (Hid & Hen & Hd). split_and!; [done..|].
        destruct Hd as [?| ->]; [by left|]. right. by exists 0%float. }
      cbn zeta. destruct (use_parallel o).
      + eexists. split; [|apply Hind].
        rewrite as_completed_perm. by rewrite imap_index_snd.
      + eexists. split; [|apply Hind]. by rewrite imap_index_snd. }
  destruct Hllm as (order_llm & Hperm_llm & Hres_llm).
  match type of Hres_llm with Forall2 _ _ (snd ?x) => destruct x as [o1 results] end.
  cbn [snd] in *.
  set (rules_order := if use_parallel o1 then as_completed (rules_completion e) rules
                      else rules).
  exists (order_llm ++ rules_order). split.
  { rewrite Hperm_llm, <- Hsplit. apply Permutation_app_head.
    subst rules_order. destruct (use_parallel o1); [apply as_completed_perm | done]. }
  apply Forall2_fmap_r, Forall2_app.
  - eapply Forall2_impl; [exact Hres_llm|]. intros row d (Hid & _ & Hd).
    destruct (enrich_fields sites_list d) as (Hs & _).
    split; [by rewrite Hs|]. destruct Hd as [Hd|[lat ->]]; [left; by apply enrich_from_client|].
    right. by exists lat.
  - apply Forall2_fmap_r, Forall2_same_length_lookup_2; [done|].
    intros i row row' Hrow Hrow'. rewrite Hrow in Hrow'. injection Hrow' as <-.
    destruct (enrich_fields sites_list
                (_process_site_with_rules cfg row (Features.site_id row)))
      as (Hs & _).
    split; [by rewrite Hs|]. right. by exists 0%float.
Qed.
End RunShape.

Section Counting.
Context {A : Type} (f : A -> string).

End Counting.


Section RuleLane.
Variable cfg : Config.t.

Lemma rules_quantity_rule (row : Features.row) :
  let r := RulesEngine.recommend_resupply cfg row in
  (RulesEngine.action r = "no_resupply"%string -> RulesEngine.quantity r = 0) /\
  (RulesEngine.action r = "resupply"%string ->
   Config.MIN_ORDER_QUANTITY cfg <= RulesEngine.quantity r).
Proof.
  cbn zeta. unfold RulesEngine.recommend_resupply.
  destruct (_ <? Config.EXPIRY_THRESHOLD_DAYS cfg); [|destruct (_ <? _)];
    cbn [RulesEngine.action RulesEngine.quantity]; split; intros; try done; lia.
Qed.

Lemma rule_entry_invariant sites_list lat row :
  quantity_invariant cfg (rule_entry cfg sites_list lat row).
Proof.
  unfold quantity_invariant, rule_entry.
  destruct (enrich_fields sites_list
              (Orchestrator.set_latency
                 (Orchestrator._process_site_with_rules cfg row (Features.site_id row)) lat))
    as (_ & -> & -> & _).
  cbn [Orchestrator.action Orchestrator.quantity Orchestrator.set_latency
       Orchestrator._process_site_with_rules].
  destruct (rules_quantity_rule row) as [Hno Hre]. cbn zeta in *.
  split; intros [= Ha]; [by rewrite Hno | eauto].
Qed.
End RuleLane.

(** C2 (counterexample): with one key configured and the service answering
    "resupply, quantity 5" for the site, the run's entry for the site is a
    resupply of 5, below the minimum order quantity 10. *)
Lemma C2_counterexample_small_llm_quantity :
  ~ Forall (quantity_invariant one_key_config)
      (Orchestrator.run_sites one_key_config
         (answering [site_item "SITE_001" "resupply" 5])
         (orchestrator_at one_key_config 0) [example_site]).2.
Proof.
  intros H.
  assert (exists d rest,
    (Orchestrator.run_sites one_key_config
       (answering [site_item "SITE_001" "resupply" 5])
       (orchestrator_at one_key_config 0) [example_site]).2 = d :: rest /\
    Orchestrator.action d = Json.Str "resupply" /\
    Orchestrator.quantity d = Json.Int 5) as (d & rest & Hres & Ha & Hq).
  { eexists _, _. split_and!; [vm_compute; reflexivity | reflexivity | reflexivity]. }
  rewrite Hres in H. apply Forall_cons in H as [[_ Hre] _].
  destruct (Hre Ha) as (q & Hq' & Hmin). rewrite Hq in Hq'. injection Hq' as <-.
  cbn in Hmin. lia.
Qed.

(** C2 (amended): every entry the rule lane produced (not marked as LLM
    output) has quantity 0 when it says no_resupply and at least
    min_order_quantity when it says resupply; an entry built from a client
    result carries the action and quantity of that result unchanged. *)
Theorem C2_rule_lane_quantities (cfg : Config.t) (e : Orchestrator.env)
    (failures : Z) (site_features : list Features.row) :
  Forall (fun d =>
            (Orchestrator.llm_used d = false /\ quantity_invariant cfg d) \/
            from_client d)
         (Orchestrator.run_sites cfg e (orchestrator_at cfg failures) site_features).2.
Proof.
  destruct (run_sites_shape cfg e failures site_features) as (order & _ & Hshape).
  cbn zeta in Hshape.
  induction Hshape as [|row d rows ds [_ Hd] _ IH]; constructor; [|done].
  destruct Hd as [Hd|[lat ->]]; [by right|]. left. split.
  - unfold rule_entry.
    by destruct (enrich_fields (Orchestrator.sort_by_priority site_features)
                (Orchestrator.set_latency
                   (Orchestrator._process_site_with_rules cfg row (Features.site_id row)) lat))
      as (_ & _ & _ & ->).
  - apply rule_entry_invariant.
Qed.

(** C4 (the code at the failing input): five sites, the first four client
    calls fail.  All five sites are classified to the reasoning lane before
    any call is made; after the fourth failure the counter is 4, above the
    budget 3, and the fifth site is still sent to the client, whose answer
    becomes its entry (and resets the counter to 0). *)
Theorem C4_breaker_not_consulted_within_run :
  let o := orchestrator_at individual_config 0 in
  Orchestrator.llm_sites_of individual_config o (Orchestrator.sort_by_priority five_sites)
  = five_sites /\
  Orchestrator.max_llm_failures o = 3 /\
  Orchestrator.llm_failure_count
    (Orchestrator.run_sites individual_config recovering_service o (take 4 five_sites)).1 = 4 /\
  map Orchestrator.llm_used
      (Orchestrator.run_sites individual_config recovering_service o five_sites).2
  = [false; false; false; false; true] /\
  Orchestrator.llm_failure_count
    (Orchestrator.run_sites individual_config recovering_service o five_sites).1 = 0.
Proof. vm_compute. repeat split; reflexivity. Qed.

Section BatchDegradation.
Import Orchestrator.
Variable cfg : Config.t.
Variable e : env.

Lemma run_batches_from_raises batches : forall k0 o client k batch,
  gemini_client o = Some client ->
  batches !! k = Some batch -> batch <> [] ->
  batch_try cfg e client (batch_api e (k0 + k)) batch = Raises ->
  forall row, row ∈ batch ->
    set_latency (_process_site_with_rules cfg row (Features.site_id row))
                (batch_latency_share e (k0 + k))
    ∈ (run_batches_from cfg e k0 o batches).2.
Proof.
  induction batches as [|b rest IH]; intros k0 o client k batch Hc Hk Hne Hraise row Hrow;
    [done|].
  cbn [run_batches_from].
  pose proof (process_batch_client cfg e o (batch_api e k0) b) as Hc'.
  rewrite Hc in Hc'. destruct k as [|k].
  - injection Hk as ->. rewrite Nat.add_0_r in *.
    rewrite (process_batch_raises cfg e o client _ batch Hc Hne Hraise).
    destruct (run_batches_from cfg e (S k0) _ rest) as [o2 more]. cbn [snd].
    apply elem_of_app. left. rewrite <- list_fmap_compose.
    apply list_elem_of_fmap. by exists row.
  - destruct (_process_sites_batch_llm cfg e o (batch_api e k0) b) as [o1 ds].
    cbn [fst] in Hc'. cbn [lookup list_lookup] in Hk.
    rewrite Nat.add_succ_r in *.
    specialize (IH (S k0) o1 client k batch Hc' Hk Hne Hraise row Hrow).
    destruct (run_batches_from cfg e (S k0) o1 rest) as [o2 more]. cbn [snd] in *.
    apply elem_of_app. by right.
Qed.
End BatchDegradation.

(** C6: when the [try] block of a batch raises (the client call raised, or
    its result could not be turned into entries), the batch call leaves the
    failure counter one higher and returns the rule entry of every row of
    the batch; each of these stands in the run's [results] (with the batch's
    latency share and the enrichment): the rule engine's action and
    quantity, its reason followed by " (Rules engine)", not marked as LLM
    output. *)
Theorem C6_failed_batch_degrades_to_rules (cfg : Config.t) (e : Orchestrator.env)
    (failures : Z) (site_features : list Features.row)
    (client : GeminiClient.t) (k : nat) (batch : list Features.row) :
  let o := orchestrator_at cfg failures in
  let sites_list := Orchestrator.sort_by_priority site_features in
  Orchestrator.gemini_client o = Some client ->
  Orchestrator.use_batch_api o && (1 <? Orchestrator.batch_api_size o) = true ->
  Orchestrator.chunks (Z.to_nat (Orchestrator.batch_api_size o))
    (Orchestrator.llm_sites_of cfg o sites_list) !! k = Some batch ->
  Orchestrator.batch_try cfg e client (Orchestrator.batch_api e k) batch = Raises ->
  Orchestrator._process_sites_batch_llm cfg e o (Orchestrator.batch_api e k) batch
  = (Orchestrator.set_failure_count o (Orchestrator.llm_failure_count o + 1),
     map (fun row => Orchestrator._process_site_with_rules cfg row (Features.site_id row))
         batch) /\
  Forall (fun row =>
            let d := rule_entry cfg sites_list (Orchestrator.batch_latency_share e k) row in
            let r := RulesEngine.recommend_resupply cfg row in
            d ∈ (Orchestrator.run_sites cfg e o site_features).2 /\
            Orchestrator.site_id d = Features.site_id row /\
            Orchestrator.llm_used d = false /\
            Orchestrator.action d = Json.Str (RulesEngine.action r) /\
            Orchestrator.quantity d = Json.Int (RulesEngine.quantity r) /\
            Orchestrator.reason d = Json.Str (RulesEngine.reason r ++ " (Rules engine)"))
         batch.
Proof.
  intros o sites_list Hc Hmode Hk Hraise.
  assert (Hne : batch <> []).
  { apply list_elem_of_lookup_2 in Hk.
    apply andb_true_iff in Hmode as [_ Hsize%Z.ltb_lt].
    pose proof (chunks_in_nonempty (Z.to_nat (Orchestrator.batch_api_size o))
                  (length (Orchestrator.llm_sites_of cfg o sites_list))
                  (Orchestrator.llm_sites_of cfg o sites_list) ltac:(lia)) as Hall.
    rewrite Forall_forall in Hall. by apply Hall. }
  split; [by apply (process_batch_raises cfg e o client)|].
  apply Forall_forall. intros row Hrow. cbn zeta. split.
  - unfold Orchestrator.run_sites. fold sites_list.
    destruct (Orchestrator.llm_sites_of cfg o sites_list) as [|row0 rest0] eqn:Hl.
    { by destruct (Z.to_nat _). }
    rewrite <- Hl in *. rewrite Hmode. unfold Orchestrator.run_batches.
    pose proof (run_batches_from_raises cfg e _ 0%nat o client k batch Hc Hk Hne Hraise
                  row Hrow) as Hin.
    destruct (Orchestrator.run_batches_from cfg e 0 o _) as [o1 rs]. cbn [snd] in *.
    unfold rule_entry. apply list_elem_of_fmap. eexists. split; [reflexivity|].
    apply elem_of_app. by left.
  - unfold rule_entry, Orchestrator.enrich. by destruct (find _ sites_list).
Qed.

Lemma C6_failed_batch_witness :
  (Orchestrator.gemini_client (orchestrator_at one_key_config 0) = Some one_key_client /\
   Orchestrator.use_batch_api (orchestrator_at one_key_config 0)
   && (1 <? Orchestrator.batch_api_size (orchestrator_at one_key_config 0)) = true /\
   Orchestrator.chunks
     (Z.to_nat (Orchestrator.batch_api_size (orchestrator_at one_key_config 0)))
     (Orchestrator.llm_sites_of one_key_config (orchestrator_at one_key_config 0)
        (Orchestrator.sort_by_priority [example_site])) !! 0%nat = Some [example_site] /\
   Orchestrator.batch_try one_key_config unreachable_service one_key_client
     (Orchestrator.batch_api unreachable_service 0) [example_site] = Raises) /\
  rule_entry one_key_config (Orchestrator.sort_by_priority [example_site])
    (Orchestrator.batch_latency_share unreachable_service 0) example_site
  ∈ (Orchestrator.run_sites one_key_config unreachable_service
       (orchestrator_at one_key_config 0) [example_site]).2.
Proof.
  assert (H1 : Orchestrator.gemini_client (orchestrator_at one_key_config 0)
               = Some one_key_client) by reflexivity.
  assert (H2 : Orchestrator.use_batch_api (orchestrator_at one_key_config 0)
               && (1 <? Orchestrator.batch_api_size (orchestrator_at one_key_config 0))
               = true) by reflexivity.
  assert (H3 : Orchestrator.chunks
     (Z.to_nat (Orchestrator.batch_api_size (orchestrator_at one_key_config 0)))
     (Orchestrator.llm_sites_of one_key_config (orchestrator_at one_key_config 0)
        (Orchestrator.sort_by_priority [example_site])) !! 0%nat = Some [example_site])
    by (vm_compute; reflexivity).
  assert (H4 : Orchestrator.batch_try one_key_config unreachable_service one_key_client
     (Orchestrator.batch_api unreachable_service 0) [example_site] = Raises)
    by (apply client_raise_is_batch_raise; reflexivity).
  split; [done|].
  destruct (C6_failed_batch_degrades_to_rules one_key_config unreachable_service 0
              [example_site] one_key_client 0 [example_site] H1 H2 H3 H4) as [_ Hall].
  apply Forall_cons in Hall as [[Hin _] _]. exact Hin.
Defined.

Section SingleDepot.
Import DepotOptimizer.
Variable lead_times : gmap string (gmap string Z).
Variable shipping_costs : option (gmap string (gmap string float)).
Variable depot : string.

(** One depot holding at least what the sites still to come need: every
    site is served in full and nothing is recorded as unmet. *)
Lemma single_depot_loop (l : list (string * Z)) : forall st stock,
  remaining_depot_inv st = [(depot, stock)] ->
  st_unmet_demand st = [] ->
  Forall (fun kv => 0 <= snd kv /\ is_Some (lookup2 lead_times depot (fst kv))) l ->
  sum_values l <= stock ->
  let st' := foldl (allocate_site lead_times shipping_costs) st l in
  st_unmet_demand st' = [] /\
  st_total_allocated st' = st_total_allocated st + sum_values l.
Proof.
  induction l as [|[s n] r IH]; intros st stock Hrem Hunmet Hall Hsum; cbn zeta.
  - unfold sum_values. cbn. split; [done | lia].
  - apply Forall_cons in Hall as [[Hn [lt Hlt]] Hall]. cbn [fst snd] in *.
    change (sum_values ((s, n) :: r)) with (n + sum_values r) in *.
    assert (Hr : 0 <= sum_values r).
    { clear -Hall. unfold sum_values.
      induction Hall as [|[k v] r' [Hv _] _ IH']; cbn in *; lia. }
    cbn [foldl].
    destruct (Z.leb_spec n 0) as [Hle|Hgt].
    + assert (allocate_site lead_times shipping_costs st (s, n) = st) as ->.
      { unfold allocate_site. by rewrite (proj2 (Z.leb_le n 0)). }
      destruct (IH st stock Hrem Hunmet Hall ltac:(lia)) as [-> ->].
      split; [done | lia].
    + assert (Hstep : allocate_site lead_times shipping_costs st (s, n) =
        {| st_allocations :=
             st_allocations st ++
             [ {| depot_id := depot; site_id := s; quantity := n;
                  lead_time_days := lead_time_or_7 lead_times depot s |} ];
           st_total_allocated := st_total_allocated st + n;
           st_unmet_demand := [];
           remaining_depot_inv := [(depot, stock - n)] |}).
      { unfold allocate_site, _find_best_depot.
        rewrite (proj2 (Z.leb_gt n 0)) by lia. rewrite Hrem.
        cbn [omap list_omap candidate].
        rewrite (proj2 (Z.leb_gt stock 0)) by lia. rewrite Hlt.
        rewrite Z.min_l by lia. cbn [Py.stable_sort foldr Py.insert_sorted].
        rewrite Z.ltb_irrefl, Hunmet. cbn [Py.dict_alter].
        by rewrite String.eqb_refl. }
      rewrite Hstep.
      match goal with |- context [foldl _ ?st1 r] =>
        destruct (IH st1 (stock - n) eq_refl eq_refl Hall ltac:(lia)) as [-> ->]
      end.
      cbn [st_total_allocated]. split; [done | lia].
Qed.
End SingleDepot.

(** One depot stocked with at least the total net demand and a lead time
    to every demand site: nothing is unmet and the score is 100.0 (0.0
    when no site has a positive net demand). *)
Lemma single_depot_meets_all (demands : list (string * Z)) (depot : string) (stock : Z)
    (site_inventory : gmap string Z) (lead_times : gmap string (gmap string Z))
    (shipping_costs : option (gmap string (gmap string float))) :
  NoDup demands.*1 ->
  Forall (fun kv => is_Some (DepotOptimizer.lookup2 lead_times depot (fst kv))) demands ->
  total_net_demand demands site_inventory <= stock ->
  let p := DepotOptimizer.optimize_depot_allocation
             demands [(depot, stock)] site_inventory lead_times shipping_costs in
  DepotOptimizer.unmet_demand p = [] /\
  DepotOptimizer.total_allocated p = total_net_demand demands site_inventory /\
  DepotOptimizer.optimization_score p
  = if 0 <? total_net_demand demands site_inventory then 100%float else 0%float.
Proof.
  intros Hnd Hlead Hstock p. subst p. unfold DepotOptimizer.optimize_depot_allocation.
  cbn [DepotOptimizer.unmet_demand DepotOptimizer.total_allocated
       DepotOptimizer.optimization_score].
  rewrite net_demands_of_map by done.
  set (nets := map (fun s => (fst s, net_demand site_inventory s)) demands).
  set (sorted := Py.stable_sort snd (fun a b => b <? a) nets).
  assert (Hperm : sorted ≡ₚ nets) by apply stable_sort_perm.
  assert (Hsum : DepotOptimizer.sum_values nets = total_net_demand demands site_inventory).
  { subst nets. unfold DepotOptimizer.sum_values, total_net_demand. by rewrite map_map. }
  assert (Hall : Forall (fun kv => 0 <= snd kv /\
                    is_Some (DepotOptimizer.lookup2 lead_times depot (fst kv))) sorted).
  { rewrite Hperm. subst nets. apply Forall_fmap.
    eapply Forall_impl; [exact Hlead|]. intros [s d] Hs. cbn in *.
    split; [unfold net_demand; lia | done]. }
  match goal with |- context [foldl _ ?st0 sorted] =>
    destruct (single_depot_loop lead_times shipping_costs depot sorted st0 stock
                eq_refl eq_refl Hall) as [Hunmet Htotal]
  end.
  { rewrite (sum_values_perm _ _ Hperm), Hsum. done. }
  rewrite Hunmet, Htotal. cbn [DepotOptimizer.st_total_allocated].
  rewrite (sum_values_perm _ _ Hperm), Hsum, Z.add_0_l.
  split; [done|]. split; [done|].
  destruct (Z.ltb_spec 0 (total_net_demand demands site_inventory)); [|done].
  by rewrite int_truediv_self.
Qed.

Section DepotStep.
Import Orchestrator.

Lemma py_sum_from (values : list Json.value) (zs : list Z) : forall a,
  Forall2 (fun v z => int_of v = Some z) values zs ->
  foldl (fun acc v =>
           do total <- acc;
           match num_of v with
           | Some n => Returns (Py.num_add total n)
           | None => Raises
           end)
        (Returns (Py.NInt a)) values
  = Returns (Py.NInt (a + foldr Z.add 0 zs)).
Proof.
  intros a H. revert a.
  induction H as [|v z values zs Hv _ IH]; intros a; cbn [foldl foldr].
  - by rewrite Z.add_0_r.
  - cbn [obind]. assert (num_of v = Some (Py.NInt z)) as ->.
    { unfold num_of. destruct v; try done; by rewrite Hv. }
    cbn [Py.num_add]. rewrite IH. do 2 f_equal. lia.
Qed.

Lemma py_sum_ints (values : list Json.value) (zs : list Z) :
  Forall2 (fun v z => int_of v = Some z) values zs ->
  py_sum values = Returns (Py.NInt (foldr Z.add 0 zs)).
Proof. intros H. unfold py_sum. by rewrite (py_sum_from values zs 0 H). Qed.

Lemma int_items_Forall2 (d : list (string * Json.value)) (demands : list (string * Z)) :
  int_items d = Some demands ->
  Forall2 (fun kv kz => fst kz = fst kv /\ int_of (snd kv) = Some (snd kz)) d demands.
Proof.
  unfold int_items. intros H. apply mapM_Some_1 in H.
  eapply Forall2_impl; [exact H|]. intros [k v] [k' z] Hkv. cbn in *.
  destruct (int_of v); [|done]. by injection Hkv as <- <-.
Qed.

Lemma site_demands_NoDup (results : list decision) :
  NoDup (site_demands_of results).*1.
Proof.
  unfold site_demands_of.
  assert (H : forall acc : list (string * Json.value), NoDup acc.*1 ->
    NoDup (foldl (fun site_demands r =>
                    if Json.is_str "resupply" (action r)
                    then Py.dict_set (site_id r) (quantity r) site_demands
                    else site_demands) acc results).*1).
  { induction results as [|r rest IH]; intros acc Hacc; [done|].
    cbn [foldl]. apply IH. destruct (Json.is_str _ _); [|done].
    by apply dict_set_NoDup. }
  apply H, NoDup_nil_2.
Qed.

(** With integer resupply quantities, step 7 is the optimizer run on one
    depot stocked with twice their sum and a 7-day lead time to each
    demand site. *)
Lemma depot_step_on_ints (results : list decision) (demands : list (string * Z)) :
  results <> [] ->
  int_items (site_demands_of results) = Some demands ->
  depot_step results
  = Returns (Some (DepotPlan
      (DepotOptimizer.optimize_depot_allocation demands
         [("DEPOT_001"%string, DepotOptimizer.sum_values demands * 2)]
         (site_inventory_of results)
         {[ "DEPOT_001"%string :=
              foldl (fun m site_id => <[site_id := 7]> m) ∅ (map fst demands) ]}
         None))).
Proof.
  intros Hne Hint. unfold depot_step. destruct results as [|r0 rest]; [done|].
  rewrite Hint.
  pose proof (int_items_Forall2 _ _ Hint) as Hall.
  rewrite (py_sum_ints (map snd (site_demands_of (r0 :: rest))) (map snd demands)); [done|].
  apply Forall2_fmap. eapply Forall2_impl; [exact Hall|]. by intros ?? [_ ?].
Qed.

Lemma seven_day_lead_times (demands : list (string * Z)) :
  Forall (fun kv =>
            is_Some (DepotOptimizer.lookup2
                       ({[ "DEPOT_001"%string :=
                             foldl (fun m site_id => <[site_id := 7]> m) ∅
                                   (map fst demands) ]} : gmap string (gmap string Z))
                       "DEPOT_001" (fst kv)))
         demands.
Proof.
  apply Forall_forall. intros [s d] Hin. unfold DepotOptimizer.lookup2.
  rewrite lookup_singleton_eq. rewrite foldl_insert_lookup.
  rewrite bool_decide_eq_true_2; [done|].
  apply list_elem_of_In, in_map_iff. exists (s, d). split; [done|].
  by apply list_elem_of_In.
Qed.
End DepotStep.

Lemma nonnegative_within_stock (demands : list (string * Z)) (site_inventory : gmap string Z) :
  Forall (fun kv => 0 <= snd kv /\ 0 <= default 0 (site_inventory !! fst kv)) demands ->
  total_net_demand demands site_inventory <= DepotOptimizer.sum_values demands * 2.
Proof.
  unfold total_net_demand, DepotOptimizer.sum_values.
  induction 1 as [|[s q] r [Hq Hinv] _ IH]; cbn in *; [lia|].
  unfold net_demand at 1. cbn. lia.
Qed.

(** C10 (counterexample): a site with inventory -20 for which the service
    answers "resupply 10": the depot is stocked with 20, the net demand is
    30, so 10 stay unmet and the score is below 100. *)
Lemma C10_counterexample_backorder :
  exists p,
    Orchestrator.depot_step
      (Orchestrator.run_sites one_key_config
         (answering [site_item "SITE_009" "resupply" 10])
         (orchestrator_at one_key_config 0) [backorder_site]).2
    = Returns (Some (Orchestrator.DepotPlan p)) /\
    DepotOptimizer.unmet_demand p = [("SITE_009"%string, 10)] /\
    DepotOptimizer.total_allocated p = 20 /\
    PrimFloat.ltb (DepotOptimizer.optimization_score p) 100 = true.
Proof.
  eexists. split_and!; [vm_compute; reflexivity | reflexivity..].
Qed.

Lemma run_sites_nil cfg e o : (Orchestrator.run_sites cfg e o []).2 = [].
Proof.
  unfold Orchestrator.run_sites, Orchestrator.sort_by_priority, Orchestrator.llm_sites_of,
    Orchestrator.rules_sites_of.
  cbn. by destruct (Orchestrator.use_parallel o).
Qed.

(** C10 (amended): step 7 runs the optimizer on the single depot
    "DEPOT_001", stocked with twice the sum of the resupply quantities, with
    a 7-day lead time to every demand site (there is no such step for a run
    without sites).  When the resupply quantities are integers and the total
    net demand is within that stock, nothing is unmet and the score is
    exactly 100.0 if some site has a positive net demand, 0.0 otherwise. *)
Theorem C10_single_depot_covers_demand (cfg : Config.t) (e : Orchestrator.env)
    (failures : Z) (site_features : list Features.row) (demands : list (string * Z)) :
  let results :=
    (Orchestrator.run_sites cfg e (orchestrator_at cfg failures) site_features).2 in
  let site_inventory := Orchestrator.site_inventory_of results in
  Orchestrator.int_items (Orchestrator.site_demands_of results) = Some demands ->
  total_net_demand demands site_inventory <= DepotOptimizer.sum_values demands * 2 ->
  match site_features with
  | [] => Orchestrator.depot_step results = Returns None
  | _ =>
      exists p,
        Orchestrator.depot_step results = Returns (Some (Orchestrator.DepotPlan p)) /\
        p = DepotOptimizer.optimize_depot_allocation demands
              [("DEPOT_001"%string, DepotOptimizer.sum_values demands * 2)]
              site_inventory
              {[ "DEPOT_001"%string :=
                   foldl (fun m site_id => <[site_id := 7]> m) ∅ (map fst demands) ]}
              None /\
        DepotOptimizer.unmet_demand p = [] /\
        DepotOptimizer.optimization_score p
        = if 0 <? total_net_demand demands site_inventory then 100%float else 0%float
  end.
Proof.
  intros results site_inventory Hint Hstock.
  destruct site_features as [|row0 rest0].
  { subst results. by rewrite run_sites_nil. }
  assert (Hne : results <> []).
  { destruct (run_sites_shape cfg e failures (row0 :: rest0)) as (order & Hperm & Hshape).
    fold results in Hshape. intros Hnil. rewrite Hnil in Hshape.
    apply Forall2_nil_inv_r in Hshape as ->.
    by apply Permutation_nil_cons in Hperm. }
  eexists. split; [by apply depot_step_on_ints|].
  split; [reflexivity|].
  assert (Hnd : NoDup demands.*1).
  { pose proof (site_demands_NoDup results) as Hnd.
    assert (demands.*1 = (Orchestrator.site_demands_of results).*1) as ->; [|done].
    pose proof (int_items_Forall2 _ _ Hint) as Hall. clear -Hall.
    induction Hall as [|kv kz d ds [Hk _] _ IH]; [done|]. cbn. by rewrite Hk, IH. }
  destruct (single_depot_meets_all demands "DEPOT_001"
              (DepotOptimizer.sum_values demands * 2) site_inventory
              {[ "DEPOT_001"%string :=
                   foldl (fun m site_id => <[site_id := 7]> m) ∅ (map fst demands) ]}
              None Hnd (seven_day_lead_times demands) Hstock) as (Hu & _ & Hs).
  by split.
Qed.

Lemma C10_single_depot_witness :
  (Orchestrator.int_items
     (Orchestrator.site_demands_of
        (Orchestrator.run_sites Config.defaults unreachable_service
           (orchestrator_at Config.defaults 0) [example_site]).2)
   = Some [("SITE_001"%string, 69)] /\
   total_net_demand [("SITE_001"%string, 69)]
     (Orchestrator.site_inventory_of
        (Orchestrator.run_sites Config.defaults unreachable_service
           (orchestrator_at Config.defaults 0) [example_site]).2)
   <= DepotOptimizer.sum_values [("SITE_001"%string, 69)] * 2) /\
  exists p,
    Orchestrator.depot_step
      (Orchestrator.run_sites Config.defaults unreachable_service
         (orchestrator_at Config.defaults 0) [example_site]).2
    = Returns (Some (Orchestrator.DepotPlan p)) /\
    DepotOptimizer.unmet_demand p = [] /\
    DepotOptimizer.optimization_score p = 100%float.
Proof.
  assert (H1 : Orchestrator.int_items
     (Orchestrator.site_demands_of
        (Orchestrator.run_sites Config.defaults unreachable_service
           (orchestrator_at Config.defaults 0) [example_site]).2)
   = Some [("SITE_001"%string, 69)]) by (vm_compute; reflexivity).
  assert (H2 : total_net_demand [("SITE_001"%string, 69)]
     (Orchestrator.site_inventory_of
        (Orchestrator.run_sites Config.defaults unreachable_service
           (orchestrator_at Config.defaults 0) [example_site]).2)
   <= DepotOptimizer.sum_values [("SITE_001"%string, 69)] * 2)
    by (vm_compute; discriminate).
  split; [by split|].
  destruct (C10_single_depot_covers_demand Config.defaults unreachable_service 0
              [example_site] [("SITE_001"%string, 69)] H1 H2) as (p & Hstep & _ & Hu & Hs).
  exists p. split_and!; [exact Hstep | exact Hu |].
  rewrite Hs. vm_compute. reflexivity.
Defined.

Section FilterFacts.
Context {A : Type} (P : A -> Prop) `{!forall x, Decision (P x)}.

Lemma filter_none (l : list A) : Forall (fun x => ~ P x) l -> filter P l = [].
Proof.
  induction 1 as [|x r Hx _ IH]; [done|]. by rewrite filter_cons_False.
Qed.

Lemma filter_all (l : list A) : Forall P l -> filter P l = l.
Proof.
  induction 1 as [|x r Hx _ IH]; [done|]. rewrite filter_cons_True by done.
  by rewrite IH.
Qed.
End FilterFacts.

Section RuleOnly.
Import Orchestrator.
Variable cfg : Config.t.
Variable e : env.

Lemma no_llm_when_unavailable o row :
  llm_available o = false -> _should_use_llm cfg o row = false.
Proof.
  intros H. unfold _should_use_llm. rewrite H.
  by rewrite orb_true_r.
Qed.

Lemma dict_set_values {V} (P : V -> Prop) k v (d : list (string * V)) :
  Forall P d.*2 -> P v -> Forall P (Py.dict_set k v d).*2.
Proof.
  intros Hd Hv. induction d as [|[k' v'] r IH]; cbn.
  - by constructor.
  - apply Forall_cons in Hd as [Hv' Hr].
    destruct (String.eqb k k'); cbn; constructor; auto.
Qed.

Lemma site_demands_values (P : Json.value -> Prop) (results : list decision) :
  Forall (fun d => P (quantity d)) results ->
  Forall P (site_demands_of results).*2.
Proof.
  unfold site_demands_of.
  assert (H : forall acc : list (string * Json.value), Forall P acc.*2 ->
    Forall (fun d => P (quantity d)) results ->
    Forall P (foldl (fun site_demands r =>
                       if Json.is_str "resupply" (action r)
                       then Py.dict_set (site_id r) (quantity r) site_demands
                       else site_demands) acc results).*2).
  { induction results as [|r rest IH]; intros acc Hacc Hall; [done|].
    apply Forall_cons in Hall as [Hr Hall]. cbn [foldl]. apply IH; [|done].
    destruct (Json.is_str _ _); [|done]. by apply dict_set_values. }
  intros Hall. apply H; [constructor | done].
Qed.

Lemma enrich_keeps sites_list d :
  confidence (enrich sites_list d) = confidence d /\
  reason (enrich sites_list d) = reason d.
Proof. unfold enrich. by destruct (find _ sites_list). Qed.

(** The lookup of the enrichment loop finds a row for an entry whose site
    id is the id of one of the rows. *)
Lemma enrich_finds sites_list d row :
  row ∈ sites_list -> Features.site_id row = site_id d ->
  exists row', enrichment (enrich sites_list d) = Some row' /\
               Features.site_id row' = site_id d /\ row' ∈ sites_list.
Proof.
  intros Hin Hid. unfold enrich.
  destruct (find _ sites_list) as [row'|] eqn:Hfind.
  - apply find_some in Hfind as [Hin' Heq]. apply String.eqb_eq in Heq.
    exists row'. split_and!; [done|done|by apply list_elem_of_In].
  - apply list_elem_of_In in Hin. pose proof (find_none _ _ Hfind _ Hin) as Hno.
    cbn in Hno. rewrite Hid, String.eqb_refl in Hno. done.
Qed.

(** With integer quantities throughout and every entry enriched, the
    steps after the merge do not raise. *)
Lemma run_tail_returns (results : list decision) :
  Forall (fun d => is_Some (int_of (quantity d))) results ->
  Forall (fun d => is_Some (enrichment d)) results ->
  exists depot summary,
    depot_step results = Returns depot /\ _compute_summary results = Returns summary.
Proof.
  intros Hall Henriched. destruct results as [|r0 rest] eqn:Hres; [by eexists _, _|].
  rewrite <- Hres in *.
  assert (Hdemands : exists ds, collect (map projected_demand_of results) = Returns ds).
  { clear Hres Hall. induction Henriched as [|d rest' [row Hrow] _ [zs IH]]; [by exists []|].
    cbn [map collect]. unfold projected_demand_of at 1. rewrite Hrow. cbn [obind].
    rewrite IH. cbn [obind]. by eexists. }
  destruct Hdemands as [demands0 Hds].
  assert (Hsum : exists n, py_sum (map quantity results) = Returns n).
  { assert (exists zs, Forall2 (fun v z => int_of v = Some z) (map quantity results) zs)
      as [zs Hzs].
    { clear Hres Henriched Hds. induction Hall as [|d ds [z Hz] _ [zs IH]]; [by exists []|].
      exists (z :: zs). by constructor. }
    eexists. by apply py_sum_ints. }
  destruct Hsum as [n Hn].
  assert (Hitems : is_Some (int_items (site_demands_of results))).
  { unfold int_items. apply mapM_is_Some.
    pose proof (site_demands_values (fun v => is_Some (int_of v)) results Hall) as Hv.
    rewrite Forall_forall in Hv. apply Forall_forall. intros [k v] Hin.
    destruct (Hv v) as [z Hz]; [apply list_elem_of_fmap; by exists (k, v)|].
    cbn. rewrite Hz. by eexists. }
  destruct Hitems as [demands Hd].
  eexists _, _. split.
  - apply depot_step_on_ints; [by rewrite Hres | exact Hd].
  - unfold _compute_summary. rewrite Hres at 1. rewrite Hn, Hds. reflexivity.
Qed.
End RuleOnly.

(** C9 (counterexample): no key configured, the default configuration
    but for [MAX_CONCURRENT_REQUESTS = 0].  The orchestrator is built
    ([Semaphore(0)] is accepted), and its run raises: the rule lane asks for
    an executor with [min(0 * 2, 1) = 0] workers.  With -1 the orchestrator
    is not built at all. *)
Lemma C9_counterexample_no_workers :
  Config.get_gemini_api_keys (worker_config 0) = [] /\
  Orchestrator.init (worker_config 0)
  = Returns (Orchestrator.attributes (worker_config 0)) /\
  Orchestrator.run (worker_config 0) unreachable_service
    (Orchestrator.attributes (worker_config 0)) [example_site]
  = (Orchestrator.attributes (worker_config 0), Raises) /\
  Orchestrator.init (worker_config (-1)) = Raises.
Proof. vm_compute. repeat split; reflexivity. Qed.

(** C9 (amended): with no key configured, constructing the client raises.
    When the executors can be built ([MAX_CONCURRENT_REQUESTS] at least 1,
    or [USE_PARALLEL] off) and the rule engine has a value on every row
    (its safety-stock conversion is defined), on a frame whose site ids are
    strings, the orchestrator is built without a client and its run
    returns, leaving the failure counter alone, with one entry per site (in
    some order): the rule-lane decision of its row, which carries the
    row's site id, the rule engine's action and quantity, confidence 0.5,
    the rule engine's reason followed by " (Rules engine)", and is not
    marked as LLM output. *)
Theorem C9_no_credentials_rule_only (cfg : Config.t) (e : Orchestrator.env)
    (site_features : list Features.row) :
  Config.get_gemini_api_keys cfg = [] ->
  (Config.USE_PARALLEL cfg = true -> 0 < Config.MAX_CONCURRENT_REQUESTS cfg) ->
  Forall (fun row =>
            Py.int_defined
              (Py.float_of_int (Features.projected_30d_demand row)
               * (Config.SAFETY_STOCK_MULTIPLIER cfg - Py.float_of_int 1))%float = true)
         site_features ->
  GeminiClient.init cfg = Raises /\
  exists o,
    Orchestrator.init cfg = Returns o /\
    Orchestrator.gemini_client o = None /\
    Orchestrator.llm_available o = false /\
    exists order r,
      order ≡ₚ site_features /\
      Orchestrator.run cfg e o site_features = (o, Returns r) /\
      Orchestrator.results r
      = map (rule_entry cfg (Orchestrator.sort_by_priority site_features) 0) order /\
      Forall2 (fun row d =>
                 let rules_result := RulesEngine.recommend_resupply cfg row in
                 Orchestrator.site_id d = Features.site_id row /\
                 Orchestrator.llm_used d = false /\
                 Orchestrator.action d = Json.Str (RulesEngine.action rules_result) /\
                 Orchestrator.quantity d = Json.Int (RulesEngine.quantity rules_result) /\
                 Orchestrator.confidence d = Json.Float 0.5 /\
                 Orchestrator.reason d
                 = Json.Str (RulesEngine.reason rules_result ++ " (Rules engine)") /\
                 Orchestrator.enrichment d <> None)
              order (Orchestrator.results r).
Proof.
  intros Hkeys Hworkers _.
  assert (Hinit : GeminiClient.init cfg = Raises).
  { unfold GeminiClient.init. by rewrite Hkeys. }
  split; [done|].
  set (o := Orchestrator.attributes cfg).
  assert (Hclient : Orchestrator.gemini_client o = None).
  { subst o. unfold Orchestrator.attributes. by rewrite Hinit. }
  assert (Havail : Orchestrator.llm_available o = false).
  { subst o. unfold Orchestrator.attributes. by rewrite Hinit. }
  assert (Hpar : Orchestrator.use_parallel o = Config.USE_PARALLEL cfg).
  { subst o. unfold Orchestrator.attributes. by rewrite Hinit. }
  assert (Hmax : Orchestrator.max_concurrent o = Config.MAX_CONCURRENT_REQUESTS cfg).
  { subst o. unfold Orchestrator.attributes. by rewrite Hinit. }
  exists o. split_and!; [|done|done|].
  { unfold Orchestrator.init. fold o.
    destruct (Config.USE_PARALLEL cfg); [|done].
    specialize (Hworkers eq_refl).
    assert ((Config.MAX_CONCURRENT_REQUESTS cfg <? 0) = false) as ->
      by (apply Z.ltb_ge; lia).
    done. }
  set (sites_list := Orchestrator.sort_by_priority site_features).
  assert (Hllm : Orchestrator.llm_sites_of cfg o sites_list = []).
  { unfold Orchestrator.llm_sites_of. apply filter_none.
    apply Forall_forall. intros row _. by rewrite no_llm_when_unavailable. }
  assert (Hrules : Orchestrator.rules_sites_of cfg o sites_list = sites_list).
  { unfold Orchestrator.rules_sites_of. apply filter_all.
    apply Forall_forall. intros row _. by apply no_llm_when_unavailable. }
  set (order := if Orchestrator.use_parallel o
                then Orchestrator.as_completed (Orchestrator.rules_completion e) sites_list
                else sites_list).
  assert (Horder : order ≡ₚ sites_list).
  { subst order. destruct (Orchestrator.use_parallel o); [|done].
    apply as_completed_perm. }
  assert (Hsites : Orchestrator.run_sites cfg e o site_features
                   = (o, map (rule_entry cfg sites_list 0) order)).
  { unfold Orchestrator.run_sites. fold sites_list. rewrite Hllm, Hrules.
    cbn [app]. fold order. f_equal. rewrite <- list_fmap_compose. reflexivity. }
  assert (Hentries :
    Forall2 (fun row d =>
               let rules_result := RulesEngine.recommend_resupply cfg row in
               Orchestrator.site_id d = Features.site_id row /\
               Orchestrator.llm_used d = false /\
               Orchestrator.action d = Json.Str (RulesEngine.action rules_result) /\
               Orchestrator.quantity d = Json.Int (RulesEngine.quantity rules_result) /\
               Orchestrator.confidence d = Json.Float 0.5 /\
               Orchestrator.reason d
               = Json.Str (RulesEngine.reason rules_result ++ " (Rules engine)") /\
               Orchestrator.enrichment d <> None)
            order (map (rule_entry cfg sites_list 0) order)).
  { apply Forall2_fmap_r, Forall2_same_length_lookup_2; [done|].
    intros i row row' Hrow Hrow'. rewrite Hrow in Hrow'. injection Hrow' as <-.
    unfold compose, rule_entry. cbn beta zeta.
    set (d0 := Orchestrator.set_latency
                 (Orchestrator._process_site_with_rules cfg row (Features.site_id row)) 0).
    destruct (enrich_finds sites_list d0 row) as (row' & Hen & _).
    { rewrite <- Horder. by eapply list_elem_of_lookup_2. }
    { reflexivity. }
    destruct (enrich_fields sites_list d0) as (-> & -> & -> & ->).
    destruct (enrich_keeps sites_list d0) as (-> & ->).
    rewrite Hen. split_and!; [reflexivity..|done]. }
  assert (Hints : Forall (fun d => is_Some (Orchestrator.int_of (Orchestrator.quantity d)))
                         (map (rule_entry cfg sites_list 0) order)).
  { apply Forall_forall. intros d Hd. apply list_elem_of_lookup in Hd as [i Hi].
    destruct (Forall2_lookup_r _ _ _ _ _ Hentries Hi) as (row & _ & _ & _ & _ & Hq & _).
    cbn zeta in Hq. rewrite Hq. by eexists. }
  assert (Henriched : Forall (fun d => is_Some (Orchestrator.enrichment d))
                             (map (rule_entry cfg sites_list 0) order)).
  { apply Forall_forall. intros d Hd. apply list_elem_of_lookup in Hd as [i Hi].
    destruct (Forall2_lookup_r _ _ _ _ _ Hentries Hi) as (row & _ & _ & _ & _ & _ & _ & _ & He).
    by destruct (Orchestrator.enrichment d); [eexists|]. }
  destruct (run_tail_returns _ Hints Henriched) as (depot & summary & Hdepot & Hsummary).
  assert (Hexec : Orchestrator.rules_executor o sites_list = Returns tt).
  { unfold Orchestrator.rules_executor. destruct sites_list as [|row0 rest0] eqn:Hl; [done|].
    rewrite Hpar, Hmax. destruct (Config.USE_PARALLEL cfg); [|done].
    specialize (Hworkers eq_refl). unfold Orchestrator.executor.
    assert ((0 <? Z.min (Config.MAX_CONCURRENT_REQUESTS cfg * 2)
                        (Z.of_nat (length (row0 :: rest0)))) = true) as ->; [|done].
    apply Z.ltb_lt. cbn [length]. lia. }
  exists order. eexists. split_and!.
  - rewrite Horder. apply stable_sort_perm.
  - unfold Orchestrator.run. fold sites_list. rewrite Hllm, Hrules.
    cbn [Orchestrator.llm_executor]. rewrite Hsites, Hexec. cbn [obind].
    rewrite Hdepot, Hsummary. reflexivity.
  - reflexivity.
  - exact Hentries.
Qed.

Lemma C9_no_credentials_witness :
  Config.get_gemini_api_keys Config.defaults = [] /\
  (Config.USE_PARALLEL Config.defaults = true ->
   0 < Config.MAX_CONCURRENT_REQUESTS Config.defaults) /\
  Forall (fun row =>
            Py.int_defined
              (Py.float_of_int (Features.projected_30d_demand row)
               * (Config.SAFETY_STOCK_MULTIPLIER Config.defaults - Py.float_of_int 1))%float
            = true)
         [example_site] /\
  exists o order r,
    Orchestrator.init Config.defaults = Returns o /\
    order ≡ₚ [example_site] /\
    Orchestrator.run Config.defaults unreachable_service o [example_site]
    = (o, Returns r) /\
    Orchestrator.results r
    = map (rule_entry Config.defaults (Orchestrator.sort_by_priority [example_site]) 0) order.
Proof.
  assert (H1 : Config.get_gemini_api_keys Config.defaults = []) by reflexivity.
  assert (H2 : Config.USE_PARALLEL Config.defaults = true ->
               0 < Config.MAX_CONCURRENT_REQUESTS Config.defaults)
    by (intros _; vm_compute; reflexivity).
  assert (H3 : Forall (fun row =>
            Py.int_defined
              (Py.float_of_int (Features.projected_30d_demand row)
               * (Config.SAFETY_STOCK_MULTIPLIER Config.defaults - Py.float_of_int 1))%float
            = true) [example_site])
    by (constructor; [vm_compute; reflexivity | constructor]).
  split; [exact H1|]. split; [exact H2|]. split; [exact H3|].
  destruct (C9_no_credentials_rule_only Config.defaults unreachable_service
              [example_site] H1 H2 H3)
    as (_ & o & Ho & _ & _ & order & r & Hp & Hrun & Hres & _).
  by exists o, order, r.
Defined.

(** C3 (the code at the spec's example): with the default configuration,
    demand 100, inventory 50 and 60 days to expiry, the float product
    100 * (1.2 - 1) is 19.999999999999996, so [int] gives a safety stock of
    19; the rule engine decides resupply and returns the quantity
    max(10, 100 + 19 - 50) = 69. *)
Theorem C3_rule_engine_example :
  (Py.float_of_int 100
   * (Config.SAFETY_STOCK_MULTIPLIER Config.defaults - Py.float_of_int 1))%float
  = 19.999999999999996%float /\
  RulesEngine.safety_stock_of Config.defaults 100 = 19 /\
  RulesEngine.action (RulesEngine.recommend_resupply Config.defaults example_site)
  = "resupply"%string /\
  RulesEngine.quantity (RulesEngine.recommend_resupply Config.defaults example_site) = 69.
Proof. vm_compute. repeat split; reflexivity. Qed.

(** ** Further facts: the rule engine *)

(** An instance: a demand of 100 under the default configuration. *)
Lemma safety_stock_int64_witness :
  Config.SAFETY_STOCK_MULTIPLIER Config.defaults
  = Config.SAFETY_STOCK_MULTIPLIER Config.defaults /\
  - 2 ^ 63 <= 100 < 2 ^ 63 /\
  Py.int_defined
    (Py.float_of_int 100
     * (Config.SAFETY_STOCK_MULTIPLIER Config.defaults - Py.float_of_int 1))%float = true.
Proof.
  assert (H1 : Config.SAFETY_STOCK_MULTIPLIER Config.defaults
               = Config.SAFETY_STOCK_MULTIPLIER Config.defaults) by reflexivity.
  assert (H2 : - 2 ^ 63 <= 100 < 2 ^ 63) by lia.
  split; [exact H1|]. split; [exact H2|].
  exact (safety_stock_int_defined Config.defaults 100 H1 H2).
Defined.

(** (rules_engine.py, recommend_resupply) What a recommendation guarantees,
    where the safety-stock conversion has a value: a resupply brings the
    stock to at least demand plus safety stock, and is said only when the
    inventory expires within the threshold or stock plus safety stock falls
    short of the demand; otherwise the answer is no_resupply with quantity
    0.  There is no third action. *)
Theorem rules_cover_demand (cfg : Config.t) (row : Features.row) :
  let r := RulesEngine.recommend_resupply cfg row in
  let demand := Features.projected_30d_demand row in
  let stock := Features.current_inventory row in
  let safety_stock := RulesEngine.safety_stock_of cfg demand in
  Py.int_defined
    (Py.float_of_int demand
     * (Config.SAFETY_STOCK_MULTIPLIER cfg - Py.float_of_int 1))%float = true ->
  (RulesEngine.action r = "resupply"%string /\
   demand + safety_stock <= stock + RulesEngine.quantity r /\
   (Features.days_to_expiry row < Config.EXPIRY_THRESHOLD_DAYS cfg \/
    stock + safety_stock < demand)) \/
  (RulesEngine.action r = "no_resupply"%string /\
   RulesEngine.quantity r = 0 /\
   demand <= stock + safety_stock /\
   Config.EXPIRY_THRESHOLD_DAYS cfg <= Features.days_to_expiry row).
Proof.
  cbn zeta. intros _. unfold RulesEngine.recommend_resupply.
  destruct (Z.ltb_spec (Features.days_to_expiry row) (Config.EXPIRY_THRESHOLD_DAYS cfg)).
  - left. cbn [RulesEngine.action RulesEngine.quantity]. split; [done|]. lia.
  - destruct (Z.ltb_spec
                (Features.current_inventory row
                 + RulesEngine.safety_stock_of cfg (Features.projected_30d_demand row))
                (Features.projected_30d_demand row)).
    + left. cbn [RulesEngine.action RulesEngine.quantity]. split; [done|]. lia.
    + right. cbn [RulesEngine.action RulesEngine.quantity]. split; [done|]. lia.
Qed.

Lemma rules_cover_demand_witness :
  Py.int_defined
    (Py.float_of_int (Features.projected_30d_demand example_site)
     * (Config.SAFETY_STOCK_MULTIPLIER Config.defaults - Py.float_of_int 1))%float = true /\
  RulesEngine.action (RulesEngine.recommend_resupply Config.defaults example_site)
  = "resupply"%string /\
  Features.projected_30d_demand example_site
  + RulesEngine.safety_stock_of Config.defaults (Features.projected_30d_demand example_site)
  <= Features.current_inventory example_site
     + RulesEngine.quantity (RulesEngine.recommend_resupply Config.defaults example_site).
Proof.
  assert (H : Py.int_defined
    (Py.float_of_int (Features.projected_30d_demand example_site)
     * (Config.SAFETY_STOCK_MULTIPLIER Config.defaults - Py.float_of_int 1))%float = true)
    by (vm_compute; reflexivity).
  split; [exact H|].
  destruct (rules_cover_demand Config.defaults example_site H) as [(Ha & Hq & _)|(Ha & _)].
  - split; [exact Ha | exact Hq].
  - vm_compute in Ha. discriminate Ha.
Defined.

(** (rules_engine.py, recommend_resupply) More stock never means a larger
    order: with the same demand and days to expiry, a minimum order that is
    not negative and a safety-stock conversion that has a value, the
    recommended quantity does not grow with the inventory. *)
Theorem rules_quantity_antitone (cfg : Config.t) (row row' : Features.row) :
  0 <= Config.MIN_ORDER_QUANTITY cfg ->
  Py.int_defined
    (Py.float_of_int (Features.projected_30d_demand row)
     * (Config.SAFETY_STOCK_MULTIPLIER cfg - Py.float_of_int 1))%float = true ->
  Features.projected_30d_demand row' = Features.projected_30d_demand row ->
  Features.days_to_expiry row' = Features.days_to_expiry row ->
  Features.current_inventory row <= Features.current_inventory row' ->
  RulesEngine.quantity (RulesEngine.recommend_resupply cfg row')
  <= RulesEngine.quantity (RulesEngine.recommend_resupply cfg row).
Proof.
  intros Hmin _ Hd Hdays Hinv. unfold RulesEngine.recommend_resupply.
  rewrite Hd, Hdays.
  destruct (Features.days_to_expiry row <? Config.EXPIRY_THRESHOLD_DAYS cfg).
  - cbn [RulesEngine.quantity]. lia.
  - set (s := RulesEngine.safety_stock_of cfg (Features.projected_30d_demand row)).
    destruct (Z.ltb_spec (Features.current_inventory row' + s)
                         (Features.projected_30d_demand row));
      destruct (Z.ltb_spec (Features.current_inventory row + s)
                           (Features.projected_30d_demand row));
      cbn [RulesEngine.quantity]; lia.
Qed.

Lemma rules_quantity_antitone_witness :
  0 <= Config.MIN_ORDER_QUANTITY Config.defaults /\
  Py.int_defined
    (Py.float_of_int (Features.projected_30d_demand (example_site_stocked 50))
     * (Config.SAFETY_STOCK_MULTIPLIER Config.defaults - Py.float_of_int 1))%float = true /\
  Features.current_inventory (example_site_stocked 50)
  <= Features.current_inventory (example_site_stocked 90) /\
  RulesEngine.quantity
    (RulesEngine.recommend_resupply Config.defaults (example_site_stocked 90))
  <= RulesEngine.quantity
       (RulesEngine.recommend_resupply Config.defaults (example_site_stocked 50)).
Proof.
  assert (H1 : 0 <= Config.MIN_ORDER_QUANTITY Config.defaults) by (vm_compute; discriminate).
  assert (H0 : Py.int_defined
    (Py.float_of_int (Features.projected_30d_demand (example_site_stocked 50))
     * (Config.SAFETY_STOCK_MULTIPLIER Config.defaults - Py.float_of_int 1))%float = true)
    by (vm_compute; reflexivity).
  assert (H2 : Features.current_inventory (example_site_stocked 50)
               <= Features.current_inventory (example_site_stocked 90))
    by (vm_compute; discriminate).
  split; [exact H1|]. split; [exact H0|]. split; [exact H2|].
  exact (rules_quantity_antitone Config.defaults (example_site_stocked 50)
           (example_site_stocked 90) H1 H0 eq_refl eq_refl H2).
Defined.

(** ** Further facts: the reasoning client *)

Section Retry.
Context {A : Type}.

Lemma retry_from_returns (body : nat -> outcome A) (a : A) : forall remaining attempt,
  GeminiClient.retry_from attempt remaining body = Returns a <->
  exists i, (i < remaining)%nat /\ body (attempt + i)%nat = Returns a /\
            forall j, (j < i)%nat -> body (attempt + j)%nat = Raises.
Proof.
  induction remaining as [|remaining IH]; intros attempt; cbn [GeminiClient.retry_from].
  - split; [done|]. intros (i & Hi & _). lia.
  - destruct (body attempt) as [a0|] eqn:Hb.
    + split.
      * intros [= ->]. exists 0%nat. rewrite Nat.add_0_r.
        split; [lia|]. split; [done|]. intros j Hj. lia.
      * intros (i & Hi & Hret & Hprev). destruct i as [|i].
        { rewrite Nat.add_0_r in Hret. congruence. }
        specialize (Hprev 0%nat ltac:(lia)). rewrite Nat.add_0_r in Hprev. congruence.
    + rewrite IH. split.
      * intros (i & Hi & Hret & Hprev). exists (S i).
        rewrite Nat.add_succ_r. split; [lia|]. split; [done|].
        intros [|j] Hj; [by rewrite Nat.add_0_r|].
        rewrite Nat.add_succ_r. apply Hprev. lia.
      * intros (i & Hi & Hret & Hprev). destruct i as [|i].
        { rewrite Nat.add_0_r in Hret. congruence. }
        exists i. rewrite Nat.add_succ_r in Hret. split; [lia|]. split; [done|].
        intros j Hj. specialize (Hprev (S j) ltac:(lia)).
        by rewrite Nat.add_succ_r in Hprev.
Qed.
End Retry.

(** (gemini_client.py, get_recommendation_justification) The retry loop
    returns what the first attempt that gets a response and parses it
    gives, makes no further attempt after it, and never more than
    [max_retries]; it raises exactly when all of them failed. *)
Theorem justification_is_first_success (json_loads : string -> outcome Json.value)
    (c : GeminiClient.t) (api : nat -> outcome Json.dict) (result : Json.value) :
  GeminiClient.get_recommendation_justification json_loads c api = Returns result <->
  exists attempt response,
    (attempt < GeminiClient.max_retries c)%nat /\
    api attempt = Returns response /\
    GeminiClient._parse_response json_loads response = Returns result /\
    forall earlier, (earlier < attempt)%nat ->
      api earlier = Raises \/
      exists bad, api earlier = Returns bad /\
                  GeminiClient._parse_response json_loads bad = Raises.
Proof.
  unfold GeminiClient.get_recommendation_justification.
  rewrite retry_from_returns. cbn [Nat.add]. split.
  - intros (i & Hi & Hret & Hprev).
    destruct (api i) as [response|] eqn:Hapi; [|done]. cbn [obind] in Hret.
    exists i, response. split_and!; [done..|].
    intros j Hj. specialize (Hprev j Hj).
    destruct (api j) as [bad|]; [|by left]. right. by exists bad.
  - intros (i & response & Hi & Hapi & Hparse & Hprev).
    exists i. rewrite Hapi. cbn [obind]. split_and!; [done..|].
    intros j Hj. destruct (Hprev j Hj) as [->|(bad & -> & Hbad)]; [done|].
    by cbn [obind].
Qed.

Lemma justification_is_first_success_witness :
  exists result,
    GeminiClient.get_recommendation_justification
      (fun _ => Returns (Json.Obj [("note", Json.Str "n/a")])) two_key_client
      (fun attempt => if (attempt <? 1)%nat then Raises else Returns (text_response "{}"))
    = Returns result.
Proof.
  eexists.
  apply (proj2 (justification_is_first_success
                  (fun _ => Returns (Json.Obj [("note", Json.Str "n/a")])) two_key_client
                  (fun attempt =>
                     if (attempt <? 1)%nat then Raises else Returns (text_response "{}"))
                  _)).
  exists 1%nat, (text_response "{}").
  split; [cbn; lia|]. split; [reflexivity|]. split; [vm_compute; reflexivity|].
  intros earlier Hearlier. left. destruct earlier as [|earlier]; [reflexivity | lia].
Defined.

(** (gemini_client.py, _parse_response) When the text of the response
    decodes to a JSON object, the parser returns an object that has both
    "structured_result" and "draft_message": the model's own where it gave
    them, the defaults where it did not; every other field is as the model
    gave it. *)
Theorem parse_response_fills_defaults (json_loads : string -> outcome Json.value)
    (response : Json.dict) (text : Json.value) (parsed : Json.dict) :
  GeminiClient.response_text response = Returns text ->
  GeminiClient.loads json_loads text = Returns (Json.Obj parsed) ->
  exists result,
    GeminiClient._parse_response json_loads response = Returns (Json.Obj result) /\
    Json.dict_get "structured_result" result
    = Some (default GeminiClient.default_structured_result
                    (Json.dict_get "structured_result" parsed)) /\
    Json.dict_get "draft_message" result
    = Some (default GeminiClient.default_draft_message
                    (Json.dict_get "draft_message" parsed)) /\
    forall k, k <> "structured_result"%string -> k <> "draft_message"%string ->
      Json.dict_get k result = Json.dict_get k parsed.
Proof.
  intros Htext Hloads. unfold GeminiClient._parse_response.
  rewrite Htext. cbn [obind]. rewrite Hloads. cbn [obind].
  destruct (ensure_key_obj "structured_result" GeminiClient.default_structured_result parsed)
    as (d1 & -> & Hs1 & Hk1). cbn [obind].
  destruct (ensure_key_obj "draft_message" GeminiClient.default_draft_message d1)
    as (d2 & -> & Hs2 & Hk2).
  exists d2. split_and!; [done| | |].
  - rewrite Hk2 by done. exact Hs1.
  - rewrite Hs2. by rewrite Hk1.
  - intros k Hks Hkd. by rewrite Hk2, Hk1.
Qed.

Lemma parse_response_fills_defaults_witness :
  GeminiClient.response_text (text_response "{}") = Returns (Json.Str "{}") /\
  GeminiClient.loads (fun _ => Returns (Json.Obj [("note", Json.Str "n/a")]))
    (Json.Str "{}") = Returns (Json.Obj [("note", Json.Str "n/a")]) /\
  exists result,
    GeminiClient._parse_response (fun _ => Returns (Json.Obj [("note", Json.Str "n/a")]))
      (text_response "{}") = Returns (Json.Obj result) /\
    Json.dict_get "structured_result" result
    = Some GeminiClient.default_structured_result.
Proof.
  assert (H1 : GeminiClient.response_text (text_response "{}") = Returns (Json.Str "{}"))
    by reflexivity.
  assert (H2 : GeminiClient.loads (fun _ => Returns (Json.Obj [("note", Json.Str "n/a")]))
                 (Json.Str "{}") = Returns (Json.Obj [("note", Json.Str "n/a")]))
    by reflexivity.
  split; [exact H1|]. split; [exact H2|].
  destruct (parse_response_fills_defaults _ _ _ _ H1 H2) as (result & Hr & Hs & _).
  exists result. split; [exact Hr | exact Hs].
Defined.

Section BatchEntries.
Variable cfg : Config.t.
Variable e : Orchestrator.env.

Lemma parse_batch_length loads response site_ids results :
  GeminiClient._parse_batch_response loads response site_ids = Returns results ->
  length results = length site_ids.
Proof.
  unfold GeminiClient._parse_batch_response.
  destruct (GeminiClient.response_sites _ _); [|done]. cbn [obind].
  destruct (GeminiClient.fill_results_map _ _); [|done]. cbn [obind].
  intros [= <-]. by rewrite length_map.
Qed.

Lemma batch_recommendations_length loads c api site_ids results :
  GeminiClient.get_batch_recommendations loads c api site_ids = Returns results ->
  length results = length site_ids.
Proof.
  unfold GeminiClient.get_batch_recommendations.
  destruct site_ids as [|s0 rest] eqn:Hs; [by intros [= <-]|]. rewrite <- Hs.
  intros (i & _ & Hret & _)%retry_from_returns.
  destruct (api (0 + i)%nat); [|done]. cbn [obind] in Hret.
  by eapply parse_batch_length.
Qed.

Lemma collect_imap_Forall2 (R : Features.row -> Orchestrator.decision -> Prop)
    (rows : list Features.row) :
  forall (f : nat -> Features.row -> outcome Orchestrator.decision) ds,
  (forall idx row d, (idx < length rows)%nat -> f idx row = Returns d -> R row d) ->
  collect (imap f rows) = Returns ds ->
  Forall2 R rows ds.
Proof.
  induction rows as [|row rest IH]; intros f ds Hf Hc.
  - injection Hc as <-. constructor.
  - cbn [imap] in Hc. apply collect_cons_inv in Hc as (d & ds' & Hd & Hrest & ->).
    constructor; [eapply (Hf 0%nat); [cbn; lia | done]|].
    eapply IH; [|exact Hrest]. intros idx row' d' Hidx Hd'.
    eapply (Hf (S idx)); [cbn; lia | done].
Qed.
End BatchEntries.

(** (orchestrator.py, _process_sites_batch_llm) The client hands back one
    result per site of the batch, so the "batch result missing" branch is
    never taken: when the [try] block of a batch returns, it returns one
    entry per row, each under its row's site id and each marked as LLM
    output, the low-confidence stand-ins for sites the response left out
    included. *)
Theorem batch_entries_all_marked_llm (cfg : Config.t) (e : Orchestrator.env)
    (client : GeminiClient.t) (api : nat -> outcome Json.dict)
    (sites_batch : list Features.row) (entries : list Orchestrator.decision) :
  Orchestrator.batch_try cfg e client api sites_batch = Returns entries ->
  Forall2 (fun row d =>
             Orchestrator.site_id d = Features.site_id row /\
             Orchestrator.llm_used d = true)
          sites_batch entries.
Proof.
  unfold Orchestrator.batch_try. intros Htry.
  destruct (GeminiClient.get_batch_recommendations _ _ _ _) as [batch_results|] eqn:Hget;
    [|done].
  cbn [obind] in Htry. apply batch_recommendations_length in Hget.
  rewrite length_map in Hget.
  eapply collect_imap_Forall2; [|exact Htry].
  intros idx row d Hidx Hd. cbn beta in Hd.
  destruct (batch_results !! idx) as [g|] eqn:Hg.
  - apply llm_decision_fields in Hd as (Hid & [Hllm _] & _). done.
  - apply lookup_ge_None in Hg. lia.
Qed.

Lemma batch_entries_all_marked_llm_witness :
  exists entries,
    Orchestrator.batch_try one_key_config (answering []) one_key_client
      (Orchestrator.batch_api (answering []) 0) [example_site] = Returns entries /\
    Forall2 (fun row d =>
               Orchestrator.site_id d = Features.site_id row /\
               Orchestrator.llm_used d = true)
            [example_site] entries /\
    map Orchestrator.action entries = [Json.Str "no_resupply"].
Proof.
  eexists. 
  assert (H : Orchestrator.batch_try one_key_config (answering []) one_key_client
      (Orchestrator.batch_api (answering []) 0) [example_site] = Returns _)
    by (vm_compute; reflexivity).
  split; [exact H|]. split; [|reflexivity].
  exact (batch_entries_all_marked_llm _ _ _ _ _ _ H).
Defined.

(** (gemini_client.py, _mark_key_failure then _get_next_available_key)
    A key marked as failed at time [marked_at] is not handed out at any
    time at which its cooldown (60 s after a 429, 30 s after a 503, 10 s
    otherwise) is still running, as long as some other key is free: the
    selection returns a free key other than the failed one.  The mark
    raises that key's failure count by exactly one. *)
Theorem marked_key_is_skipped (cfg : Config.t) (c c' : GeminiClient.t)
    (failed : string) (status_code : option Z) (marked_at now : float) :
  GeminiClient.reachable cfg c ->
  GeminiClient._mark_key_failure c failed status_code marked_at = Returns c' ->
  PrimFloat.leb (marked_at + Py.float_of_int (cooldown_for status_code)) now = false ->
  (exists other, other ∈ GeminiClient.api_keys c /\ other <> failed /\
                 has_elapsed c now other = true) ->
  exists c'' key,
    GeminiClient._get_next_available_key c' now = Returns (c'', Some key) /\
    key <> failed /\ key ∈ GeminiClient.api_keys c /\ has_elapsed c now key = true /\
    exists failures,
      GeminiClient.key_failures c !! failed = Some failures /\
      GeminiClient.key_failures c' !! failed = Some (failures + 1).
Proof.
  intros Hr Hmark Hcool (other & Hin & Hne & Hfree).
  pose proof (reachable_tracked _ _ Hr) as Ht.
  pose proof (mark_tracked _ _ _ _ _ Ht Hmark) as Ht'.
  unfold GeminiClient._mark_key_failure in Hmark.
  destruct (GeminiClient.key_failures c !! failed) as [failures|] eqn:Hf; [|done].
  injection Hmark as <-. fold (cooldown_for status_code) in *.
  set (c' := {| GeminiClient.api_keys := GeminiClient.api_keys c |}) in *.
  assert (Hfailed : has_elapsed c' now failed = false).
  { unfold has_elapsed. subst c'. cbn. by rewrite lookup_insert_eq. }
  assert (Hothers : forall k, k <> failed -> has_elapsed c' now k = has_elapsed c now k).
  { intros k Hk. unfold has_elapsed. subst c'. cbn. by rewrite lookup_insert_ne. }
  assert (Hav : elapsed_keys c' now <> []).
  { intros Hnil. assert (Hmem : other ∈ elapsed_keys c' now); [|by rewrite Hnil in Hmem;
      apply elem_of_nil in Hmem].
    unfold elapsed_keys. apply list_elem_of_filter. split; [|done].
    by rewrite Hothers. }
  destruct (get_next_among_elapsed c' now Ht' Hav) as (key & Hkey & Hnext).
  apply list_elem_of_lookup_2 in Hkey. unfold elapsed_keys in Hkey.
  apply list_elem_of_filter in Hkey as [Hel Hkin].
  assert (Hkf : key <> failed) by (intros ->; congruence).
  eexists _, key. split; [exact Hnext|]. split_and!; [done|done| |].
  - by rewrite <- Hothers.
  - exists failures. split; [done|]. subst c'. cbn. by rewrite lookup_insert_eq.
Qed.

Lemma marked_key_is_skipped_witness :
  GeminiClient.reachable two_key_config two_key_client /\
  (exists c',
     GeminiClient._mark_key_failure two_key_client "key-A" (Some 429) 1700000000
     = Returns c' /\
     PrimFloat.leb (1700000000 + Py.float_of_int (cooldown_for (Some 429))) 1700000030
     = false /\
     exists c'' key,
       GeminiClient._get_next_available_key c' 1700000030 = Returns (c'', Some key) /\
       key <> "key-A"%string).
Proof.
  assert (H1 : GeminiClient.reachable two_key_config two_key_client).
  { apply GeminiClient.reach_init. reflexivity. }
  split; [exact H1|].
  eexists.
  assert (H2 : GeminiClient._mark_key_failure two_key_client "key-A" (Some 429) 1700000000
               = Returns _) by reflexivity.
  assert (H3 : PrimFloat.leb (1700000000 + Py.float_of_int (cooldown_for (Some 429)))
                 1700000030 = false) by (vm_compute; reflexivity).
  assert (H4 : exists other, other ∈ GeminiClient.api_keys two_key_client /\
                 other <> "key-A"%string /\
                 has_elapsed two_key_client 1700000030 other = true).
  { exists "key-B"%string. split_and!; [|discriminate|vm_compute; reflexivity].
    apply elem_of_cons. right. apply elem_of_cons. by left. }
  split; [exact H2|]. split; [exact H3|].
  destruct (marked_key_is_skipped two_key_config two_key_client _ "key-A" (Some 429)
              1700000000 1700000030 H1 H2 H3 H4) as (c'' & key & Hnext & Hne & _).
  by exists c'', key.
Defined.

(** ** Further facts: the orchestrator *)

Section RunFacts.
Import Orchestrator.
Variable cfg : Config.t.
Variable e : env.

(** When no site is classified to the reasoning lane, the run is the
    rule lane alone and leaves the orchestrator as it was. *)
Lemma rule_only_run o (site_features : list Features.row) :
  llm_sites_of cfg o (sort_by_priority site_features) = [] ->
  run_sites cfg e o site_features
  = (o, map (rule_entry cfg (sort_by_priority site_features) 0)
            (if use_parallel o
             then as_completed (rules_completion e)
                    (rules_sites_of cfg o (sort_by_priority site_features))
             else rules_sites_of cfg o (sort_by_priority site_features))).
Proof.
  intros Hllm. unfold run_sites. rewrite Hllm. cbn [app]. f_equal.
  rewrite <- list_fmap_compose. reflexivity.
Qed.

Lemma chunks_in_sizes {A} n fuel : forall (l : list A),
  (0 < n)%nat ->
  Forall (fun b => (0 < length b <= n)%nat) (chunks_in fuel n l).
Proof.
  induction fuel as [|fuel IH]; intros l Hn; cbn [chunks_in]; [done|].
  destruct l as [|x r] eqn:Hl; [done|]. rewrite <- Hl.
  constructor; [|by apply IH].
  rewrite length_take. rewrite Hl. cbn [length]. lia.
Qed.
End RunFacts.

Lemma llm_used_split (results : list Orchestrator.decision) :
  (length (filter (fun d => Orchestrator.llm_used d = true) results)
   + length (filter (fun d => Orchestrator.llm_used d = false) results)
   = length results)%nat.
Proof.
  induction results as [|d rest IH]; [done|].
  rewrite !filter_cons. destruct (Orchestrator.llm_used d) eqn:Hd.
  - rewrite decide_True by done. rewrite decide_False by done. cbn. lia.
  - rewrite decide_False by done. rewrite decide_True by done. cbn. lia.
Qed.

(** (orchestrator.py, run and _compute_summary) The summary of a completed
    run counts every input site once: [total_sites] is the number of input
    rows, [llm_sites] and [rules_sites] are the numbers of entries marked
    and not marked as LLM output and add up to it, and no more sites need
    resupply than there are. *)
Theorem summary_counts_every_site (cfg : Config.t) (e : Orchestrator.env)
    (failures : Z) (site_features : list Features.row) (r : Orchestrator.run_result) :
  (Orchestrator.run cfg e (orchestrator_at cfg failures) site_features).2 = Returns r ->
  length (Orchestrator.results r) = length site_features /\
  Orchestrator.total_sites (Orchestrator.run_summary r) = length site_features /\
  Orchestrator.rules_sites (Orchestrator.run_summary r)
  = length (filter (fun d => Orchestrator.llm_used d = false) (Orchestrator.results r)) /\
  (Orchestrator.llm_sites (Orchestrator.run_summary r)
   + Orchestrator.rules_sites (Orchestrator.run_summary r)
   = Orchestrator.total_sites (Orchestrator.run_summary r))%nat /\
  (Orchestrator.sites_needing_resupply (Orchestrator.run_summary r)
   <= Orchestrator.total_sites (Orchestrator.run_summary r))%nat.
Proof.
  intros Hrun.
  destruct (run_sites_shape cfg e failures site_features) as (order & Hperm & Hshape).
  cbn zeta in Hshape. apply Forall2_length in Hshape. rewrite Hperm in Hshape.
  unfold Orchestrator.run in Hrun.
  destruct (Orchestrator.llm_executor _ _); [|done].
  destruct (Orchestrator.run_sites cfg e (orchestrator_at cfg failures) site_features)
    as [o1 rs].
  cbn [snd] in *.
  destruct (Orchestrator.rules_executor _ _); [|done]. cbn [obind] in Hrun.
  destruct (Orchestrator.depot_step rs); [|done]. cbn [obind] in Hrun.
  destruct (Orchestrator._compute_summary rs) as [summary|] eqn:Hsum; [|done].
  cbn [obind] in Hrun. injection Hrun as <-.
  cbn [Orchestrator.results Orchestrator.run_summary].
  split; [done|]. unfold Orchestrator._compute_summary in Hsum.
  destruct rs as [|d0 rest] eqn:Hrs.
  { injection Hsum as <-. cbn in *. split_and!; [done|done|done|lia]. }
  rewrite <- Hrs in *.
  destruct (Orchestrator.py_sum _); [|done]. cbn [obind] in Hsum.
  destruct (collect _); [|done]. cbn [obind] in Hsum.
  injection Hsum as <-.
  cbn [Orchestrator.total_sites Orchestrator.llm_sites Orchestrator.rules_sites
       Orchestrator.sites_needing_resupply].
  pose proof (llm_used_split rs).
  pose proof (length_filter
                (fun r => Json.is_str "resupply" (Orchestrator.action r) = true) rs).
  split_and!; [lia|lia|lia|lia].
Qed.

Lemma summary_counts_every_site_witness :
  exists r,
    (Orchestrator.run Config.defaults unreachable_service
       (orchestrator_at Config.defaults 0) [example_site]).2 = Returns r /\
    Orchestrator.total_sites (Orchestrator.run_summary r) = length [example_site].
Proof.
  eexists.
  assert (H : (Orchestrator.run Config.defaults unreachable_service
                 (orchestrator_at Config.defaults 0) [example_site]).2 = Returns _)
    by (vm_compute; reflexivity).
  split; [exact H|].
  exact (proj1 (proj2 (summary_counts_every_site _ _ _ _ _ H))).
Defined.

(** (orchestrator.py, _should_use_llm and run) Without selective routing,
    a run that starts with the failure counter at the budget of 3 or above
    sends no site to the client: all entries are rule entries, none is
    marked as LLM output, and the counter stays where it was. *)
Theorem open_breaker_runs_rules_only (cfg : Config.t) (e : Orchestrator.env)
    (failures : Z) (site_features : list Features.row) :
  Config.USE_SELECTIVE_LLM cfg = false ->
  3 <= failures ->
  let o := orchestrator_at cfg failures in
  (Orchestrator.run_sites cfg e o site_features).1 = o /\
  Forall (fun d => Orchestrator.llm_used d = false)
         (Orchestrator.run_sites cfg e o site_features).2 /\
  exists order,
    order ≡ₚ site_features /\
    (Orchestrator.run_sites cfg e o site_features).2
    = map (rule_entry cfg (Orchestrator.sort_by_priority site_features) 0) order.
Proof.
  intros Hsel Hfail o.
  set (sites_list := Orchestrator.sort_by_priority site_features).
  assert (Hno : forall row, Orchestrator._should_use_llm cfg o row = false).
  { intros row. unfold Orchestrator._should_use_llm. subst o.
    unfold orchestrator_at, Orchestrator.attributes. cbn. rewrite Hsel. cbn.
    destruct (GeminiClient.init cfg); cbn; [|done].
    apply Z.ltb_ge. lia. }
  assert (Hllm : Orchestrator.llm_sites_of cfg o sites_list = []).
  { unfold Orchestrator.llm_sites_of. apply filter_none.
    apply Forall_forall. intros row _. by rewrite Hno. }
  assert (Hrules : Orchestrator.rules_sites_of cfg o sites_list = sites_list).
  { unfold Orchestrator.rules_sites_of. apply filter_all.
    apply Forall_forall. intros row _. apply Hno. }
  rewrite (rule_only_run cfg e o site_features Hllm). fold sites_list.
  rewrite Hrules. cbn [fst snd]. split; [done|]. split.
  - apply Forall_fmap, Forall_forall. intros row _. cbn. unfold rule_entry.
    by destruct (enrich_fields sites_list
                (Orchestrator.set_latency
                   (Orchestrator._process_site_with_rules cfg row (Features.site_id row)) 0))
      as (_ & _ & _ & ->).
  - eexists. split; [|reflexivity].
    destruct (Orchestrator.use_parallel o).
    + rewrite as_completed_perm. apply stable_sort_perm.
    + apply stable_sort_perm.
Qed.

Lemma open_breaker_runs_rules_only_witness :
  Config.USE_SELECTIVE_LLM individual_config = false /\
  3 <= 3 /\
  Forall (fun d => Orchestrator.llm_used d = false)
         (Orchestrator.run_sites individual_config recovering_service
            (orchestrator_at individual_config 3) five_sites).2.
Proof.
  assert (H1 : Config.USE_SELECTIVE_LLM individual_config = false) by reflexivity.
  assert (H2 : 3 <= 3) by lia.
  split; [exact H1|]. split; [exact H2|].
  exact (proj1 (proj2 (open_breaker_runs_rules_only individual_config recovering_service
                         3 five_sites H1 H2))).
Defined.

(** (orchestrator.py, run: the batch loop) The batches are consecutive
    slices of the reasoning-lane sites: put end to end they are that list,
    none is empty and none holds more than [batch_api_size] sites. *)
Theorem batches_partition_sites (batch_api_size : Z) (llm_sites : list Features.row) :
  1 < batch_api_size ->
  let batches := Orchestrator.chunks (Z.to_nat batch_api_size) llm_sites in
  concat batches = llm_sites /\
  Forall (fun batch => (0 < length batch)%nat /\
                       Z.of_nat (length batch) <= batch_api_size) batches.
Proof.
  intros Hsize batches. split.
  - apply chunks_concat. lia.
  - subst batches. unfold Orchestrator.chunks.
    eapply Forall_impl; [apply chunks_in_sizes; lia|].
    intros b Hb. cbn in Hb. lia.
Qed.

Lemma batches_partition_sites_witness :
  1 < 2 /\
  concat (Orchestrator.chunks (Z.to_nat 2) five_sites) = five_sites /\
  map (@length _) (Orchestrator.chunks (Z.to_nat 2) five_sites) = [2; 2; 1]%nat.
Proof.
  assert (H : 1 < 2) by lia.
  split; [exact H|]. split; [|reflexivity].
  exact (proj1 (batches_partition_sites 2 five_sites H)).
Defined.

(** ** Further facts: the depot allocation *)

Section SortFacts.
Context {A K : Type} (key : A -> K) (lt : K -> K -> bool).

(** The keys met are ordered by [<] as numbers are: this fails for a
    float key that is NaN, so it is asked of the elements at hand only. *)
Variable comparable : A -> Prop.
Hypothesis lt_asym : forall x y,
  comparable x -> comparable y -> lt (key x) (key y) = true -> lt (key y) (key x) = false.
Hypothesis lt_negtrans : forall x y z,
  comparable x -> comparable y -> comparable z ->
  lt (key y) (key x) = false -> lt (key z) (key y) = false -> lt (key z) (key x) = false.

Lemma insert_sorted_Forall (Q : A -> Prop) x l :
  Q x -> Forall Q l -> Forall Q (Py.insert_sorted key lt x l).
Proof.
  intros Hx Hl. apply Forall_forall. intros z Hz.
  rewrite insert_sorted_perm in Hz. apply elem_of_cons in Hz as [->|Hz]; [done|].
  rewrite Forall_forall in Hl. by apply Hl.
Qed.

Lemma insert_sorted_ordered x l :
  comparable x -> Forall comparable l ->
  ForallOrdPairs (fun a b => lt (key b) (key a) = false) l ->
  ForallOrdPairs (fun a b => lt (key b) (key a) = false) (Py.insert_sorted key lt x l).
Proof.
  intros Hx Hl Hord. induction Hord as [|y r Hy Hr IH]; cbn [Py.insert_sorted].
  - constructor; [constructor | constructor].
  - apply Forall_cons in Hl as [Hcy Hcr].
    destruct (lt (key y) (key x)) eqn:Hlt.
    + constructor; [|by apply IH].
      apply List.Forall_forall. intros z Hz. apply list_elem_of_In in Hz.
      rewrite insert_sorted_perm in Hz. apply elem_of_cons in Hz as [->|Hz].
      * by apply lt_asym.
      * rewrite List.Forall_forall in Hy. apply Hy. by apply list_elem_of_In.
    + constructor; [|by constructor].
      constructor; [done|].
      apply List.Forall_forall. intros z Hz.
      rewrite List.Forall_forall in Hy. specialize (Hy z Hz).
      apply list_elem_of_In in Hz. rewrite Forall_forall in Hcr.
      by apply (lt_negtrans x y z); [| |apply Hcr|..].
Qed.

Lemma stable_sort_ordered l :
  Forall comparable l ->
  ForallOrdPairs (fun a b => lt (key b) (key a) = false) (Py.stable_sort key lt l).
Proof.
  unfold Py.stable_sort. induction l as [|x r IH]; intros Hl; cbn [foldr]; [constructor|].
  apply Forall_cons in Hl as [Hx Hr].
  apply insert_sorted_ordered; [done | | by apply IH].
  clear IH. induction r as [|y r IHr]; cbn [foldr]; [done|].
  apply Forall_cons in Hr as [Hy Hr]. apply insert_sorted_Forall; [done | by apply IHr].
Qed.

Lemma sublist_ordered (R : A -> A -> Prop) (l1 l2 : list A) :
  l1 `sublist_of` l2 -> ForallOrdPairs R l2 -> ForallOrdPairs R l1.
Proof.
  induction 1 as [|x l1 l2 Hsub IH|x l1 l2 Hsub IH]; intros Hord; [done|..].
  - inversion Hord as [|? ? Hx Hr]; subst. constructor; [|by apply IH].
    apply List.Forall_forall. intros z Hz. rewrite List.Forall_forall in Hx.
    apply Hx. apply list_elem_of_In. eapply elem_of_sublist; [|exact Hsub].
    by apply list_elem_of_In.
  - inversion Hord; subst. by apply IH.
Qed.

Lemma ordered_impl (R R' : A -> A -> Prop) (l : list A) :
  (forall a b, R a b -> R' a b) -> ForallOrdPairs R l -> ForallOrdPairs R' l.
Proof.
  intros Himpl. induction 1 as [|x r Hx Hr IH]; constructor; [|done].
  eapply List.Forall_impl; [|exact Hx]. apply Himpl.
Qed.
End SortFacts.

(** Sorting with [reverse=True] on an integer key. *)
Lemma stable_sort_descending {A} (key : A -> Z) (l : list A) :
  ForallOrdPairs (fun a b => key b <= key a)
                 (Py.stable_sort key (fun a b => b <? a) l).
Proof.
  eapply ordered_impl;
    [|apply (stable_sort_ordered key (fun a b => b <? a) (fun _ => True))].
  - cbn. intros a b Hab. apply Z.ltb_ge in Hab. lia.
  - intros x y _ _ Hxy. apply Z.ltb_lt in Hxy. apply Z.ltb_ge. lia.
  - intros x y z _ _ _ H1 H2. apply Z.ltb_ge in H1, H2. apply Z.ltb_ge. lia.
  - by apply Forall_forall.
Qed.

Lemma ordered_transfer {A B} (f : A -> Z) (g : B -> Z) (l1 : list A) (l2 : list B) :
  Forall2 (fun a s => f a = g s) l1 l2 ->
  ForallOrdPairs (fun s t => g t <= g s) l2 ->
  ForallOrdPairs (fun a b => f b <= f a) l1.
Proof.
  induction 1 as [|a s l1 l2 Has Hrest IH]; intros Hord; [constructor|].
  inversion Hord as [|? ? Hs Hr]; subst. constructor; [|by apply IH].
  apply Forall_forall. intros b Hb. apply list_elem_of_lookup in Hb as [i Hi].
  destruct (Forall2_lookup_l _ _ _ _ _ Hrest Hi) as (t & Ht & Hbt).
  rewrite Has, Hbt. rewrite List.Forall_forall in Hs. apply Hs.
  apply list_elem_of_In. by eapply list_elem_of_lookup_2.
Qed.

Section DictAlter.
Context {V : Type}.
Implicit Types d : list (string * V).

Lemma dict_alter_keys f k d : (Py.dict_alter f k d).*1 = d.*1.
Proof.
  induction d as [|[k' v] r IH]; cbn; [done|].
  destruct (String.eqb k k'); cbn; [done|]. by rewrite IH.
Qed.

Lemma dict_get_alter_eq f k d :
  Py.dict_get k (Py.dict_alter f k d) = f <$> Py.dict_get k d.
Proof.
  induction d as [|[k' v] r IH]; cbn; [done|].
  destruct (String.eqb k k') eqn:Hk; cbn; rewrite Hk; [done | exact IH].
Qed.

Lemma dict_get_alter_ne f k k' d :
  k <> k' -> Py.dict_get k (Py.dict_alter f k' d) = Py.dict_get k d.
Proof.
  intros Hne. induction d as [|[k0 v] r IH]; cbn; [done|].
  destruct (String.eqb_spec k' k0) as [->|Hne']; cbn.
  - by destruct (String.eqb_spec k k0).
  - destruct (String.eqb_spec k k0); [done | exact IH].
Qed.
End DictAlter.

Lemma drawn_from_app depot l1 l2 :
  drawn_from depot (l1 ++ l2) = drawn_from depot l1 + drawn_from depot l2.
Proof.
  unfold drawn_from. rewrite filter_app, map_app, foldr_app.
  generalize (foldr Z.add 0
                (map DepotOptimizer.quantity
                     (filter (fun a => DepotOptimizer.depot_id a = depot) l2))).
  intros z.
  induction (map DepotOptimizer.quantity
               (filter (fun a => DepotOptimizer.depot_id a = depot) l1)) as [|x r IH];
    cbn; lia.
Qed.

Section AllocationEdges.
Import DepotOptimizer.
Variable lead_times : gmap string (gmap string Z).
Variable shipping_costs : option (gmap string (gmap string float)).

(** The loop makes at most one edge per entry, in the order of the
    entries, and keeps the depots' ids. *)
Lemma loop_edges (l : list (string * Z)) : forall st,
  exists served new,
    served `sublist_of` l /\
    st_allocations (foldl (allocate_site lead_times shipping_costs) st l)
    = st_allocations st ++ new /\
    Forall2 (edge_of lead_times (remaining_depot_inv st).*1) new served /\
    (remaining_depot_inv (foldl (allocate_site lead_times shipping_costs) st l)).*1
    = (remaining_depot_inv st).*1.
Proof.
  induction l as [|[site n] r IH]; intros st; cbn [foldl].
  { exists [], []. split_and!; [done | by rewrite app_nil_r | constructor | done]. }
  destruct (IH (allocate_site lead_times shipping_costs st (site, n)))
    as (served & new & Hsub & Hall & Hedges & Hkeys).
  unfold allocate_site in *.
  destruct (Z.leb_spec n 0) as [Hn|Hn].
  { exists served, new. split_and!; [by apply sublist_cons | done..]. }
  destruct (_find_best_depot lead_times shipping_costs site n (remaining_depot_inv st))
    as [[depot qty]|] eqn:Hbest.
  - apply find_best_depot_Some in Hbest as (available & Hin & Hav & -> & [lead Hlead]).
    cbn [st_allocations remaining_depot_inv] in *.
    rewrite dict_alter_keys in *.
    exists ((site, n) :: served),
      ({| depot_id := depot; site_id := site; quantity := Z.min n available;
          lead_time_days := lead_time_or_7 lead_times depot site |} :: new).
    split_and!; [by apply sublist_skip | by rewrite Hall, <- app_assoc | | done].
    constructor; [|done].
    unfold edge_of, lead_time_or_7. cbn. rewrite Hlead. cbn.
    split_and!; [done | lia | lia | done |].
    apply list_elem_of_fmap. by exists (depot, available).
  - cbn [st_allocations remaining_depot_inv] in *.
    exists served, new. split_and!; [by apply sublist_cons | done..].
Qed.

(** What one pass of the loop does to a depot's stock. *)
Lemma allocate_site_draws st site n depot r :
  NoDup (remaining_depot_inv st).*1 ->
  Py.dict_get depot (remaining_depot_inv st) = Some r ->
  let st' := allocate_site lead_times shipping_costs st (site, n) in
  exists q,
    0 <= q <= Z.max 0 r /\
    drawn_from depot (st_allocations st') = drawn_from depot (st_allocations st) + q /\
    Py.dict_get depot (remaining_depot_inv st') = Some (r - q).
Proof.
  intros Hnd Hr. cbn zeta. unfold allocate_site.
  destruct (Z.leb_spec n 0) as [Hn|Hn].
  { exists 0. split_and!; [lia | lia | lia | by rewrite Z.sub_0_r]. }
  destruct (_find_best_depot lead_times shipping_costs site n (remaining_depot_inv st))
    as [[chosen qty]|] eqn:Hbest.
  - apply find_best_depot_Some in Hbest as (available & Hin & Hav & -> & _).
    apply dict_get_Some_elem in Hin; [|done].
    cbn [st_allocations remaining_depot_inv].
    rewrite drawn_from_app. unfold drawn_from at 2. cbn [filter list_filter].
    destruct (decide (chosen = depot)) as [->|Hne].
    + rewrite Hin in Hr. injection Hr as <-.
      exists (Z.min n available). rewrite dict_get_alter_eq, Hin.
      rewrite decide_True by done. cbn. split_and!; [lia | lia | lia | done].
    + exists 0. rewrite dict_get_alter_ne by done.
      rewrite decide_False by done. cbn.
      split_and!; [lia | lia | lia | by rewrite Z.sub_0_r].
  - cbn [st_allocations remaining_depot_inv].
    exists 0. split_and!; [lia | lia | lia | by rewrite Z.sub_0_r].
Qed.

Lemma loop_draws (l : list (string * Z)) depot : forall st r,
  NoDup (remaining_depot_inv st).*1 ->
  Py.dict_get depot (remaining_depot_inv st) = Some r ->
  let st' := foldl (allocate_site lead_times shipping_costs) st l in
  exists q,
    0 <= q <= Z.max 0 r /\
    drawn_from depot (st_allocations st') = drawn_from depot (st_allocations st) + q /\
    Py.dict_get depot (remaining_depot_inv st') = Some (r - q).
Proof.
  induction l as [|[site n] rest IH]; intros st r Hnd Hr; cbn zeta.
  { exists 0. split_and!; [lia | lia | cbn; lia | cbn; by rewrite Z.sub_0_r]. }
  cbn [foldl].
  destruct (allocate_site_draws st site n depot r Hnd Hr) as (q1 & Hq1 & Hd1 & Hr1).
  destruct (IH (allocate_site lead_times shipping_costs st (site, n)) (r - q1))
    as (q2 & Hq2 & Hd2 & Hr2); [|done|].
  { destruct (loop_edges [(site, n)] st) as (_ & _ & _ & _ & _ & Hkeys).
    cbn [foldl] in Hkeys. by rewrite Hkeys. }
  exists (q1 + q2). cbn zeta in Hd2, Hr2.
  split_and!; [lia | lia | lia |].
  rewrite Hr2. f_equal. lia.
Qed.

(** [excess_inventory]: the depots left with stock, each with what is
    left. *)
Lemma excess_fold k (inv : list (string * Z)) : forall acc,
  NoDup inv.*1 ->
  Py.dict_get k
    (foldl (fun excess '(depot_id, remaining) =>
              if 0 <? remaining then Py.dict_set depot_id remaining excess else excess)
           acc inv)
  = match Py.dict_get k inv with
    | Some r => if 0 <? r then Some r else Py.dict_get k acc
    | None => Py.dict_get k acc
    end.
Proof.
  induction inv as [|[k' v] rest IH]; intros acc Hnd; [done|].
  apply NoDup_cons in Hnd as [Hk' Hrest]. cbn [foldl Py.dict_get].
  rewrite IH by done.
  destruct (String.eqb_spec k k') as [->|Hne].
  - assert (Py.dict_get k' rest = None) as -> by (by apply dict_get_None).
    destruct (0 <? v); [by rewrite dict_get_set_eq | done].
  - destruct (0 <? v); [by rewrite dict_get_set_ne | done].
Qed.
End AllocationEdges.

Lemma net_demands_NoDup site_inventory (site_demands : list (string * Z)) :
  NoDup (DepotOptimizer.net_demands_of site_demands site_inventory).*1.
Proof.
  unfold DepotOptimizer.net_demands_of.
  assert (H : forall acc : list (string * Z), NoDup acc.*1 ->
    NoDup (foldl (fun net_demands '(site_id, demand) =>
                    Py.dict_set site_id
                      (DepotOptimizer.net_demand_of site_inventory site_id demand)
                      net_demands) acc site_demands).*1).
  { induction site_demands as [|[s d] r IH]; intros acc Hacc; [done|].
    cbn [foldl]. apply IH. by apply dict_set_NoDup. }
  apply H. constructor.
Qed.

(** (depot_optimizer.py, optimize_depot_allocation and _find_best_depot)
    Every edge of a plan is well formed, whatever the inputs: it ships a
    positive quantity, no more than the net demand of its site, from a depot
    of the inventory, and its lead time is the entry of the lead-time table
    for that depot and site, so the default of 7 days is never what an edge
    carries. *)
Theorem allocations_well_formed
    (site_demands depot_inventory : list (string * Z))
    (site_inventory : gmap string Z)
    (lead_times : gmap string (gmap string Z))
    (shipping_costs : option (gmap string (gmap string float))) :
  let p := DepotOptimizer.optimize_depot_allocation
             site_demands depot_inventory site_inventory lead_times shipping_costs in
  let net_demands := DepotOptimizer.net_demands_of site_demands site_inventory in
  Forall (fun a =>
            0 < DepotOptimizer.quantity a <= net_demand_at net_demands a /\
            DepotOptimizer.site_id a ∈ net_demands.*1 /\
            DepotOptimizer.depot_id a ∈ depot_inventory.*1 /\
            DepotOptimizer.lookup2 lead_times (DepotOptimizer.depot_id a)
                                   (DepotOptimizer.site_id a)
            = Some (DepotOptimizer.lead_time_days a))
         (DepotOptimizer.allocations p).
Proof.
  intros p net_demands. subst p. unfold DepotOptimizer.optimize_depot_allocation.
  cbn [DepotOptimizer.allocations]. fold net_demands.
  set (sorted := Py.stable_sort snd (fun a b => b <? a) net_demands).
  destruct (loop_edges lead_times shipping_costs sorted
              {| DepotOptimizer.st_allocations := [];
                 DepotOptimizer.st_total_allocated := 0;
                 DepotOptimizer.st_unmet_demand := [];
                 DepotOptimizer.remaining_depot_inv := depot_inventory |})
    as (served & new & Hsub & -> & Hedges & _).
  cbn [DepotOptimizer.st_allocations DepotOptimizer.remaining_depot_inv app] in *.
  apply Forall_forall. intros a Ha.
  apply list_elem_of_lookup in Ha as [i Hi].
  destruct (Forall2_lookup_l _ _ _ _ _ Hedges Hi) as ([s n] & Hs & Hsite & Hq & Hlead & Hdepot).
  cbn in Hsite, Hq.
  assert (Hin : (s, n) ∈ net_demands).
  { rewrite <- (stable_sort_perm snd (fun a b => b <? a) net_demands).
    eapply elem_of_sublist; [|exact Hsub]. by eapply list_elem_of_lookup_2. }
  assert (Hget : Py.dict_get s net_demands = Some n).
  { apply dict_get_Some_elem; [apply net_demands_NoDup | done]. }
  unfold net_demand_at. rewrite Hsite in Hlead |- *. rewrite Hget. cbn.
  split; [lia|]. split; [|by split].
  apply list_elem_of_fmap. by exists (s, n).
Qed.

(** (depot_optimizer.py, optimize_depot_allocation) A site is served from
    one depot only: no two edges of a plan have the same site, so a demand
    that the chosen depot cannot cover is never completed from another
    depot; and the edges come in the order of descending net demand. *)
Theorem one_edge_per_site_by_descending_demand
    (site_demands depot_inventory : list (string * Z))
    (site_inventory : gmap string Z)
    (lead_times : gmap string (gmap string Z))
    (shipping_costs : option (gmap string (gmap string float))) :
  let p := DepotOptimizer.optimize_depot_allocation
             site_demands depot_inventory site_inventory lead_times shipping_costs in
  let net_demands := DepotOptimizer.net_demands_of site_demands site_inventory in
  NoDup (map DepotOptimizer.site_id (DepotOptimizer.allocations p)) /\
  ForallOrdPairs (fun a b => net_demand_at net_demands b <= net_demand_at net_demands a)
                 (DepotOptimizer.allocations p).
Proof.
  intros p net_demands. subst p. unfold DepotOptimizer.optimize_depot_allocation.
  cbn [DepotOptimizer.allocations]. fold net_demands.
  set (sorted := Py.stable_sort snd (fun a b => b <? a) net_demands).
  destruct (loop_edges lead_times shipping_costs sorted
              {| DepotOptimizer.st_allocations := [];
                 DepotOptimizer.st_total_allocated := 0;
                 DepotOptimizer.st_unmet_demand := [];
                 DepotOptimizer.remaining_depot_inv := depot_inventory |})
    as (served & new & Hsub & -> & Hedges & _).
  cbn [DepotOptimizer.st_allocations DepotOptimizer.remaining_depot_inv app] in *.
  assert (Hperm : sorted ≡ₚ net_demands) by apply stable_sort_perm.
  assert (Hnd : NoDup sorted.*1).
  { rewrite Hperm. apply net_demands_NoDup. }
  assert (Hsites : map DepotOptimizer.site_id new = served.*1).
  { clear -Hedges. induction Hedges as [|a s new served [Ha _] _ IH]; [done|].
    cbn. by rewrite Ha, IH. }
  assert (Hnet : Forall2 (fun a s => net_demand_at net_demands a = s.2) new served).
  { apply Forall2_same_length_lookup_2; [by eapply Forall2_length|].
    intros i a [s n] Ha Hs.
    destruct (Forall2_lookup_lr _ _ _ _ _ _ Hedges Ha Hs) as (Hsite & _).
    cbn in *. unfold net_demand_at. rewrite Hsite.
    assert (Hin : (s, n) ∈ net_demands).
    { rewrite <- Hperm. eapply elem_of_sublist; [|exact Hsub].
      by eapply list_elem_of_lookup_2. }
    apply dict_get_Some_elem in Hin; [|apply net_demands_NoDup].
    by rewrite Hin. }
  split.
  - rewrite Hsites. eapply sublist_NoDup; [exact Hnd|]. by apply fmap_sublist.
  - eapply ordered_transfer; [exact Hnet|].
    eapply sublist_ordered; [exact Hsub|]. apply stable_sort_descending.
Qed.

(** (depot_optimizer.py, optimize_depot_allocation) With the depots a dict
    (distinct ids), no depot is over-drawn: what the edges of a plan ship
    from a depot is at most its stock (nothing from a depot without stock),
    and [excess_inventory] lists the depot with exactly what is left when
    that is positive, and not at all otherwise. *)
Theorem depots_never_overdrawn
    (site_demands depot_inventory : list (string * Z))
    (site_inventory : gmap string Z)
    (lead_times : gmap string (gmap string Z))
    (shipping_costs : option (gmap string (gmap string float)))
    (depot : string) (stock : Z) :
  NoDup depot_inventory.*1 ->
  Py.dict_get depot depot_inventory = Some stock ->
  let p := DepotOptimizer.optimize_depot_allocation
             site_demands depot_inventory site_inventory lead_times shipping_costs in
  let drawn := drawn_from depot (DepotOptimizer.allocations p) in
  0 <= drawn <= Z.max 0 stock /\
  Py.dict_get depot (DepotOptimizer.excess_inventory p)
  = if 0 <? stock - drawn then Some (stock - drawn) else None.
Proof.
  intros Hnd Hstock p drawn. subst drawn p.
  unfold DepotOptimizer.optimize_depot_allocation.
  cbn [DepotOptimizer.allocations DepotOptimizer.excess_inventory].
  set (sorted := Py.stable_sort snd (fun a b => b <? a)
                   (DepotOptimizer.net_demands_of site_demands site_inventory)).
  set (st0 := {| DepotOptimizer.st_allocations := [];
                 DepotOptimizer.st_total_allocated := 0;
                 DepotOptimizer.st_unmet_demand := [];
                 DepotOptimizer.remaining_depot_inv := depot_inventory |}).
  destruct (loop_draws lead_times shipping_costs sorted depot st0 stock Hnd Hstock)
    as (q & Hq & Hdrawn & Hleft).
  cbn zeta in Hdrawn, Hleft.
  destruct (loop_edges lead_times shipping_costs sorted st0) as (_ & _ & _ & _ & _ & Hkeys).
  change (drawn_from depot (DepotOptimizer.st_allocations st0)) with 0 in Hdrawn.
  rewrite Hdrawn, Z.add_0_l. split; [lia|].
  rewrite excess_fold by (by rewrite Hkeys). rewrite Hleft. reflexivity.
Qed.

Lemma depots_never_overdrawn_witness :
  NoDup example_two_depots.*1 /\
  Py.dict_get "D1" example_two_depots = Some 30 /\
  let p := DepotOptimizer.optimize_depot_allocation
             example_demands example_two_depots example_inventory
             example_two_lead_times None in
  0 <= drawn_from "D1" (DepotOptimizer.allocations p) <= Z.max 0 30 /\
  Py.dict_get "D1" (DepotOptimizer.excess_inventory p)
  = if 0 <? 30 - drawn_from "D1" (DepotOptimizer.allocations p)
    then Some (30 - drawn_from "D1" (DepotOptimizer.allocations p)) else None.
Proof.
  assert (H1 : NoDup example_two_depots.*1).
  { cbn. apply NoDup_cons. split; [|apply NoDup_singleton].
    rewrite list_elem_of_singleton. discriminate. }
  assert (H2 : Py.dict_get "D1" example_two_depots = Some 30) by reflexivity.
  split; [exact H1|]. split; [exact H2|].
  exact (depots_never_overdrawn example_demands example_two_depots
           example_inventory example_two_lead_times None "D1" 30 H1 H2).
Defined.

Section SiteSplit.
Import DepotOptimizer.
Variable lead_times : gmap string (gmap string Z).
Variable shipping_costs : option (gmap string (gmap string float)).

Lemma allocate_site_settles st site n :
  0 <= n -> Py.dict_get site (st_unmet_demand st) = None ->
  let st' := allocate_site lead_times shipping_costs st (site, n) in
  (forall s, settled st' s = settled st s + (if decide (site = s) then n else 0)) /\
  (forall k, k <> site -> Py.dict_get k (st_unmet_demand st')
                          = Py.dict_get k (st_unmet_demand st)).
Proof.
  intros Hn Hfresh. cbn zeta. unfold settled, allocate_site.
  destruct (Z.leb_spec n 0).
  { split; [|done]. intros s. destruct (decide (site = s)); lia. }
  destruct (_find_best_depot _ _ site n _) as [[depot q]|] eqn:Hbest.
  - apply find_best_depot_Some in Hbest as (a & _ & Ha & -> & _).
    cbn [st_allocations st_unmet_demand]. split.
    + intros s. rewrite allocated_to_app.
      unfold allocated_to at 2. rewrite filter_cons, filter_nil. cbn [site_id].
      destruct (decide (site = s)) as [<-|Hne].
      * destruct (Z.ltb_spec (Z.min n a) n).
        -- rewrite dict_get_set_eq, Hfresh. cbn. lia.
        -- rewrite Hfresh. cbn. lia.
      * destruct (Z.ltb_spec (Z.min n a) n).
        -- rewrite dict_get_set_ne by done. cbn. lia.
        -- cbn. lia.
    + intros k Hk. destruct (Z.ltb_spec (Z.min n a) n); [|done].
      by rewrite dict_get_set_ne.
  - cbn [st_allocations st_unmet_demand]. split.
    + intros s. destruct (decide (site = s)) as [<-|Hne].
      * rewrite dict_get_set_eq, Hfresh. cbn. lia.
      * rewrite dict_get_set_ne by done. lia.
    + intros k Hk. by rewrite dict_get_set_ne.
Qed.

Lemma loop_settles (l : list (string * Z)) : forall st,
  NoDup l.*1 -> Forall (fun kv => 0 <= kv.2) l ->
  (forall k, k ∈ l.*1 -> Py.dict_get k (st_unmet_demand st) = None) ->
  forall s,
    settled (foldl (allocate_site lead_times shipping_costs) st l) s
    = settled st s + default 0 (Py.dict_get s l).
Proof.
  induction l as [|[site n] r IH]; intros st Hnd Hpos Hfresh s; cbn [foldl].
  { cbn. lia. }
  apply NoDup_cons in Hnd as [Hsite Hr].
  apply Forall_cons in Hpos as [Hn Hpos]. cbn in Hn.
  destruct (allocate_site_settles st site n Hn) as (Hstep & Hkeep).
  { apply Hfresh. apply elem_of_cons. by left. }
  rewrite IH; [|done|done|].
  - rewrite Hstep. cbn [Py.dict_get].
    destruct (String.eqb_spec s site) as [->|Hne].
    + rewrite decide_True by done.
      assert (Py.dict_get site r = None) as -> by (by apply dict_get_None).
      cbn. lia.
    + rewrite decide_False by done. lia.
  - intros k Hk. rewrite Hkeep.
    + apply Hfresh. apply elem_of_cons. by right.
    + intros ->. done.
Qed.
End SiteSplit.

Lemma net_demands_nonneg site_inventory (site_demands : list (string * Z)) :
  Forall (fun v => 0 <= v) (DepotOptimizer.net_demands_of site_demands site_inventory).*2.
Proof.
  unfold DepotOptimizer.net_demands_of.
  assert (H : forall acc : list (string * Z), Forall (fun v => 0 <= v) acc.*2 ->
    Forall (fun v => 0 <= v)
      (foldl (fun net_demands '(site_id, demand) =>
                Py.dict_set site_id
                  (DepotOptimizer.net_demand_of site_inventory site_id demand)
                  net_demands) acc site_demands).*2).
  { induction site_demands as [|[s d] r IH]; intros acc Hacc; [done|].
    cbn [foldl]. apply IH. apply dict_set_values; [done|].
    unfold DepotOptimizer.net_demand_of. lia. }
  apply H. constructor.
Qed.

(** (depot_optimizer.py, optimize_depot_allocation) Site by site, what a
    plan allocates to the site and what it records as unmet for it add up
    to the site's net demand exactly: no demand is dropped and none is
    counted twice, whatever the depots hold. *)
Theorem site_demand_is_split_exactly
    (site_demands depot_inventory : list (string * Z))
    (site_inventory : gmap string Z)
    (lead_times : gmap string (gmap string Z))
    (shipping_costs : option (gmap string (gmap string float)))
    (site : string) :
  let p := DepotOptimizer.optimize_depot_allocation
             site_demands depot_inventory site_inventory lead_times shipping_costs in
  allocated_to site (DepotOptimizer.allocations p)
  + default 0 (Py.dict_get site (DepotOptimizer.unmet_demand p))
  = default 0 (Py.dict_get site
                 (DepotOptimizer.net_demands_of site_demands site_inventory)).
Proof.
  intros p. subst p. unfold DepotOptimizer.optimize_depot_allocation.
  cbn [DepotOptimizer.allocations DepotOptimizer.unmet_demand].
  set (net_demands := DepotOptimizer.net_demands_of site_demands site_inventory).
  set (sorted := Py.stable_sort snd (fun a b => b <? a) net_demands).
  assert (Hperm : sorted ≡ₚ net_demands) by apply stable_sort_perm.
  assert (Hnd : NoDup sorted.*1).
  { rewrite Hperm. apply net_demands_NoDup. }
  assert (Hpos : Forall (fun kv : string * Z => 0 <= kv.2) sorted).
  { rewrite Hperm. pose proof (net_demands_nonneg site_inventory site_demands) as H.
    fold net_demands in H. apply Forall_forall. intros kv Hkv.
    rewrite Forall_forall in H. apply H. apply list_elem_of_fmap. by exists kv. }
  pose proof (loop_settles lead_times shipping_costs sorted
                {| DepotOptimizer.st_allocations := [];
                   DepotOptimizer.st_total_allocated := 0;
                   DepotOptimizer.st_unmet_demand := [];
                   DepotOptimizer.remaining_depot_inv := depot_inventory |}
                Hnd Hpos ltac:(done) site) as H.
  unfold settled in H. rewrite H, (dict_get_perm site sorted net_demands Hnd Hperm).
  generalize (default 0 (Py.dict_get site net_demands)). intros n.
  cbn. lia.
Qed.

(** ** Further facts: the choice of a depot *)

Section BestDepot.
Import DepotOptimizer.
Variable lead_times : gmap string (gmap string Z).

Lemma candidate_Some shipping_costs site demand depot available c :
  candidate lead_times shipping_costs site demand (depot, available) = Some c ->
  0 < available /\
  exists lead, lookup2 lead_times depot site = Some lead /\
               c.1 = (depot, Z.min demand available) /\
               (shipping_costs = None -> c.2 = Py.NInt lead).
Proof.
  unfold candidate. destruct (Z.leb_spec available 0); [done|].
  destruct (lookup2 lead_times depot site) as [lead|]; [|done].
  intros [= <-]. split; [lia|]. exists lead. split_and!; [done|done|].
  by intros ->.
Qed.

Lemma candidate_None shipping_costs site demand depot available :
  candidate lead_times shipping_costs site demand (depot, available) = None <->
  available <= 0 \/ lookup2 lead_times depot site = None.
Proof.
  unfold candidate. destruct (Z.leb_spec available 0) as [Hle|Hgt].
  { split; [by left | done]. }
  destruct (lookup2 lead_times depot site) as [lead|].
  - split; [done | intros [?|?]; [lia | done]].
  - split; [by right | done].
Qed.
End BestDepot.

(** (depot_optimizer.py, _find_best_depot) No depot is returned exactly
    when none can serve the site: every depot of the inventory is out of
    stock or has no lead-time entry for the site.  The shipping costs play
    no part in this. *)
Theorem no_depot_iff_none_can_serve
    (lead_times : gmap string (gmap string Z))
    (shipping_costs : option (gmap string (gmap string float)))
    (site_id : string) (demand : Z) (depot_inventory : list (string * Z)) :
  DepotOptimizer._find_best_depot lead_times shipping_costs site_id demand depot_inventory
  = None
  <->
  Forall (fun depot => depot.2 <= 0 \/
                       DepotOptimizer.lookup2 lead_times depot.1 site_id = None)
         depot_inventory.
Proof.
  unfold DepotOptimizer._find_best_depot.
  set (cands := omap (DepotOptimizer.candidate lead_times shipping_costs site_id demand)
                     depot_inventory).
  assert (Hnil : cands = [] <->
                 Forall (fun depot => depot.2 <= 0 \/
                           DepotOptimizer.lookup2 lead_times depot.1 site_id = None)
                        depot_inventory).
  { subst cands. induction depot_inventory as [|[d a] r IH]; cbn [omap list_omap].
    - split; [intros _; constructor | done].
    - rewrite Forall_cons. cbn [fst snd]. rewrite <- IH, <- (candidate_None lead_times shipping_costs site_id demand).
      destruct (DepotOptimizer.candidate lead_times shipping_costs site_id demand (d, a));
        [split; [done | by intros [? _]] | tauto]. }
  rewrite <- Hnil.
  pose proof (stable_sort_perm snd Py.num_lt cands) as Hperm.
  destruct (Py.stable_sort snd Py.num_lt cands) as [|[[d q] sc] rest].
  - apply Permutation_nil_l in Hperm. by rewrite <- Hperm.
  - split; [done|]. intros Hc. rewrite Hc in Hperm.
    by apply Permutation_nil_r in Hperm.
Qed.

Lemma no_depot_iff_none_can_serve_witness :
  DepotOptimizer._find_best_depot example_two_lead_times None "C" 50 example_two_depots
  = None.
Proof.
  apply (proj2 (no_depot_iff_none_can_serve example_two_lead_times None "C" 50
                  example_two_depots)).
  repeat constructor; right; vm_compute; reflexivity.
Defined.

(** (depot_optimizer.py, _find_best_depot) Without shipping costs the
    depot returned is a nearest one: it has stock and a lead-time entry for
    the site, no depot with stock has a shorter lead time to the site, and
    the quantity returned is the demand cut to the depot's stock. *)
Theorem nearest_depot_is_chosen
    (lead_times : gmap string (gmap string Z))
    (site_id : string) (demand : Z) (depot_inventory : list (string * Z))
    (best_depot_id : string) (best_qty : Z) :
  DepotOptimizer._find_best_depot lead_times None site_id demand depot_inventory
  = Some (best_depot_id, best_qty) ->
  exists available lead_time,
    (best_depot_id, available) ∈ depot_inventory /\ 0 < available /\
    best_qty = Z.min demand available /\
    DepotOptimizer.lookup2 lead_times best_depot_id site_id = Some lead_time /\
    forall depot_id stock other,
      (depot_id, stock) ∈ depot_inventory -> 0 < stock ->
      DepotOptimizer.lookup2 lead_times depot_id site_id = Some other ->
      lead_time <= other.
Proof.
  unfold DepotOptimizer._find_best_depot.
  set (cands := omap (DepotOptimizer.candidate lead_times None site_id demand)
                     depot_inventory).
  assert (Hcands : Forall (fun c => exists z, c.2 = Py.NInt z) cands).
  { apply Forall_forall. intros c Hc. apply list_elem_of_omap in Hc as ([d a] & _ & Hc).
    apply candidate_Some in Hc as (_ & lead & _ & _ & Hsc). exists lead. by apply Hsc. }
  pose proof (stable_sort_perm snd Py.num_lt cands) as Hperm.
  pose proof (stable_sort_ordered (A := string * Z * Py.num) snd Py.num_lt
                (fun c => exists z, c.2 = Py.NInt z)) as Hord.
  assert (Hsorted : ForallOrdPairs (fun a b : string * Z * Py.num =>
                                      Py.num_lt b.2 a.2 = false)
                                   (Py.stable_sort snd Py.num_lt cands)).
  { apply Hord; [| |exact Hcands].
    - intros x y [zx Hx] [zy Hy]. rewrite Hx, Hy. cbn.
      intros H%Z.ltb_lt. apply Z.ltb_ge. lia.
    - intros x y z [zx Hx] [zy Hy] [zz Hz]. rewrite Hx, Hy, Hz. cbn.
      intros H1%Z.ltb_ge H2%Z.ltb_ge. apply Z.ltb_ge. lia. }
  destruct (Py.stable_sort snd Py.num_lt cands) as [|[[d q] sc] rest]; [done|].
  intros [= -> ->].
  assert (Hin : (best_depot_id, best_qty, sc) ∈ cands).
  { rewrite <- Hperm. apply elem_of_cons. by left. }
  apply list_elem_of_omap in Hin as ([d a] & Hda & Hc).
  apply candidate_Some in Hc as (Ha & lead & Hlead & [= <- ->] & Hsc).
  cbn in Hsc. specialize (Hsc eq_refl). subst sc.
  exists a, lead. split_and!; [done..|].
  intros depot_id stock other Hin' Hstock Hother.
  destruct (DepotOptimizer.candidate lead_times None site_id demand (depot_id, stock))
    as [c|] eqn:Hc'.
  2:{ apply candidate_None in Hc' as [?|?]; [lia | congruence]. }
  assert (Hcin : c ∈ cands).
  { apply list_elem_of_omap. by exists (depot_id, stock). }
  apply candidate_Some in Hc' as (_ & lead' & Hlead' & _ & Hsc').
  specialize (Hsc' eq_refl). rewrite Hother in Hlead'. injection Hlead' as <-.
  rewrite <- Hperm in Hcin. apply elem_of_cons in Hcin as [->|Hcin].
  - cbn in Hsc'. injection Hsc' as ->. lia.
  - inversion Hsorted as [|? ? Hhd _]; subst.
    rewrite List.Forall_forall in Hhd. apply list_elem_of_In in Hcin.
    specialize (Hhd c Hcin). cbn in Hhd. rewrite Hsc' in Hhd. cbn in Hhd.
    apply Z.ltb_ge in Hhd. lia.
Qed.

Lemma nearest_depot_is_chosen_witness :
  DepotOptimizer._find_best_depot example_two_lead_times None "A" 50 example_two_depots
  = Some ("D1"%string, 30) /\
  exists available lead_time,
    ("D1"%string, available) ∈ example_two_depots /\ 0 < available /\
    30 = Z.min 50 available /\
    DepotOptimizer.lookup2 example_two_lead_times "D1" "A" = Some lead_time.
Proof.
  assert (H : DepotOptimizer._find_best_depot example_two_lead_times None "A" 50
                example_two_depots = Some ("D1"%string, 30)) by (vm_compute; reflexivity).
  split; [exact H|].
  destruct (nearest_depot_is_chosen example_two_lead_times "A" 50 example_two_depots
              "D1" 30 H) as (available & lead_time & H1 & H2 & H3 & H4 & _).
  exists available, lead_time. by split_and!.
Defined.

(** ** Further facts: routing *)

Section Routing.
Import Orchestrator.
Variable cfg : Config.t.
Variable e : env.

(** The rule lane's entries stand in [results]. *)
Lemma rule_lane_in_results o (site_features : list Features.row) row :
  row ∈ rules_sites_of cfg o (sort_by_priority site_features) ->
  rule_entry cfg (sort_by_priority site_features) 0 row
  ∈ (run_sites cfg e o site_features).2.
Proof.
  intros Hrow. unfold run_sites.
  destruct (match llm_sites_of cfg o (sort_by_priority site_features) with
            | [] => _ | _ => _ end) as [o1 rs].
  cbn [snd]. apply list_elem_of_fmap.
  exists (_process_site_with_rules cfg row (Features.site_id row)).
  split; [reflexivity|]. apply elem_of_app. right.
  apply list_elem_of_fmap. exists row. split; [done|].
  destruct (use_parallel o1); [|done]. by rewrite as_completed_perm.
Qed.

Lemma selective_routing failures row :
  Config.USE_SELECTIVE_LLM cfg = true ->
  _should_use_llm cfg (orchestrator_at cfg failures) row
  = llm_available (attributes cfg) &&
    (PrimFloat.leb (Config.LLM_PRIORITY_THRESHOLD cfg) (Features.urgency_score row)
     || (Features.days_to_expiry row <=? Config.LLM_EXPIRY_THRESHOLD cfg)
     || (Features.current_inventory row <? Features.projected_30d_demand row)).
Proof.
  intros Hsel. unfold _should_use_llm, orchestrator_at, attributes.
  destruct (GeminiClient.init cfg); cbn; rewrite Hsel; cbn; [|done].
  destruct (PrimFloat.leb _ _); [done|].
  destruct (_ <=? _); [done|]. by destruct (_ <? _).
Qed.
End Routing.

(** (orchestrator.py, _should_use_llm) With selective routing on, as it is
    by default, the failure counter plays no part in routing: the sites sent
    to the client are chosen on their features alone, the same whatever the
    counter stands at, the failure budget included. *)
Theorem selective_routing_ignores_failures (cfg : Config.t)
    (failures failures' : Z) (sites_list : list Features.row) :
  Config.USE_SELECTIVE_LLM cfg = true ->
  Orchestrator.llm_sites_of cfg (orchestrator_at cfg failures) sites_list
  = Orchestrator.llm_sites_of cfg (orchestrator_at cfg failures') sites_list.
Proof.
  intros Hsel. unfold Orchestrator.llm_sites_of.
  induction sites_list as [|row rest IH]; [done|].
  rewrite !filter_cons, IH.
  by rewrite (selective_routing cfg failures row Hsel),
             (selective_routing cfg failures' row Hsel).
Qed.

Lemma selective_routing_ignores_failures_witness :
  Config.USE_SELECTIVE_LLM two_key_config = true /\
  Orchestrator.llm_sites_of two_key_config (orchestrator_at two_key_config 5)
                            [example_site; routine_site]
  = Orchestrator.llm_sites_of two_key_config (orchestrator_at two_key_config 0)
                              [example_site; routine_site].
Proof.
  assert (H : Config.USE_SELECTIVE_LLM two_key_config = true) by reflexivity.
  split; [exact H|].
  exact (selective_routing_ignores_failures two_key_config 5 0
           [example_site; routine_site] H).
Defined.

(** (orchestrator.py, _should_use_llm and run) With selective routing on, a
    routine site (urgency below the priority threshold, expiry beyond the
    expiry threshold, inventory not below the demand) is never sent to the
    client: its entry in [results] is its rule entry, whatever the service
    does. *)
Theorem routine_sites_decided_by_rules (cfg : Config.t) (e : Orchestrator.env)
    (failures : Z) (site_features : list Features.row) (row : Features.row) :
  Config.USE_SELECTIVE_LLM cfg = true ->
  row ∈ site_features ->
  PrimFloat.leb (Config.LLM_PRIORITY_THRESHOLD cfg) (Features.urgency_score row) = false ->
  Config.LLM_EXPIRY_THRESHOLD cfg < Features.days_to_expiry row ->
  Features.projected_30d_demand row <= Features.current_inventory row ->
  (row ∉ Orchestrator.llm_sites_of cfg (orchestrator_at cfg failures)
           (Orchestrator.sort_by_priority site_features)) /\
  (rule_entry cfg (Orchestrator.sort_by_priority site_features) 0 row
   ∈ (Orchestrator.run_sites cfg e (orchestrator_at cfg failures) site_features).2).
Proof.
  intros Hsel Hin Hurgency Hexpiry Hstock.
  assert (Hno : Orchestrator._should_use_llm cfg (orchestrator_at cfg failures) row = false).
  { rewrite selective_routing by done. rewrite Hurgency.
    assert ((Features.days_to_expiry row <=? Config.LLM_EXPIRY_THRESHOLD cfg) = false) as ->
      by (apply Z.leb_gt; lia).
    assert ((Features.current_inventory row <? Features.projected_30d_demand row) = false)
      as ->
      by (apply Z.ltb_ge; lia).
    apply andb_false_r. }
  split.
  - unfold Orchestrator.llm_sites_of. intros [Hyes _]%list_elem_of_filter. congruence.
  - apply rule_lane_in_results. unfold Orchestrator.rules_sites_of.
    apply list_elem_of_filter. split; [done|].
    unfold Orchestrator.sort_by_priority. by rewrite stable_sort_perm.
Qed.

Lemma routine_sites_decided_by_rules_witness :
  Config.USE_SELECTIVE_LLM two_key_config = true /\
  (routine_site ∈ [example_site; routine_site]) /\
  PrimFloat.leb (Config.LLM_PRIORITY_THRESHOLD two_key_config)
                (Features.urgency_score routine_site) = false /\
  Config.LLM_EXPIRY_THRESHOLD two_key_config < Features.days_to_expiry routine_site /\
  Features.projected_30d_demand routine_site <= Features.current_inventory routine_site /\
  (rule_entry two_key_config
     (Orchestrator.sort_by_priority [example_site; routine_site]) 0 routine_site
   ∈ (Orchestrator.run_sites two_key_config recovering_service
        (orchestrator_at two_key_config 0) [example_site; routine_site]).2).
Proof.
  assert (H1 : Config.USE_SELECTIVE_LLM two_key_config = true) by reflexivity.
  assert (H2 : routine_site ∈ [example_site; routine_site]).
  { apply elem_of_cons. right. apply elem_of_cons. by left. }
  assert (H3 : PrimFloat.leb (Config.LLM_PRIORITY_THRESHOLD two_key_config)
                 (Features.urgency_score routine_site) = false) by reflexivity.
  assert (H4 : Config.LLM_EXPIRY_THRESHOLD two_key_config
               < Features.days_to_expiry routine_site) by (vm_compute; reflexivity).
  assert (H5 : Features.projected_30d_demand routine_site
               <= Features.current_inventory routine_site) by (vm_compute; discriminate).
  split_and!; [exact H1 | exact H2 | exact H3 | exact H4 | exact H5 |].
  exact (proj2 (routine_sites_decided_by_rules two_key_config recovering_service 0
                  [example_site; routine_site] routine_site H1 H2 H3 H4 H5)).
Defined.
